(** * The date-allocation state machine of acf-buy-a-day

    A shallow embedding of the request handlers that move a calendar day
    between AVAILABLE, CHECKOUT_HOLD, SOLD and ADMIN_HOLD, of the Stripe
    webhook that finalises a sale, and of the public calendar projection.

    Conventions.
    - A [Date] is its epoch time in milliseconds; the [date] column of a
      calendar day (a calendar date at UTC midnight) is kept as the ISO text
      [toISOString().split('T')[0]] of that value, "2027-03-15".
    - A nullable column is an [option]; JavaScript truthiness of a nullable
      string is [truthy].
    - The database is a record of tables; a table is the list of its rows in
      insertion order.  [prisma.$transaction] runs its body on the database
      and keeps the writes only when the body returns.
    - Clock reads, random tokens, the rate limiter, the session, the Stripe
      signature check and the Stripe API answers are inputs of a request. *)

From Stdlib Require Import String Ascii List ZArith Bool Lia DecimalString DecimalNat.
Import ListNotations.

Local Open Scope string_scope.
Local Open Scope Z_scope.

(** ** JavaScript values *)

Definition Date := Z.

(** [!!s] for a [string | null | undefined]. *)
Definition truthy (s : option string) : bool :=
  match s with
  | Some "" => false
  | Some _ => true
  | None => false
  end.

(** [a || b] on nullable strings. *)
Definition orElse (a b : option string) : option string :=
  if truthy a then a else b.

(** [a || null]. *)
Definition orNull (a : option string) : option string := orElse a None.

(** [a || 'literal']. *)
Definition orDefault (a : option string) (d : string) : string :=
  match a with
  | Some s => if truthy a then s else d
  | None => d
  end.

Definition isSome {A : Type} (o : option A) : bool :=
  match o with Some _ => true | None => false end.

(** [String(n)] for a non-negative integer. *)
Definition String_of_nat (n : nat) : string :=
  NilZero.string_of_uint (Nat.to_uint n).

Fixpoint repeat_char (c : ascii) (n : nat) : string :=
  match n with
  | O => ""
  | S k => String c (repeat_char c k)
  end.

(** [s.padStart(width, '0')]. *)
Definition padStart0 (s : string) (width : nat) : string :=
  repeat_char "0" (width - String.length s) ++ s.

(** [msg.split(':')[1]]: the text between the first and the second colon. *)
Fixpoint upto_colon (s : string) : string :=
  match s with
  | "" => ""
  | String c r => if Ascii.eqb c ":" then "" else String c (upto_colon r)
  end.

Fixpoint split_colon_1 (s : string) : option string :=
  match s with
  | "" => None
  | String c r => if Ascii.eqb c ":" then Some (upto_colon r) else split_colon_1 r
  end.

(** ** Data model (prisma/schema.prisma as the handlers use it) *)

Inductive DayStatus := AVAILABLE | CHECKOUT_HOLD | SOLD | ADMIN_HOLD.

Definition DayStatus_eqb (a b : DayStatus) : bool :=
  match a, b with
  | AVAILABLE, AVAILABLE | CHECKOUT_HOLD, CHECKOUT_HOLD
  | SOLD, SOLD | ADMIN_HOLD, ADMIN_HOLD => true
  | _, _ => false
  end.

(** The text of a status, as it appears in `${day.status}`. *)
Definition DayStatus_text (s : DayStatus) : string :=
  match s with
  | AVAILABLE => "AVAILABLE"
  | CHECKOUT_HOLD => "CHECKOUT_HOLD"
  | SOLD => "SOLD"
  | ADMIN_HOLD => "ADMIN_HOLD"
  end.

Record BillingAddress := {
  line1 : string;
  line2 : option string;
  city : string;
  state : string;
  postal_code : string;
  country : string;
}.

(** The [billingAddress] Json column: an address object, or the empty
    object that the webhook stores when the metadata does not parse. *)
Inductive Json := JsonAddress (a : BillingAddress) | JsonEmptyObject.

(** Modelled from the spec: prisma/schema.prisma is not among the sources.
    A calendar day is the ResourceUnit of the data model, under the column
    names that the handlers and [AdminCalendarDay] of src/types/index.ts
    use. *)
Module Day.
Record t := {
  id : string;
  date : string;
  status : DayStatus;
  dedicationText : option string;
  buyerFirstName : option string;
  buyerLastName : option string;
  buyerEmail : option string;
  buyerPhone : option string;
  billingAddress : option Json;
  contactOptIn : bool;
  stripePaymentIntentId : option string;
  orderId : option string;
  amountPaidCents : option Z;
  paidAt : option Date;
  holdToken : option string;
  holdExpiresAt : option Date;
  adminNote : option string;
}.
End Day.
Definition CalendarDay := Day.t.

(** A value inside an audit snapshot ([Record<string, unknown>]). *)
Inductive Value :=
| VStatus (s : DayStatus)
| VString (s : string)
| VNumber (n : Z)
| VBool (b : bool)
| VDate (d : Date)
| VNull
| VUndefined.

Definition Snapshot := list (string * Value).

Definition VNullableString (s : option string) : Value :=
  match s with Some x => VString x | None => VNull end.

Definition VOptionalString (s : option string) : Value :=
  match s with Some x => VString x | None => VUndefined end.

Definition VNullableNumber (n : option Z) : Value :=
  match n with Some x => VNumber x | None => VNull end.

Fixpoint field (name : string) (s : Snapshot) : option Value :=
  match s with
  | [] => None
  | (k, v) :: r => if String.eqb k name then Some v else field name r
  end.

(** [snapshot.status] when it is a day status. *)
Definition snapshot_status (s : option Snapshot) : option DayStatus :=
  match s with
  | Some fs => match field "status" fs with
               | Some (VStatus st) => Some st
               | _ => None
               end
  | None => None
  end.

Module Audit.
Record t := {
  calendarDayId : string;
  action : string;
  oldValue : option Snapshot;
  newValue : option Snapshot;
  performedBy : string;
  ipAddress : option string;
  notes : option string;
}.
End Audit.
Definition AuditLog := Audit.t.

(** src/lib/auditLog.ts *)
Module AUDIT_ACTIONS.
Definition STATUS_CHANGE := "STATUS_CHANGE".
Definition TEXT_EDIT := "TEXT_EDIT".
Definition HOLD_CREATED := "HOLD_CREATED".
Definition HOLD_RELEASED := "HOLD_RELEASED".
Definition CHECKOUT_HOLD_CREATED := "CHECKOUT_HOLD_CREATED".
Definition CHECKOUT_HOLD_EXPIRED := "CHECKOUT_HOLD_EXPIRED".
Definition PAYMENT_RECEIVED := "PAYMENT_RECEIVED".
Definition REFUND_ISSUED := "REFUND_ISSUED".
Definition DATE_RESTORED := "DATE_RESTORED".
End AUDIT_ACTIONS.

Module Settings.
Record t := {
  emojisAllowed : bool;
  textRequired : bool;
  priceInCents : Z;
  calendarYear : nat;
  salesStartDate : option Date;
  salesEndDate : option Date;
  acfAdminEmail : string;
}.
End Settings.
Definition AdminSettings := Settings.t.

(** The database: the three tables the handlers touch.  The rows of
    [calendarDay] are created by the seed alone; no handler inserts or
    deletes one. *)
Record DB := {
  calendarDay : list CalendarDay;
  auditLog : list AuditLog;
  adminSettings : option AdminSettings;
}.

Definition with_days (db : DB) (days : list CalendarDay) : DB :=
  {| calendarDay := days; auditLog := auditLog db; adminSettings := adminSettings db |}.

Definition with_audit (db : DB) (logs : list AuditLog) : DB :=
  {| calendarDay := calendarDay db; auditLog := logs; adminSettings := adminSettings db |}.

(** Column writes of [calendarDay.update({ data })]: [Col.c v] is the [c: v]
    entry of a [data] object. *)
Module Col.
Definition status (v : DayStatus) (d : CalendarDay) : CalendarDay :=
  {| Day.id := Day.id d;
     Day.date := Day.date d;
     Day.status := v;
     Day.dedicationText := Day.dedicationText d;
     Day.buyerFirstName := Day.buyerFirstName d;
     Day.buyerLastName := Day.buyerLastName d;
     Day.buyerEmail := Day.buyerEmail d;
     Day.buyerPhone := Day.buyerPhone d;
     Day.billingAddress := Day.billingAddress d;
     Day.contactOptIn := Day.contactOptIn d;
     Day.stripePaymentIntentId := Day.stripePaymentIntentId d;
     Day.orderId := Day.orderId d;
     Day.amountPaidCents := Day.amountPaidCents d;
     Day.paidAt := Day.paidAt d;
     Day.holdToken := Day.holdToken d;
     Day.holdExpiresAt := Day.holdExpiresAt d;
     Day.adminNote := Day.adminNote d |}.
Definition dedicationText (v : option string) (d : CalendarDay) : CalendarDay :=
  {| Day.id := Day.id d;
     Day.date := Day.date d;
     Day.status := Day.status d;
     Day.dedicationText := v;
     Day.buyerFirstName := Day.buyerFirstName d;
     Day.buyerLastName := Day.buyerLastName d;
     Day.buyerEmail := Day.buyerEmail d;
     Day.buyerPhone := Day.buyerPhone d;
     Day.billingAddress := Day.billingAddress d;
     Day.contactOptIn := Day.contactOptIn d;
     Day.stripePaymentIntentId := Day.stripePaymentIntentId d;
     Day.orderId := Day.orderId d;
     Day.amountPaidCents := Day.amountPaidCents d;
     Day.paidAt := Day.paidAt d;
     Day.holdToken := Day.holdToken d;
     Day.holdExpiresAt := Day.holdExpiresAt d;
     Day.adminNote := Day.adminNote d |}.
Definition buyerFirstName (v : option string) (d : CalendarDay) : CalendarDay :=
  {| Day.id := Day.id d;
     Day.date := Day.date d;
     Day.status := Day.status d;
     Day.dedicationText := Day.dedicationText d;
     Day.buyerFirstName := v;
     Day.buyerLastName := Day.buyerLastName d;
     Day.buyerEmail := Day.buyerEmail d;
     Day.buyerPhone := Day.buyerPhone d;
     Day.billingAddress := Day.billingAddress d;
     Day.contactOptIn := Day.contactOptIn d;
     Day.stripePaymentIntentId := Day.stripePaymentIntentId d;
     Day.orderId := Day.orderId d;
     Day.amountPaidCents := Day.amountPaidCents d;
     Day.paidAt := Day.paidAt d;
     Day.holdToken := Day.holdToken d;
     Day.holdExpiresAt := Day.holdExpiresAt d;
     Day.adminNote := Day.adminNote d |}.
Definition buyerLastName (v : option string) (d : CalendarDay) : CalendarDay :=
  {| Day.id := Day.id d;
     Day.date := Day.date d;
     Day.status := Day.status d;
     Day.dedicationText := Day.dedicationText d;
     Day.buyerFirstName := Day.buyerFirstName d;
     Day.buyerLastName := v;
     Day.buyerEmail := Day.buyerEmail d;
     Day.buyerPhone := Day.buyerPhone d;
     Day.billingAddress := Day.billingAddress d;
     Day.contactOptIn := Day.contactOptIn d;
     Day.stripePaymentIntentId := Day.stripePaymentIntentId d;
     Day.orderId := Day.orderId d;
     Day.amountPaidCents := Day.amountPaidCents d;
     Day.paidAt := Day.paidAt d;
     Day.holdToken := Day.holdToken d;
     Day.holdExpiresAt := Day.holdExpiresAt d;
     Day.adminNote := Day.adminNote d |}.
Definition buyerEmail (v : option string) (d : CalendarDay) : CalendarDay :=
  {| Day.id := Day.id d;
     Day.date := Day.date d;
     Day.status := Day.status d;
     Day.dedicationText := Day.dedicationText d;
     Day.buyerFirstName := Day.buyerFirstName d;
     Day.buyerLastName := Day.buyerLastName d;
     Day.buyerEmail := v;
     Day.buyerPhone := Day.buyerPhone d;
     Day.billingAddress := Day.billingAddress d;
     Day.contactOptIn := Day.contactOptIn d;
     Day.stripePaymentIntentId := Day.stripePaymentIntentId d;
     Day.orderId := Day.orderId d;
     Day.amountPaidCents := Day.amountPaidCents d;
     Day.paidAt := Day.paidAt d;
     Day.holdToken := Day.holdToken d;
     Day.holdExpiresAt := Day.holdExpiresAt d;
     Day.adminNote := Day.adminNote d |}.
Definition buyerPhone (v : option string) (d : CalendarDay) : CalendarDay :=
  {| Day.id := Day.id d;
     Day.date := Day.date d;
     Day.status := Day.status d;
     Day.dedicationText := Day.dedicationText d;
     Day.buyerFirstName := Day.buyerFirstName d;
     Day.buyerLastName := Day.buyerLastName d;
     Day.buyerEmail := Day.buyerEmail d;
     Day.buyerPhone := v;
     Day.billingAddress := Day.billingAddress d;
     Day.contactOptIn := Day.contactOptIn d;
     Day.stripePaymentIntentId := Day.stripePaymentIntentId d;
     Day.orderId := Day.orderId d;
     Day.amountPaidCents := Day.amountPaidCents d;
     Day.paidAt := Day.paidAt d;
     Day.holdToken := Day.holdToken d;
     Day.holdExpiresAt := Day.holdExpiresAt d;
     Day.adminNote := Day.adminNote d |}.
Definition billingAddress (v : option Json) (d : CalendarDay) : CalendarDay :=
  {| Day.id := Day.id d;
     Day.date := Day.date d;
     Day.status := Day.status d;
     Day.dedicationText := Day.dedicationText d;
     Day.buyerFirstName := Day.buyerFirstName d;
     Day.buyerLastName := Day.buyerLastName d;
     Day.buyerEmail := Day.buyerEmail d;
     Day.buyerPhone := Day.buyerPhone d;
     Day.billingAddress := v;
     Day.contactOptIn := Day.contactOptIn d;
     Day.stripePaymentIntentId := Day.stripePaymentIntentId d;
     Day.orderId := Day.orderId d;
     Day.amountPaidCents := Day.amountPaidCents d;
     Day.paidAt := Day.paidAt d;
     Day.holdToken := Day.holdToken d;
     Day.holdExpiresAt := Day.holdExpiresAt d;
     Day.adminNote := Day.adminNote d |}.
Definition contactOptIn (v : bool) (d : CalendarDay) : CalendarDay :=
  {| Day.id := Day.id d;
     Day.date := Day.date d;
     Day.status := Day.status d;
     Day.dedicationText := Day.dedicationText d;
     Day.buyerFirstName := Day.buyerFirstName d;
     Day.buyerLastName := Day.buyerLastName d;
     Day.buyerEmail := Day.buyerEmail d;
     Day.buyerPhone := Day.buyerPhone d;
     Day.billingAddress := Day.billingAddress d;
     Day.contactOptIn := v;
     Day.stripePaymentIntentId := Day.stripePaymentIntentId d;
     Day.orderId := Day.orderId d;
     Day.amountPaidCents := Day.amountPaidCents d;
     Day.paidAt := Day.paidAt d;
     Day.holdToken := Day.holdToken d;
     Day.holdExpiresAt := Day.holdExpiresAt d;
     Day.adminNote := Day.adminNote d |}.
Definition stripePaymentIntentId (v : option string) (d : CalendarDay) : CalendarDay :=
  {| Day.id := Day.id d;
     Day.date := Day.date d;
     Day.status := Day.status d;
     Day.dedicationText := Day.dedicationText d;
     Day.buyerFirstName := Day.buyerFirstName d;
     Day.buyerLastName := Day.buyerLastName d;
     Day.buyerEmail := Day.buyerEmail d;
     Day.buyerPhone := Day.buyerPhone d;
     Day.billingAddress := Day.billingAddress d;
     Day.contactOptIn := Day.contactOptIn d;
     Day.stripePaymentIntentId := v;
     Day.orderId := Day.orderId d;
     Day.amountPaidCents := Day.amountPaidCents d;
     Day.paidAt := Day.paidAt d;
     Day.holdToken := Day.holdToken d;
     Day.holdExpiresAt := Day.holdExpiresAt d;
     Day.adminNote := Day.adminNote d |}.
Definition orderId (v : option string) (d : CalendarDay) : CalendarDay :=
  {| Day.id := Day.id d;
     Day.date := Day.date d;
     Day.status := Day.status d;
     Day.dedicationText := Day.dedicationText d;
     Day.buyerFirstName := Day.buyerFirstName d;
     Day.buyerLastName := Day.buyerLastName d;
     Day.buyerEmail := Day.buyerEmail d;
     Day.buyerPhone := Day.buyerPhone d;
     Day.billingAddress := Day.billingAddress d;
     Day.contactOptIn := Day.contactOptIn d;
     Day.stripePaymentIntentId := Day.stripePaymentIntentId d;
     Day.orderId := v;
     Day.amountPaidCents := Day.amountPaidCents d;
     Day.paidAt := Day.paidAt d;
     Day.holdToken := Day.holdToken d;
     Day.holdExpiresAt := Day.holdExpiresAt d;
     Day.adminNote := Day.adminNote d |}.
Definition amountPaidCents (v : option Z) (d : CalendarDay) : CalendarDay :=
  {| Day.id := Day.id d;
     Day.date := Day.date d;
     Day.status := Day.status d;
     Day.dedicationText := Day.dedicationText d;
     Day.buyerFirstName := Day.buyerFirstName d;
     Day.buyerLastName := Day.buyerLastName d;
     Day.buyerEmail := Day.buyerEmail d;
     Day.buyerPhone := Day.buyerPhone d;
     Day.billingAddress := Day.billingAddress d;
     Day.contactOptIn := Day.contactOptIn d;
     Day.stripePaymentIntentId := Day.stripePaymentIntentId d;
     Day.orderId := Day.orderId d;
     Day.amountPaidCents := v;
     Day.paidAt := Day.paidAt d;
     Day.holdToken := Day.holdToken d;
     Day.holdExpiresAt := Day.holdExpiresAt d;
     Day.adminNote := Day.adminNote d |}.
Definition paidAt (v : option Date) (d : CalendarDay) : CalendarDay :=
  {| Day.id := Day.id d;
     Day.date := Day.date d;
     Day.status := Day.status d;
     Day.dedicationText := Day.dedicationText d;
     Day.buyerFirstName := Day.buyerFirstName d;
     Day.buyerLastName := Day.buyerLastName d;
     Day.buyerEmail := Day.buyerEmail d;
     Day.buyerPhone := Day.buyerPhone d;
     Day.billingAddress := Day.billingAddress d;
     Day.contactOptIn := Day.contactOptIn d;
     Day.stripePaymentIntentId := Day.stripePaymentIntentId d;
     Day.orderId := Day.orderId d;
     Day.amountPaidCents := Day.amountPaidCents d;
     Day.paidAt := v;
     Day.holdToken := Day.holdToken d;
     Day.holdExpiresAt := Day.holdExpiresAt d;
     Day.adminNote := Day.adminNote d |}.
Definition holdToken (v : option string) (d : CalendarDay) : CalendarDay :=
  {| Day.id := Day.id d;
     Day.date := Day.date d;
     Day.status := Day.status d;
     Day.dedicationText := Day.dedicationText d;
     Day.buyerFirstName := Day.buyerFirstName d;
     Day.buyerLastName := Day.buyerLastName d;
     Day.buyerEmail := Day.buyerEmail d;
     Day.buyerPhone := Day.buyerPhone d;
     Day.billingAddress := Day.billingAddress d;
     Day.contactOptIn := Day.contactOptIn d;
     Day.stripePaymentIntentId := Day.stripePaymentIntentId d;
     Day.orderId := Day.orderId d;
     Day.amountPaidCents := Day.amountPaidCents d;
     Day.paidAt := Day.paidAt d;
     Day.holdToken := v;
     Day.holdExpiresAt := Day.holdExpiresAt d;
     Day.adminNote := Day.adminNote d |}.
Definition holdExpiresAt (v : option Date) (d : CalendarDay) : CalendarDay :=
  {| Day.id := Day.id d;
     Day.date := Day.date d;
     Day.status := Day.status d;
     Day.dedicationText := Day.dedicationText d;
     Day.buyerFirstName := Day.buyerFirstName d;
     Day.buyerLastName := Day.buyerLastName d;
     Day.buyerEmail := Day.buyerEmail d;
     Day.buyerPhone := Day.buyerPhone d;
     Day.billingAddress := Day.billingAddress d;
     Day.contactOptIn := Day.contactOptIn d;
     Day.stripePaymentIntentId := Day.stripePaymentIntentId d;
     Day.orderId := Day.orderId d;
     Day.amountPaidCents := Day.amountPaidCents d;
     Day.paidAt := Day.paidAt d;
     Day.holdToken := Day.holdToken d;
     Day.holdExpiresAt := v;
     Day.adminNote := Day.adminNote d |}.
Definition adminNote (v : option string) (d : CalendarDay) : CalendarDay :=
  {| Day.id := Day.id d;
     Day.date := Day.date d;
     Day.status := Day.status d;
     Day.dedicationText := Day.dedicationText d;
     Day.buyerFirstName := Day.buyerFirstName d;
     Day.buyerLastName := Day.buyerLastName d;
     Day.buyerEmail := Day.buyerEmail d;
     Day.buyerPhone := Day.buyerPhone d;
     Day.billingAddress := Day.billingAddress d;
     Day.contactOptIn := Day.contactOptIn d;
     Day.stripePaymentIntentId := Day.stripePaymentIntentId d;
     Day.orderId := Day.orderId d;
     Day.amountPaidCents := Day.amountPaidCents d;
     Day.paidAt := Day.paidAt d;
     Day.holdToken := Day.holdToken d;
     Day.holdExpiresAt := Day.holdExpiresAt d;
     Day.adminNote := v |}.
End Col.

(** ** Prisma: queries, writes and interactive transactions *)

Inductive Outcome (A : Type) :=
| Returned (a : A)
| Thrown (message : string).
Arguments Returned {A} a.
Arguments Thrown {A} message.

(** A computation on the database that may throw. *)
Definition Tx (A : Type) : Type := DB -> Outcome (A * DB).

Definition ret {A : Type} (a : A) : Tx A := fun db => Returned (a, db).

Definition throw {A : Type} (message : string) : Tx A := fun _ => Thrown message.

Definition bind {A B : Type} (c : Tx A) (k : A -> Tx B) : Tx B :=
  fun db => match c db with
            | Returned (a, db') => k a db'
            | Thrown m => Thrown m
            end.

Declare Scope tx_scope.
Delimit Scope tx_scope with tx.
Notation "x <- c ;; k" := (bind c (fun x => k))
  (at level 61, c at next level, right associativity) : tx_scope.
Notation "c ;;; k" := (bind c (fun _ => k))
  (at level 61, right associativity) : tx_scope.

(** [prisma.$transaction(async (tx) => body)]: all of the body's writes, or
    none of them when it throws. *)
Definition transaction {A : Type} (body : Tx A) (db : DB) : Outcome A * DB :=
  match body db with
  | Returned (a, db') => (Returned a, db')
  | Thrown m => (Thrown m, db)
  end.

Definition option_string_eqb (a b : option string) : bool :=
  match a, b with
  | Some x, Some y => String.eqb x y
  | None, None => true
  | _, _ => false
  end.

Definition by_id (i : string) (d : CalendarDay) : bool := String.eqb (Day.id d) i.
Definition by_date (k : string) (d : CalendarDay) : bool := String.eqb (Day.date d) k.
Definition by_stripePaymentIntentId (p : string) (d : CalendarDay) : bool :=
  option_string_eqb (Day.stripePaymentIntentId d) (Some p).

(** [calendarDay.findUnique({ where })] on one of the unique columns
    [id], [date], [stripePaymentIntentId]. *)
Definition findUnique (where_ : CalendarDay -> bool) : Tx (option CalendarDay) :=
  fun db => Returned (find where_ (calendarDay db), db).

(** [calendarDay.findMany({ where })], in table order. *)
Definition findMany (where_ : CalendarDay -> bool) : Tx (list CalendarDay) :=
  fun db => Returned (filter where_ (calendarDay db), db).

(** [calendarDay.count({ where })]. *)
Definition count (where_ : CalendarDay -> bool) : Tx nat :=
  fun db => Returned (List.length (filter where_ (calendarDay db)), db).

(** Modelled from the spec: the unique index on [stripePaymentIntentId]
    (schema.prisma is not among the sources; the handlers look a day up by
    it with [findUnique], the spec "looks up the resource by paymentRef"):
    writing a new non-null value that another row holds is refused. *)
Definition unique_violation (i : string) (old new : CalendarDay) (rows : list CalendarDay) : bool :=
  match Day.stripePaymentIntentId new with
  | Some p =>
      negb (option_string_eqb (Day.stripePaymentIntentId old) (Some p))
      && existsb (fun r => negb (by_id i r) && by_stripePaymentIntentId p r) rows
  | None => false
  end.

Definition replace_row (i : string) (data : CalendarDay -> CalendarDay) (rows : list CalendarDay)
  : list CalendarDay :=
  map (fun r => if by_id i r then data r else r) rows.

(** [calendarDay.update({ where: { id }, data })]; returns the written row. *)
Definition update (i : string) (data : CalendarDay -> CalendarDay) : Tx CalendarDay :=
  fun db =>
    match find (by_id i) (calendarDay db) with
    | None => Thrown "P2025: record to update not found"
    | Some old =>
        if unique_violation i old (data old) (calendarDay db)
        then Thrown "P2002: unique constraint failed on stripePaymentIntentId"
        else Returned (data old, with_days db (replace_row i data (calendarDay db)))
    end.

(** [auditLog.create({ data })]. *)
Definition auditLog_create (entry : AuditLog) : Tx unit :=
  fun db => Returned (tt, with_audit db (auditLog db ++ [entry])).

(** A statement issued on [prisma] itself, outside any transaction. *)
Definition statement {A : Type} (c : Tx A) (db : DB) : Outcome A * DB := transaction c db.

(** src/lib/auditLog.ts, [createAuditLog]. *)
Definition createAuditLog (entry : AuditLog) : Tx unit := auditLog_create entry.

(** ** src/lib/validation.ts *)

Module Validation.

Definition CALENDAR_YEAR : Z := 2027.

(** [\d] *)
Definition is_digit (c : ascii) : bool :=
  let n := nat_of_ascii c in (48 <=? n)%nat && (n <=? 57)%nat.

Definition digit (c : ascii) : Z := Z.of_nat (nat_of_ascii c) - 48.

(** [/^\d{4}-\d{2}-\d{2}$/] followed by [split('-').map(Number)]. *)
Definition parse_date (s : string) : option (Z * Z * Z) :=
  match s with
  | String y1 (String y2 (String y3 (String y4 (String h1
      (String m1 (String m2 (String h2 (String d1 (String d2 ""))))))))) =>
      if is_digit y1 && is_digit y2 && is_digit y3 && is_digit y4
         && Ascii.eqb h1 "-" && is_digit m1 && is_digit m2
         && Ascii.eqb h2 "-" && is_digit d1 && is_digit d2
      then Some (1000 * digit y1 + 100 * digit y2 + 10 * digit y3 + digit y4,
                 10 * digit m1 + digit m2,
                 10 * digit d1 + digit d2)
      else None
  | _ => None
  end.

Definition leap (y : Z) : bool :=
  ((y mod 4 =? 0) && negb (y mod 100 =? 0)) || (y mod 400 =? 0).

(** Days of the month with index [m] (0 = January). *)
Definition days_in_month (y m : Z) : Z :=
  if m =? 1 then (if leap y then 29 else 28)
  else if (m =? 3) || (m =? 5) || (m =? 8) || (m =? 10) then 30
  else 31.

(** Carry a day number beyond the end of its month into the next months. *)
Fixpoint carry_days (fuel : nat) (y m d : Z) : Z * Z * Z :=
  match fuel with
  | O => (y, m, d)
  | S k =>
      if d <=? days_in_month y m then (y, m, d)
      else if m =? 11 then carry_days k (y + 1) 0 (d - days_in_month y m)
      else carry_days k y (m + 1) (d - days_in_month y m)
  end.

(** [(getUTCFullYear(), getUTCMonth(), getUTCDate())] of
    [new Date(Date.UTC(y, m, d))] for a month index [0 <= m <= 11] and a
    day number [0 <= d <= 99]: day 0 is the last day of the month before. *)
Definition Date_UTC_fields (y m d : Z) : Z * Z * Z :=
  if d =? 0 then
    if m =? 0 then (y - 1, 11, 31) else (y, m - 1, days_in_month y (m - 1))
  else carry_days 4 y m d.

(** Validates a date string is a valid 2027 calendar date. *)
Definition validateCalendarDate (dateStr : string) : bool :=
  match parse_date dateStr with
  | None => false
  | Some (year, month, day) =>
      if negb (year =? CALENDAR_YEAR) then false
      else if (month <? 1) || (month >? 12) then false
      else
        let '(fy, fm, fd) := Date_UTC_fields year (month - 1) day in
        (fy =? year) && (fm =? month - 1) && (fd =? day)
  end.

End Validation.

(** ** HTTP responses *)

(** The public projection of a day (src/types, [PublicCalendarDay]). *)
Module Public.
Record t := {
  id : string;
  date : string;
  status : DayStatus;
  dedicationText : option string;
  holdExpiresAt : option Date;
}.
End Public.
Definition PublicCalendarDay := Public.t.

Inductive SalesStatus := open | not_started | ended | unknown.

Inductive Body :=
| JError (error : string)
| JErrorStatus (error : string) (status : option string)
| JHold (holdToken : string) (holdExpiresAt : Date) (date : string)
| JOk
| JOkDate (date : string)
| JReceived
| JPaymentIntent (clientSecret : string) (paymentIntentId : string) (amountCents : Z)
| JRefund (refundId : string) (refundStatus : string) (dateStatus : DayStatus) (amountRefunded : Z)
| JAdminHold (date : string) (status : DayStatus) (adminNote : option string)
| JDedication (date : string) (dedicationText : option string)
| JCalendar (days : list PublicCalendarDay) (salesStatus : SalesStatus)
            (priceInCents : Z) (year : nat).

Record Response := { http_status : Z; body : Body }.

Definition json (b : Body) (st : Z) : Response := {| http_status := st; body := b |}.

(** ** src/app/api/checkout/hold/route.ts *)

Module CheckoutHold.
Import Validation.
Local Open Scope tx_scope.

Definition HOLD_DURATION_MS : Z := 10 * 60 * 1000.

Record PostRequest := {
  ip : string;                   (* getClientIp(request) *)
  limit_allowed : bool;          (* holdLimiter.check(ip).allowed *)
  post_body : option (option string);  (* request.json(), None when it throws; its date *)
  now : Date;                    (* new Date() *)
  holdToken : string;            (* generateHoldToken() *)
  Date_now : Date;               (* Date.now() *)
}.

(** [settings?.salesStartDate && now < settings.salesStartDate] *)
Definition salesNotStarted (settings : option AdminSettings) (now : Date) : bool :=
  match settings with
  | Some s => match Settings.salesStartDate s with
              | Some t => now <? t
              | None => false
              end
  | None => false
  end.

(** [settings?.salesEndDate && now > settings.salesEndDate] *)
Definition salesEnded (settings : option AdminSettings) (now : Date) : bool :=
  match settings with
  | Some s => match Settings.salesEndDate s with
              | Some t => now >? t
              | None => false
              end
  | None => false
  end.

(** What a granted hold writes on the row. *)
Definition hold_data (holdToken : string) (holdExpiresAt : Date) (d : CalendarDay)
  : CalendarDay :=
  Col.holdExpiresAt (Some holdExpiresAt)
    (Col.holdToken (Some holdToken) (Col.status CHECKOUT_HOLD d)).

(** The body of the POST transaction. *)
Definition hold_tx (dateObj : string) (now : Date) (holdToken : string)
    (holdExpiresAt : Date) (ip : string) : Tx CalendarDay :=
  day <- findUnique (by_date dateObj) ;;
  match day with
  | None => throw "DATE_NOT_FOUND"
  | Some day =>
      let canHold :=
        DayStatus_eqb (Day.status day) AVAILABLE
        || (DayStatus_eqb (Day.status day) CHECKOUT_HOLD
            && match Day.holdExpiresAt day with
               | Some e => e <? now
               | None => false
               end) in
      if negb canHold
      then throw ("DATE_UNAVAILABLE:" ++ DayStatus_text (Day.status day))
      else
        updated <- update (Day.id day) (hold_data holdToken holdExpiresAt) ;;
        auditLog_create
          {| Audit.calendarDayId := Day.id day;
             Audit.action := AUDIT_ACTIONS.CHECKOUT_HOLD_CREATED;
             Audit.oldValue := Some [("status", VStatus (Day.status day))];
             Audit.newValue := Some [("status", VStatus CHECKOUT_HOLD);
                                     ("holdExpiresAt", VDate holdExpiresAt)];
             Audit.performedBy := "customer-ip:" ++ ip;
             Audit.ipAddress := Some ip;
             Audit.notes := None |} ;;;
        ret updated
  end.

(** What a request holds when it reaches the transaction. *)
Record Prepared := {
  date_text : string;        (* date *)
  dateObj : string;          (* new Date(date + 'T00:00:00.000Z') *)
  prepared_now : Date;       (* now *)
  prepared_token : string;   (* holdToken *)
  holdExpiresAt : Date;      (* new Date(Date.now() + HOLD_DURATION_MS) *)
  prepared_ip : string;
}.

(** The handler up to the transaction: rate limit, body, date, sales
    window.  Its only access to the database is the settings read. *)
Definition prepare (rq : PostRequest) (db : DB) : Response + Prepared :=
  if negb (limit_allowed rq)
  then inl (json (JError "Too many requests. Please slow down.") 429)
  else
    match post_body rq with
    | None => inl (json (JError "Invalid request body") 400)
    | Some None => inl (json (JError "Invalid or missing date") 400)
    | Some (Some date) =>
        if negb (validateCalendarDate date)
        then inl (json (JError "Invalid or missing date") 400)
        else
          let settings := adminSettings db in
          let now := now rq in
          if salesNotStarted settings now
          then inl (json (JError "Sales have not started yet") 403)
          else if salesEnded settings now
          then inl (json (JError "Sales have ended") 403)
          else
            inr {| date_text := date;
                   dateObj := date;
                   prepared_now := now;
                   prepared_token := holdToken rq;
                   holdExpiresAt := Date_now rq + HOLD_DURATION_MS;
                   prepared_ip := ip rq |}
    end.

(** The transaction and the answer made of its outcome. *)
Definition commit (p : Prepared) (db : DB) : Response * DB :=
  match transaction
          (hold_tx (dateObj p) (prepared_now p) (prepared_token p) (holdExpiresAt p)
             (prepared_ip p)) db with
  | (Returned _, db') =>
      (json (JHold (prepared_token p) (holdExpiresAt p) (date_text p)) 200, db')
  | (Thrown msg, db') =>
      if String.eqb msg "DATE_NOT_FOUND"
      then (json (JError "Date not found") 404, db')
      else if String.prefix "DATE_UNAVAILABLE" msg
      then (json (JErrorStatus "This date is no longer available"
                    (split_colon_1 msg)) 409, db')
      else (json (JError "Failed to hold date") 500, db')
  end.

Definition POST (rq : PostRequest) (db : DB) : Response * DB :=
  match prepare rq db with
  | inl response => (response, db)
  | inr p => commit p db
  end.

(** *** Concurrent calls

    A call yields at each of its awaits: the settings read, and inside the
    [$transaction] callback [tx.calendarDay.findUnique],
    [tx.calendarDay.update], [tx.auditLog.create] and the commit.  The
    route passes no [isolationLevel], so the transaction runs at the default
    of the database (PostgreSQL, READ COMMITTED):
    - a read sees the rows as last committed and takes no lock;
    - an UPDATE locks its row until the transaction ends; an UPDATE that
      meets the lock of another transaction waits for it;
    - the writes of a transaction are seen by the others when it commits.
    [db] is the committed database; a call between its update and its commit
    carries the row it has written. *)
Inductive Call :=
| Waiting (rq : PostRequest)                  (* before the settings read *)
| Ready (p : Prepared)                        (* before tx.calendarDay.findUnique *)
| Found (p : Prepared) (day : CalendarDay)    (* canHold passed; before tx.calendarDay.update *)
| Updated (p : Prepared) (day updated : CalendarDay)  (* before tx.auditLog.create *)
| Logged (p : Prepared) (day updated : CalendarDay)   (* before the commit *)
| Done (response : Response).                 (* answered *)

(** The [catch] block of the route. *)
Definition caught (msg : string) : Response :=
  if String.eqb msg "DATE_NOT_FOUND"
  then json (JError "Date not found") 404
  else if String.prefix "DATE_UNAVAILABLE" msg
  then json (JErrorStatus "This date is no longer available" (split_colon_1 msg)) 409
  else json (JError "Failed to hold date") 500.

(** The audit entry of a granted hold. *)
Definition hold_entry (p : Prepared) (day : CalendarDay) : AuditLog :=
  {| Audit.calendarDayId := Day.id day;
     Audit.action := AUDIT_ACTIONS.CHECKOUT_HOLD_CREATED;
     Audit.oldValue := Some [("status", VStatus (Day.status day))];
     Audit.newValue := Some [("status", VStatus CHECKOUT_HOLD);
                             ("holdExpiresAt", VDate (holdExpiresAt p))];
     Audit.performedBy := "customer-ip:" ++ prepared_ip p;
     Audit.ipAddress := Some (prepared_ip p);
     Audit.notes := None |}.

(** The row a call has written and not yet committed: it holds its lock. *)
Definition lock (c : Call) : option string :=
  match c with
  | Updated _ day _ => Some (Day.id day)
  | Logged _ day _ => Some (Day.id day)
  | _ => None
  end.

(** One step of a call: up to its next await.  [locked i] tells whether
    another call holds the lock of the row with id [i]. *)
Definition advance (locked : string -> bool) (c : Call) (db : DB) : Call * DB :=
  match c with
  | Waiting rq =>
      match prepare rq db with
      | inl response => (Done response, db)
      | inr p => (Ready p, db)
      end
  | Ready p =>
      match find (by_date (dateObj p)) (calendarDay db) with
      | None => (Done (caught "DATE_NOT_FOUND"), db)
      | Some day =>
          let canHold :=
            DayStatus_eqb (Day.status day) AVAILABLE
            || (DayStatus_eqb (Day.status day) CHECKOUT_HOLD
                && match Day.holdExpiresAt day with
                   | Some e => e <? prepared_now p
                   | None => false
                   end) in
          if negb canHold
          then (Done (caught ("DATE_UNAVAILABLE:" ++ DayStatus_text (Day.status day))), db)
          else (Found p day, db)
      end
  | Found p day =>
      if locked (Day.id day) then (c, db)
      else
        match update (Day.id day) (hold_data (prepared_token p) (holdExpiresAt p)) db with
        | Thrown msg => (Done (caught msg), db)
        | Returned (updated, _) => (Updated p day updated, db)
        end
  | Updated p day updated => (Logged p day updated, db)
  | Logged p day updated =>
      (Done (json (JHold (prepared_token p) (holdExpiresAt p) (date_text p)) 200),
       with_audit
         (with_days db (replace_row (Day.id day) (fun _ => updated) (calendarDay db)))
         (auditLog db ++ [hold_entry p day]))
  | Done response => (c, db)
  end.

Fixpoint set_nth (k : nat) (c : Call) (calls : list Call) : list Call :=
  match calls, k with
  | [], _ => []
  | _ :: rest, O => c :: rest
  | x :: rest, S k' => x :: set_nth k' c rest
  end.

(** Whether a call other than the one at position [k] holds the lock of
    the row with id [i]. *)
Fixpoint locked_by_other (k : nat) (calls : list Call) (i : string) : bool :=
  match calls with
  | [] => false
  | c :: rest =>
      match k with
      | O => existsb (fun c' => option_string_eqb (lock c') (Some i)) rest
      | S k' => option_string_eqb (lock c) (Some i) || locked_by_other k' rest i
      end
  end.

(** Run the calls along a schedule: each entry names the call that takes
    its next step. *)
Fixpoint interleave (schedule : list nat) (calls : list Call) (db : DB)
  : list Call * DB :=
  match schedule with
  | [] => (calls, db)
  | k :: rest =>
      match nth_error calls k with
      | Some c =>
          let '(c', db') := advance (locked_by_other k calls) c db in
          interleave rest (set_nth k c' calls) db'
      | None => interleave rest calls db
      end
  end.

(** The call was answered 200 with a hold. *)
Definition granted (c : Call) : bool :=
  match c with
  | Done response => http_status response =? 200
  | _ => false
  end.

Record DeleteRequest := {
  delete_body : option (option string * option string);  (* { date?, holdToken? } *)
}.

(** The body of the DELETE transaction. *)
Definition release_tx (dateObj : string) (holdToken : string) : Tx unit :=
  day <- findUnique (by_date dateObj) ;;
  match day with
  | None => ret tt
  | Some day =>
      if negb (DayStatus_eqb (Day.status day) CHECKOUT_HOLD)
         || negb (option_string_eqb (Day.holdToken day) (Some holdToken))
      then ret tt
      else
        update (Day.id day)
          (fun d => Col.holdExpiresAt None (Col.holdToken None (Col.status AVAILABLE d))) ;;;
        auditLog_create
          {| Audit.calendarDayId := Day.id day;
             Audit.action := AUDIT_ACTIONS.CHECKOUT_HOLD_EXPIRED;
             Audit.oldValue := Some [("status", VStatus CHECKOUT_HOLD)];
             Audit.newValue := Some [("status", VStatus AVAILABLE)];
             Audit.performedBy := "customer";
             Audit.ipAddress := None;
             Audit.notes := Some "Hold released by customer (navigated away)" |}
  end.

Definition DELETE (rq : DeleteRequest) (db : DB) : Response * DB :=
  match delete_body rq with
  | None => (json (JError "Invalid request body") 400, db)
  | Some (date, holdToken) =>
      match date, holdToken with
      | Some date, Some holdToken =>
          if negb (truthy (Some date)) || negb (truthy (Some holdToken))
             || negb (validateCalendarDate date)
          then (json (JError "Missing date or holdToken") 400, db)
          else
            let dateObj := date in
            match transaction (release_tx dateObj holdToken) db with
            | (Returned _, db') => (json JOk 200, db')
            | (Thrown _, db') => (json (JError "Failed to release hold") 500, db')
            end
      | _, _ => (json (JError "Missing date or holdToken") 400, db)
      end
  end.

End CheckoutHold.

(** ** src/lib/orderNumber.ts *)

Module OrderNumber.

(** Generate a unique, human-readable order number.
    Uses the total count of SOLD days as the sequence number.
    Format: ACF-2027-00042 *)
Definition generateOrderId (year : nat) : Tx string :=
  bind (count (fun d => DayStatus_eqb (Day.status d) SOLD && isSome (Day.orderId d)))
    (fun count =>
       let seq := padStart0 (String_of_nat (count + 1)) 5 in
       ret ("ACF-" ++ String_of_nat year ++ "-" ++ seq)).

End OrderNumber.

(** ** Stripe objects *)

(** A JSON text, by what [JSON.parse] makes of it. *)
Inductive JsonText :=
| Stringified (v : Json)       (* JSON.stringify(v) *)
| Malformed (text : string).   (* JSON.parse throws *)

Definition JsonText_truthy (t : option JsonText) : bool :=
  match t with
  | Some (Stringified _) => true
  | Some (Malformed s) => truthy (Some s)
  | None => false
  end.

Module Metadata.
Record t := {
  date : option string;
  holdToken : option string;
  calendarDayId : option string;
  buyerEmail : option string;
  buyerFirstName : option string;
  buyerLastName : option string;
  buyerPhone : option string;
  dedicationText : option string;
  contactOptIn : option string;
  billingAddress : option JsonText;
}.
End Metadata.

Module PI.
Record t := {
  id : string;
  amount : Z;
  metadata : Metadata.t;
  last_payment_error_message : option string;  (* last_payment_error?.message *)
}.
End PI.
Definition PaymentIntent := PI.t.

(** [charge.payment_intent]: [string | Stripe.PaymentIntent | null]. *)
Inductive Expandable :=
| Id (s : string)
| Expanded (pi : PaymentIntent).

Module Charge.
Record t := {
  payment_intent : option Expandable;
  amount_refunded : Z;
}.
End Charge.

(** [event.type] with [event.data.object]. *)
Inductive EventData :=
| payment_intent_succeeded (pi : PaymentIntent)
| payment_intent_payment_failed (pi : PaymentIntent)
| charge_refunded (charge : Charge.t)
| other_event (type : string).

Record Event := { event_id : string; event_data : EventData }.

(** [(cents / 100).toFixed(2)] for a non-negative amount in cents. *)
Definition toFixed2 (cents : Z) : string :=
  String_of_nat (Z.to_nat (cents / 100)) ++ "."
  ++ padStart0 (String_of_nat (Z.to_nat (cents mod 100))) 2.

(** ** src/app/api/stripe/webhook/route.ts *)

Module StripeWebhook.
Local Open Scope tx_scope.

(** What [handlePaymentSucceeded] writes on the row; [day] is the row as
    the transaction read it. *)
Definition sold_data (pi : PaymentIntent) (day : CalendarDay) (orderId : string)
    (paidAt : Date) (billingAddress : Json) (d : CalendarDay) : CalendarDay :=
  let md := PI.metadata pi in
  Col.dedicationText
    (orNull (orElse (Day.dedicationText day) (Metadata.dedicationText md)))
  (Col.contactOptIn
    (Day.contactOptIn day || option_string_eqb (Metadata.contactOptIn md) (Some "true"))
  (Col.billingAddress
    (match Day.billingAddress day with
     | Some a => Some a
     | None => Some billingAddress
     end)
  (Col.buyerPhone (orNull (orElse (Day.buyerPhone day) (Metadata.buyerPhone md)))
  (Col.buyerEmail (orNull (orElse (Day.buyerEmail day) (Metadata.buyerEmail md)))
  (Col.buyerLastName (orNull (orElse (Day.buyerLastName day) (Metadata.buyerLastName md)))
  (Col.buyerFirstName (orNull (orElse (Day.buyerFirstName day) (Metadata.buyerFirstName md)))
  (Col.holdExpiresAt None
  (Col.holdToken None
  (Col.stripePaymentIntentId (Some (PI.id pi))
  (Col.paidAt (Some paidAt)
  (Col.amountPaidCents (Some (PI.amount pi))
  (Col.orderId (Some orderId)
  (Col.status SOLD d))))))))))))).

Definition sold_entry (pi : PaymentIntent) (day : CalendarDay) (orderId : string) : AuditLog :=
  {| Audit.calendarDayId := Day.id day;
     Audit.action := AUDIT_ACTIONS.PAYMENT_RECEIVED;
     Audit.oldValue := Some [("status", VStatus (Day.status day))];
     Audit.newValue := Some [("status", VStatus SOLD);
                             ("orderId", VString orderId);
                             ("amountPaidCents", VNumber (PI.amount pi))];
     Audit.performedBy := "stripe:" ++ PI.id pi;
     Audit.ipAddress := None;
     Audit.notes := Some "Stripe PaymentIntent succeeded" |}.

(** The transaction of [handlePaymentSucceeded]. *)
Definition succeeded_tx (pi : PaymentIntent) (calendarDayId : string)
    (orderId : string) (paidAt : Date) (billingAddress : Json) : Tx unit :=
  day <- findUnique (by_id calendarDayId) ;;
  match day with
  | None => throw ("CalendarDay not found: " ++ calendarDayId)
  | Some day =>
      (* Only proceed if in CHECKOUT_HOLD (or already has this PI) *)
      if negb (DayStatus_eqb (Day.status day) CHECKOUT_HOLD)
         && negb (option_string_eqb (Day.stripePaymentIntentId day) (Some (PI.id pi)))
      then ret tt
      else
        update (Day.id day) (sold_data pi day orderId paidAt billingAddress) ;;;
        auditLog_create (sold_entry pi day orderId)
  end.

(** The [billingAddress] the handler falls back on:
    [JSON.parse(pi.metadata.billingAddress || '{}')], [{}] when it throws. *)
Definition parsed_billingAddress (md : Metadata.t) : Json :=
  match Metadata.billingAddress md with
  | Some (Stringified v) => v
  | Some (Malformed _) => JsonEmptyObject
  | None => JsonEmptyObject
  end.

(** [handlePaymentSucceeded]; [paidAt] is its [new Date()].  The two e-mails
    sent after the transaction are wrapped in their own try/catch and touch
    no table: they are left out. *)
Definition handlePaymentSucceeded (pi : PaymentIntent) (paidAt : Date) (db : DB)
  : Outcome unit * DB :=
  let md := PI.metadata pi in
  match Metadata.calendarDayId md, Metadata.date md with
  | Some calendarDayId, Some date =>
      if negb (truthy (Some calendarDayId)) || negb (truthy (Some date))
      then (Returned tt, db)
      else
        (* Idempotency: skip if already processed *)
        match statement (findUnique (by_stripePaymentIntentId (PI.id pi))) db with
        | (Thrown m, db1) => (Thrown m, db1)
        | (Returned existing, db1) =>
            if match existing with
               | Some e => DayStatus_eqb (Day.status e) SOLD
               | None => false
               end
            then (Returned tt, db1)
            else
              match statement (OrderNumber.generateOrderId 2027) db1 with
              | (Thrown m, db2) => (Thrown m, db2)
              | (Returned orderId, db2) =>
                  let billingAddress := parsed_billingAddress md in
                  transaction
                    (succeeded_tx pi calendarDayId orderId paidAt billingAddress) db2
              end
        end
  | _, _ => (Returned tt, db)
  end.

(** The transaction of [handlePaymentFailed]. *)
Definition failed_tx (pi : PaymentIntent) (calendarDayId : string) : Tx unit :=
  day <- findUnique (by_id calendarDayId) ;;
  match day with
  | None => ret tt
  | Some day =>
      if negb (DayStatus_eqb (Day.status day) CHECKOUT_HOLD) then ret tt
      else
        update (Day.id day)
          (fun d => Col.stripePaymentIntentId None
                      (Col.holdExpiresAt None
                         (Col.holdToken None (Col.status AVAILABLE d)))) ;;;
        auditLog_create
          {| Audit.calendarDayId := Day.id day;
             Audit.action := AUDIT_ACTIONS.CHECKOUT_HOLD_EXPIRED;
             Audit.oldValue := Some [("status", VStatus CHECKOUT_HOLD)];
             Audit.newValue := Some [("status", VStatus AVAILABLE)];
             Audit.performedBy := "stripe:" ++ PI.id pi;
             Audit.ipAddress := None;
             Audit.notes :=
               Some ("Payment failed: "
                     ++ orDefault (PI.last_payment_error_message pi) "unknown reason") |}
  end.

Definition handlePaymentFailed (pi : PaymentIntent) (db : DB) : Outcome unit * DB :=
  match Metadata.calendarDayId (PI.metadata pi) with
  | Some calendarDayId =>
      if negb (truthy (Some calendarDayId)) then (Returned tt, db)
      else transaction (failed_tx pi calendarDayId) db
  | None => (Returned tt, db)
  end.

Definition handleChargeRefunded (charge : Charge.t) (db : DB) : Outcome unit * DB :=
  (* This is informational: admin-initiated refunds are managed via the admin API *)
  let piId :=
    match Charge.payment_intent charge with
    | Some (Id s) => Some s
    | Some (Expanded pi) => Some (PI.id pi)
    | None => None
    end in
  match piId with
  | None => (Returned tt, db)
  | Some piId =>
      if negb (truthy (Some piId)) then (Returned tt, db)
      else
        match statement (findUnique (by_stripePaymentIntentId piId)) db with
        | (Thrown m, db1) => (Thrown m, db1)
        | (Returned None, db1) => (Returned tt, db1)
        | (Returned (Some day), db1) =>
            statement
              (createAuditLog
                 {| Audit.calendarDayId := Day.id day;
                    Audit.action := AUDIT_ACTIONS.REFUND_ISSUED;
                    Audit.oldValue := Some [("status", VStatus (Day.status day))];
                    Audit.newValue := Some [("refundedViaStripe", VBool true)];
                    Audit.performedBy := "stripe:" ++ piId;
                    Audit.ipAddress := None;
                    Audit.notes :=
                      Some ("Charge refunded via Stripe. Amount: $"
                            ++ toFixed2 (Charge.amount_refunded charge)) |}) db1
        end
  end.

Record Request := {
  sig : option string;            (* headers().get('stripe-signature') *)
  webhookSecret : option string;  (* process.env.STRIPE_WEBHOOK_SECRET *)
  constructEvent : Outcome Event; (* stripe.webhooks.constructEvent(body, sig, secret) *)
  clock : Date;                   (* new Date() inside the handler *)
}.

Definition POST (rq : Request) (db : DB) : Response * DB :=
  if negb (truthy (sig rq)) || negb (truthy (webhookSecret rq))
  then (json (JError "Missing signature") 400, db)
  else
    match constructEvent rq with
    | Thrown msg => (json (JError ("Webhook error: " ++ msg)) 400, db)
    | Returned event =>
        let handled :=
          match event_data event with
          | payment_intent_succeeded pi => handlePaymentSucceeded pi (clock rq) db
          | payment_intent_payment_failed pi => handlePaymentFailed pi db
          | charge_refunded charge => handleChargeRefunded charge db
          | other_event _ => (Returned tt, db)
          end in
        match handled with
        | (Returned _, db') => (json JReceived 200, db')
        | (Thrown _, db') => (json (JError "Handler failed") 500, db')
        end
    end.

End StripeWebhook.

(** ** src/lib/validation.ts, dedication text

    A text is the sequence of its UTF-16 code units; the texts modelled
    here are those whose code units are below 256 (one [ascii] each). *)

Module Dedication.

Definition MAX_DEDICATION_LENGTH : nat := 26.

Definition code (c : ascii) : nat := nat_of_ascii c.

(** [\s] below 256: tab, line feed, vertical tab, form feed, carriage
    return, space, no-break space. *)
Definition is_space (c : ascii) : bool :=
  let n := code c in
  ((9 <=? n) && (n <=? 13) || (n =? 32) || (n =? 160))%nat.

Fixpoint trimStart (s : string) : string :=
  match s with
  | "" => ""
  | String c r => if is_space c then trimStart r else s
  end.

Fixpoint all_space (s : string) : bool :=
  match s with
  | "" => true
  | String c r => is_space c && all_space r
  end.

Fixpoint trimEnd (s : string) : string :=
  match s with
  | "" => ""
  | String c r => if all_space s then "" else String c (trimEnd r)
  end.

(** [text.trim()] *)
Definition trim (s : string) : string := trimEnd (trimStart s).

(** [s.replace(/\s+/g, ' ')] *)
Fixpoint collapse (in_space : bool) (s : string) : string :=
  match s with
  | "" => ""
  | String c r =>
      if is_space c
      then (if in_space then collapse true r else String " " (collapse true r))
      else String c (collapse false r)
  end.

(** Strip leading/trailing whitespace and collapse internal whitespace. *)
Definition sanitizeDedicationText (text : string) : string :=
  collapse false (trim text).

Fixpoint all_chars (p : ascii -> bool) (s : string) : bool :=
  match s with
  | "" => true
  | String c r => p c && all_chars p r
  end.

(** ALLOWED_CHARS_NO_EMOJI: letters, digits, the space and the nineteen
    punctuation marks of the class, listed by code unit. *)
Definition allowed_no_emoji (c : ascii) : bool :=
  let n := code c in
  ((97 <=? n) && (n <=? 122) || (65 <=? n) && (n <=? 90) || (48 <=? n) && (n <=? 57)
   || existsb (Nat.eqb n)
        [32; 33; 64; 35; 38; 40; 41; 45; 95; 39; 34; 46; 44; 58; 59; 63; 43; 61; 37; 42])%nat.

(** The class [[\p{L}\p{N}\p{P}\p{Z}\p{S}]] below 256: everything but the
    controls (C0, DEL, C1) and the soft hyphen. *)
Definition allowed_with_emoji (c : ascii) : bool :=
  let n := code c in
  ((32 <=? n) && (n <=? 126) || (160 <=? n) && negb (n =? 173))%nat.

Record DedicationValidationResult := { valid : bool; error : option string }.

(** [validateDedicationText(text, { required, emojisAllowed })].  No code
    unit below 256 matches EMOJI_REGEX, so that test never fires here. *)
Definition validateDedicationText (text : string) (required emojisAllowed : bool)
  : DedicationValidationResult :=
  if String.eqb text "" || String.eqb (trim text) ""
  then
    if required
    then {| valid := false; error := Some "Dedication text is required." |}
    else {| valid := true; error := None |}
  else if (MAX_DEDICATION_LENGTH <? String.length text)%nat
  then {| valid := false;
          error := Some "Dedication text must be 26 characters or fewer." |}
  else if negb (all_chars (if emojisAllowed then allowed_with_emoji else allowed_no_emoji) text)
  then {| valid := false;
          error := Some "Dedication text contains invalid characters. Use letters, numbers, and basic punctuation only." |}
  else {| valid := true; error := None |}.

End Dedication.

(** The admin session of next-auth: [session.user?.email]. *)
Record Session := { user_email : option string }.

Definition actor (session : Session) : string := orDefault (user_email session) "admin".

(** ** src/app/api/stripe/create-payment-intent/route.ts *)

Module CreatePaymentIntent.
Import Validation Dedication.
Local Open Scope tx_scope.

(** [buyerInfoSchema.safeParse(formData).data] *)
Record BuyerInfo := {
  firstName : string;
  lastName : string;
  email : string;
  phone : option string;
  billingAddress : BillingAddress;
  contactOptIn : bool;
  dedicationText : string;
}.

Record Body := {
  date : option string;
  holdToken : option string;
  formData : option BuyerInfo;   (* None when safeParse fails *)
}.

(** [stripe.paymentIntents.create] answers with the new PaymentIntent. *)
Record Created := { created_id : string; client_secret : string }.

Record Request := {
  ip : string;
  limit_allowed : bool;                (* paymentIntentLimiter.check(ip).allowed *)
  request_body : option Body;          (* request.json(), None when it throws *)
  now : Date;                          (* new Date() inside the transaction *)
  paymentIntents_create : Outcome Created;
}.

(** Verify hold is still valid. *)
Definition verify_tx (dateObj : string) (holdToken : string) (now : Date) : Tx CalendarDay :=
  day <- findUnique (by_date dateObj) ;;
  match day with
  | None => throw "DATE_NOT_FOUND"
  | Some day =>
      if negb (DayStatus_eqb (Day.status day) CHECKOUT_HOLD)
      then throw ("INVALID_STATUS:" ++ DayStatus_text (Day.status day))
      else if negb (option_string_eqb (Day.holdToken day) (Some holdToken))
      then throw "INVALID_HOLD_TOKEN"
      else if match Day.holdExpiresAt day with
              | Some e => e <? now
              | None => false
              end
      then throw "HOLD_EXPIRED"
      else ret day
  end.

Definition on_error (msg : string) : Response :=
  if String.eqb msg "DATE_NOT_FOUND" then json (JError "Date not found") 404
  else if String.prefix "INVALID_STATUS" msg
  then json (JError "This date is no longer on hold. Please start over.") 409
  else if String.eqb msg "INVALID_HOLD_TOKEN"
  then json (JError "Your hold token is invalid. Please start over.") 403
  else if String.eqb msg "HOLD_EXPIRED"
  then json (JError "Your checkout session has expired. Please select the date again.") 410
  else json (JError msg) 500.

Definition POST (rq : Request) (db : DB) : Response * DB :=
  if negb (limit_allowed rq) then (json (JError "Too many requests") 429, db)
  else
    match request_body rq with
    | None => (json (JError "Invalid request body") 400, db)
    | Some body =>
        match date body with
        | None => (json (JError "Invalid date") 400, db)
        | Some date =>
            if negb (validateCalendarDate date) then (json (JError "Invalid date") 400, db)
            else if negb (truthy (holdToken body))
            then (json (JError "Missing hold token") 400, db)
            else
              match holdToken body, formData body with
              | None, _ => (json (JError "Missing hold token") 400, db)
              | _, None => (json (JError "Invalid form data") 400, db)
              | Some holdToken, Some buyerData =>
                  let settings := adminSettings db in
                  let priceInCents :=
                    match settings with Some s => Settings.priceInCents s | None => 10000 end in
                  let dedicationValidation :=
                    validateDedicationText (dedicationText buyerData)
                      (match settings with Some s => Settings.textRequired s | None => false end)
                      (match settings with Some s => Settings.emojisAllowed s | None => false end) in
                  if negb (valid dedicationValidation)
                  then (json (JError (orDefault (error dedicationValidation) "")) 400, db)
                  else
                    let dedicationText := sanitizeDedicationText (dedicationText buyerData) in
                    let dateObj := date in
                    match transaction (verify_tx dateObj holdToken (now rq)) db with
                    | (Thrown msg, db1) => (on_error msg, db1)
                    | (Returned day, db1) =>
                        match paymentIntents_create rq with
                        | Thrown msg => (on_error msg, db1)
                        | Returned paymentIntent =>
                            (* Store the payment intent ID on the day record *)
                            match statement
                                    (update (Day.id day)
                                       (fun d =>
                                          Col.dedicationText (orNull (Some dedicationText))
                                          (Col.contactOptIn (contactOptIn buyerData)
                                          (Col.billingAddress
                                             (Some (JsonAddress (billingAddress buyerData)))
                                          (Col.buyerPhone (orNull (phone buyerData))
                                          (Col.buyerEmail (Some (email buyerData))
                                          (Col.buyerLastName (Some (lastName buyerData))
                                          (Col.buyerFirstName (Some (firstName buyerData))
                                          (Col.stripePaymentIntentId
                                             (Some (created_id paymentIntent)) d))))))))) db1
                            with
                            | (Thrown msg, db2) => (on_error msg, db2)
                            | (Returned _, db2) =>
                                (json (JPaymentIntent (client_secret paymentIntent)
                                         (created_id paymentIntent) priceInCents) 200, db2)
                            end
                        end
                    end
              end
        end
    end.

(** The metadata the route attaches to the PaymentIntent it creates. *)
Definition metadata_of (date holdToken : string) (day : CalendarDay) (buyerData : BuyerInfo)
  : Metadata.t :=
  {| Metadata.date := Some date;
     Metadata.holdToken := Some holdToken;
     Metadata.calendarDayId := Some (Day.id day);
     Metadata.buyerEmail := Some (email buyerData);
     Metadata.buyerFirstName := Some (firstName buyerData);
     Metadata.buyerLastName := Some (lastName buyerData);
     Metadata.buyerPhone := Some (orDefault (phone buyerData) "");
     Metadata.dedicationText := Some (sanitizeDedicationText (dedicationText buyerData));
     Metadata.contactOptIn := Some (if contactOptIn buyerData then "true" else "false");
     Metadata.billingAddress := Some (Stringified (JsonAddress (billingAddress buyerData))) |}.

End CreatePaymentIntent.

(** ** POST /api/admin/refund *)

Module AdminRefund.
Import Validation.
Local Open Scope tx_scope.

Record Body := {
  date : option string;
  restoreDate : option bool;
  reason : option string;
}.

(** The answer of [stripe.refunds.create]. *)
Record Refund := { refund_id : string; refund_status : option string; refund_amount : Z }.

(** The parameters of a [stripe.refunds.create] call. *)
Record RefundCreateParams := {
  payment_intent : string;
  meta_adminEmail : string;
  meta_reason : string;
  meta_date : string;
  meta_orderId : string;
}.

Record Request := {
  session : option Session;        (* getServerSession(authOptions) *)
  request_body : option Body;      (* request.json(), None when it throws *)
  today : string;                  (* new Date().toISOString().split('T')[0] *)
  refunds_create : Outcome Refund; (* what Stripe answers, if it is called *)
}.

Definition refund_tx (day : CalendarDay) (newStatus : DayStatus) (restoreDate : bool)
    (reason today : string) (refund : Refund) (session : Session) : Tx unit :=
  update (Day.id day)
    (fun d =>
       Col.adminNote
         (if restoreDate then None
          else Some ("Refunded on " ++ today ++ " — " ++ reason))
         (Col.status newStatus d)) ;;;
  auditLog_create
    {| Audit.calendarDayId := Day.id day;
       Audit.action := AUDIT_ACTIONS.REFUND_ISSUED;
       Audit.oldValue := Some [("status", VStatus SOLD);
                               ("orderId", VNullableString (Day.orderId day));
                               ("amountPaidCents", VNullableNumber (Day.amountPaidCents day))];
       Audit.newValue := Some [("status", VStatus newStatus);
                               ("stripeRefundId", VString (refund_id refund));
                               ("restored", VBool restoreDate)];
       Audit.performedBy := actor session;
       Audit.ipAddress := None;
       Audit.notes :=
         Some (reason ++ ". Stripe refund " ++ refund_id refund ++ ". Date "
               ++ (if restoreDate then "restored to available" else "set to admin hold")
               ++ ".") |}.

(** The handler; the last component lists the calls it made to Stripe. *)
Definition POST (rq : Request) (db : DB) : Response * DB * list RefundCreateParams :=
  match session rq with
  | None => (json (JError "Unauthorized") 401, db, [])
  | Some session =>
      match request_body rq with
      | None => (json (JError "Invalid body") 400, db, [])
      | Some body =>
          let restoreDate := match restoreDate body with Some b => b | None => false end in
          let reason := match reason body with Some r => r | None => "Admin refund" end in
          match date body with
          | None => (json (JError "Invalid date") 400, db, [])
          | Some date =>
              if negb (validateCalendarDate date)
              then (json (JError "Invalid date") 400, db, [])
              else
                let dateObj := date in
                match statement (findUnique (by_date dateObj)) db with
                | (Thrown msg, db1) => (json (JError msg) 500, db1, [])
                | (Returned None, db1) => (json (JError "Day not found") 404, db1, [])
                | (Returned (Some day), db1) =>
                    if negb (DayStatus_eqb (Day.status day) SOLD)
                    then (json (JError "This date is not sold — cannot refund.") 400, db1, [])
                    else if negb (truthy (Day.stripePaymentIntentId day))
                    then (json (JError "No Stripe payment found for this date.") 400, db1, [])
                    else
                      (* Issue refund via Stripe *)
                      let call :=
                        {| payment_intent := orDefault (Day.stripePaymentIntentId day) "";
                           meta_adminEmail := actor session;
                           meta_reason := reason;
                           meta_date := date;
                           meta_orderId := orDefault (Day.orderId day) "" |} in
                      match refunds_create rq with
                      | Thrown msg => (json (JError msg) 500, db1, [call])
                      | Returned refund =>
                          if negb (option_string_eqb (refund_status refund) (Some "succeeded"))
                             && negb (option_string_eqb (refund_status refund) (Some "pending"))
                          then (json (JError ("Stripe refund failed: "
                                              ++ match refund_status refund with
                                                 | Some s => s
                                                 | None => "null"
                                                 end)) 500,
                                db1, [call])
                          else
                            (* Update day status *)
                            let newStatus := if restoreDate then AVAILABLE else ADMIN_HOLD in
                            match transaction
                                    (refund_tx day newStatus restoreDate reason (today rq)
                                       refund session) db1 with
                            | (Thrown msg, db2) => (json (JError msg) 500, db2, [call])
                            | (Returned _, db2) =>
                                (json (JRefund (refund_id refund)
                                         (match refund_status refund with
                                          | Some s => s
                                          | None => "null"
                                          end)
                                         newStatus (refund_amount refund)) 200,
                                 db2, [call])
                            end
                      end
                end
          end
      end
  end.

End AdminRefund.

(** ** POST and DELETE /api/admin/holds *)

Module AdminHolds.
Import Validation.
Local Open Scope tx_scope.

Record PostRequest := {
  post_session : option Session;
  post_body : option (option string * option string);  (* { date?, note? } *)
}.

Definition create_tx (dateObj : string) (note : option string) (session : Session)
  : Tx CalendarDay :=
  day <- findUnique (by_date dateObj) ;;
  match day with
  | None => throw "NOT_FOUND"
  | Some day =>
      if DayStatus_eqb (Day.status day) SOLD then throw "ALREADY_SOLD"
      else if DayStatus_eqb (Day.status day) ADMIN_HOLD then throw "ALREADY_HELD"
      else
        let prevStatus := Day.status day in
        updated <- update (Day.id day)
          (fun d =>
             (* Clear any stale checkout holds *)
             Col.holdExpiresAt None
               (Col.holdToken None
                  (Col.adminNote (orNull note) (Col.status ADMIN_HOLD d)))) ;;
        auditLog_create
          {| Audit.calendarDayId := Day.id day;
             Audit.action := AUDIT_ACTIONS.HOLD_CREATED;
             Audit.oldValue := Some [("status", VStatus prevStatus)];
             Audit.newValue := Some [("status", VStatus ADMIN_HOLD);
                                     ("adminNote", VOptionalString note)];
             Audit.performedBy := actor session;
             Audit.ipAddress := None;
             Audit.notes := Some (orDefault note "Admin hold created") |} ;;;
        ret updated
  end.

Definition POST (rq : PostRequest) (db : DB) : Response * DB :=
  match post_session rq with
  | None => (json (JError "Unauthorized") 401, db)
  | Some session =>
      match post_body rq with
      | None => (json (JError "Invalid body") 400, db)
      | Some (None, _) => (json (JError "Invalid date") 400, db)
      | Some (Some date, note) =>
          if negb (validateCalendarDate date) then (json (JError "Invalid date") 400, db)
          else
            let dateObj := date in
            match transaction (create_tx dateObj note session) db with
            | (Returned result, db') =>
                (json (JAdminHold date (Day.status result) (Day.adminNote result)) 200, db')
            | (Thrown msg, db') =>
                if String.eqb msg "NOT_FOUND" then (json (JError "Day not found") 404, db')
                else if String.eqb msg "ALREADY_SOLD"
                then (json (JError "This date is already sold and cannot be held.") 409, db')
                else if String.eqb msg "ALREADY_HELD"
                then (json (JError "This date is already on admin hold.") 409, db')
                else (json (JError "Failed to create hold") 500, db')
            end
      end
  end.

Record DeleteRequest := {
  delete_session : option Session;
  delete_body : option (option string);  (* { date? } *)
}.

Definition release_tx (dateObj : string) (session : Session) : Tx unit :=
  day <- findUnique (by_date dateObj) ;;
  match day with
  | None => throw "NOT_FOUND"
  | Some day =>
      if negb (DayStatus_eqb (Day.status day) ADMIN_HOLD) then throw "NOT_HELD"
      else
        update (Day.id day) (fun d => Col.adminNote None (Col.status AVAILABLE d)) ;;;
        auditLog_create
          {| Audit.calendarDayId := Day.id day;
             Audit.action := AUDIT_ACTIONS.HOLD_RELEASED;
             Audit.oldValue := Some [("status", VStatus ADMIN_HOLD);
                                     ("adminNote", VNullableString (Day.adminNote day))];
             Audit.newValue := Some [("status", VStatus AVAILABLE)];
             Audit.performedBy := actor session;
             Audit.ipAddress := None;
             Audit.notes := Some "Admin hold released" |}
  end.

Definition DELETE (rq : DeleteRequest) (db : DB) : Response * DB :=
  match delete_session rq with
  | None => (json (JError "Unauthorized") 401, db)
  | Some session =>
      match delete_body rq with
      | None => (json (JError "Invalid body") 400, db)
      | Some None => (json (JError "Invalid date") 400, db)
      | Some (Some date) =>
          if negb (validateCalendarDate date) then (json (JError "Invalid date") 400, db)
          else
            let dateObj := date in
            match transaction (release_tx dateObj session) db with
            | (Returned _, db') => (json (JOkDate date) 200, db')
            | (Thrown msg, db') =>
                if String.eqb msg "NOT_FOUND" then (json (JError "Day not found") 404, db')
                else if String.eqb msg "NOT_HELD"
                then (json (JError "This date is not on admin hold.") 409, db')
                else (json (JError "Failed to release hold") 500, db')
            end
      end
  end.

End AdminHolds.

(** ** src/app/api/admin/days/[date]/route.ts *)

Module AdminDays.
Import Validation Dedication.
Local Open Scope tx_scope.

Record Request := {
  session : option Session;
  date : string;                                       (* params.date *)
  request_body : option (option string * option string); (* { dedicationText?, reason? } *)
  auditLog_create_answer : Outcome unit;  (* what the database answers to the audit insert *)
}.

(** [await createAuditLog(entry)] as this route issues it: a statement of
    its own, outside any transaction.  The database can reject the insert
    (a lost connection, a failed constraint); the statements before it are
    committed by then. *)
Definition insert_entry (answer : Outcome unit) (entry : AuditLog) (db : DB)
  : Outcome unit * DB :=
  match answer with
  | Thrown m => (Thrown m, db)
  | Returned _ => statement (createAuditLog entry) db
  end.

Definition PATCH (rq : Request) (db : DB) : Response * DB :=
  match session rq with
  | None => (json (JError "Unauthorized") 401, db)
  | Some session =>
      let date := date rq in
      if negb (validateCalendarDate date) then (json (JError "Invalid date") 400, db)
      else
        match request_body rq with
        | None => (json (JError "Invalid body") 400, db)
        | Some (dedicationText, reason) =>
            let dedicationText := match dedicationText with Some t => t | None => "" end in
            let settings := adminSettings db in
            let validation :=
              validateDedicationText dedicationText false
                (match settings with Some s => Settings.emojisAllowed s | None => true end) in
            if negb (valid validation)
            then (json (JError (orDefault (error validation) "")) 400, db)
            else
              let sanitized := sanitizeDedicationText dedicationText in
              let dateObj := date in
              match statement (findUnique (by_date dateObj)) db with
              | (Thrown _, db1) => (json (JError "Failed to update") 500, db1)
              | (Returned None, db1) => (json (JError "Day not found") 404, db1)
              | (Returned (Some day), db1) =>
                  if negb (DayStatus_eqb (Day.status day) SOLD)
                  then (json (JError "Can only edit dedication text for sold days.") 400, db1)
                  else
                    let oldText := Day.dedicationText day in
                    match statement
                            (update (Day.id day)
                               (Col.dedicationText (orNull (Some sanitized)))) db1 with
                    | (Thrown _, db2) => (json (JError "Failed to update") 500, db2)
                    | (Returned updated, db2) =>
                        match insert_entry (auditLog_create_answer rq)
                                   {| Audit.calendarDayId := Day.id day;
                                      Audit.action := AUDIT_ACTIONS.TEXT_EDIT;
                                      Audit.oldValue :=
                                        Some [("dedicationText", VNullableString oldText)];
                                      Audit.newValue :=
                                        Some [("dedicationText",
                                               VNullableString (orNull (Some sanitized)))];
                                      Audit.performedBy := actor session;
                                      Audit.ipAddress := None;
                                      Audit.notes :=
                                        Some (orDefault reason "Admin edited dedication text") |}
                                db2 with
                        | (Thrown _, db3) => (json (JError "Failed to update") 500, db3)
                        | (Returned _, db3) =>
                            (json (JDedication date (Day.dedicationText updated)) 200, db3)
                        end
                    end
              end
        end
  end.

End AdminDays.

(** ** GET /api/calendar *)

Module Calendar.
Local Open Scope tx_scope.

Record Request := {
  ip : string;
  limit_allowed : bool;   (* calendarLimiter.check(ip).allowed *)
  now : Date;             (* new Date() before the scan *)
  status_now : Date;      (* new Date() inside getSalesStatus *)
}.

(** [where: { status: 'CHECKOUT_HOLD', holdExpiresAt: { lt: now } }] *)
Definition expired (now : Date) (d : CalendarDay) : bool :=
  DayStatus_eqb (Day.status d) CHECKOUT_HOLD
  && match Day.holdExpiresAt d with
     | Some e => e <? now
     | None => false
     end.

Definition revert (d : CalendarDay) : CalendarDay :=
  Col.holdExpiresAt None (Col.holdToken None (Col.status AVAILABLE d)).

Definition expiry_entry (day : CalendarDay) : AuditLog :=
  {| Audit.calendarDayId := Day.id day;
     Audit.action := AUDIT_ACTIONS.CHECKOUT_HOLD_EXPIRED;
     Audit.oldValue := Some [("status", VStatus CHECKOUT_HOLD);
                             ("holdToken", VNullableString (Day.holdToken day))];
     Audit.newValue := Some [("status", VStatus AVAILABLE)];
     Audit.performedBy := "system";
     Audit.ipAddress := None;
     Audit.notes := Some "Checkout hold expired automatically" |}.

(** [for (const day of expiredHolds) { update; auditLog.create }] *)
Fixpoint expire_tx (expiredHolds : list CalendarDay) : Tx unit :=
  match expiredHolds with
  | [] => ret tt
  | day :: rest =>
      update (Day.id day) revert ;;;
      auditLog_create (expiry_entry day) ;;;
      expire_tx rest
  end.

(** [orderBy: { date: 'asc' }]: dates compare as their ISO texts. *)
Fixpoint insert_by_date (d : CalendarDay) (l : list CalendarDay) : list CalendarDay :=
  match l with
  | [] => [d]
  | x :: r => if String.leb (Day.date d) (Day.date x) then d :: l
              else x :: insert_by_date d r
  end.

Definition orderBy_date (l : list CalendarDay) : list CalendarDay :=
  fold_right insert_by_date [] l.

Definition getSalesStatus (settings : option AdminSettings) (now : Date) : SalesStatus :=
  match settings with
  | None => unknown
  | Some s =>
      if match Settings.salesStartDate s with Some t => now <? t | None => false end
      then not_started
      else if match Settings.salesEndDate s with Some t => now >? t | None => false end
      then ended
      else open
  end.

(** One entry of [publicDays]. *)
Definition publicDay (day : CalendarDay) : PublicCalendarDay :=
  {| Public.id := Day.id day;
     Public.date := Day.date day;
     Public.status := Day.status day;
     (* Only expose dedication text for sold days *)
     Public.dedicationText :=
       if DayStatus_eqb (Day.status day) SOLD then Day.dedicationText day else None;
     Public.holdExpiresAt :=
       if DayStatus_eqb (Day.status day) CHECKOUT_HOLD then Day.holdExpiresAt day else None |}.

(** The first day of a year as a date text, [Date.UTC(year, 0, 1)]. *)
Definition jan1 (year : nat) : string := String_of_nat year ++ "-01-01".

Definition GET (rq : Request) (db : DB) : Response * DB :=
  if negb (limit_allowed rq) then (json (JError "Too many requests") 429, db)
  else
    (* Expire stale checkout holds atomically *)
    let now := now rq in
    match statement (findMany (expired now)) db with
    | (Thrown _, db0) => (json (JError "Failed to load calendar") 500, db0)
    | (Returned expiredHolds, db0) =>
        match (if (0 <? List.length expiredHolds)%nat
               then transaction (expire_tx expiredHolds) db0
               else (Returned tt, db0)) with
        | (Thrown _, db1) => (json (JError "Failed to load calendar") 500, db1)
        | (Returned _, db1) =>
            (* Fetch all days for the calendar year *)
            let settings := adminSettings db1 in
            let year := match settings with
                        | Some s => Settings.calendarYear s
                        | None => 2027%nat
                        end in
            let start := jan1 year in
            let end_ := jan1 (year + 1) in
            let days :=
              orderBy_date
                (filter (fun d => String.leb start (Day.date d) && String.ltb (Day.date d) end_)
                   (calendarDay db1)) in
            let publicDays := map publicDay days in
            let salesStatus := getSalesStatus settings (status_now rq) in
            (json (JCalendar publicDays salesStatus
                     (match settings with Some s => Settings.priceInCents s | None => 10000 end)
                     year) 200, db1)
        end
    end.

End Calendar.

(** ** The system: a world of one database and one Stripe account, moved by
    one request at a time *)

Inductive Request :=
| HoldCreate (rq : CheckoutHold.PostRequest)
| HoldRelease (rq : CheckoutHold.DeleteRequest)
| PaymentIntentCreate (rq : CreatePaymentIntent.Request)
| Webhook (rq : StripeWebhook.Request)
| Refund (rq : AdminRefund.Request)
| AdminHoldCreate (rq : AdminHolds.PostRequest)
| AdminHoldRelease (rq : AdminHolds.DeleteRequest)
| DedicationEdit (rq : AdminDays.Request)
| CalendarGet (rq : Calendar.Request).

Record World := {
  prisma : DB;
  stripe_refunds : list AdminRefund.RefundCreateParams;  (* refunds.create calls so far *)
}.

Definition on_db (w : World) (r : Response * DB) : Response * World :=
  (fst r, {| prisma := snd r; stripe_refunds := stripe_refunds w |}).

Definition handle (rq : Request) (w : World) : Response * World :=
  match rq with
  | HoldCreate r => on_db w (CheckoutHold.POST r (prisma w))
  | HoldRelease r => on_db w (CheckoutHold.DELETE r (prisma w))
  | PaymentIntentCreate r => on_db w (CreatePaymentIntent.POST r (prisma w))
  | Webhook r => on_db w (StripeWebhook.POST r (prisma w))
  | Refund r =>
      let '(resp, db', calls) := AdminRefund.POST r (prisma w) in
      (resp, {| prisma := db'; stripe_refunds := stripe_refunds w ++ calls |})
  | AdminHoldCreate r => on_db w (AdminHolds.POST r (prisma w))
  | AdminHoldRelease r => on_db w (AdminHolds.DELETE r (prisma w))
  | DedicationEdit r => on_db w (AdminDays.PATCH r (prisma w))
  | CalendarGet r => on_db w (Calendar.GET r (prisma w))
  end.

(** Requests served one after the other; the responses, in order. *)
Fixpoint run (rqs : list Request) (w : World) : list Response * World :=
  match rqs with
  | [] => ([], w)
  | rq :: rest =>
      let '(resp, w1) := handle rq w in
      let '(resps, w2) := run rest w1 in
      (resp :: resps, w2)
  end.

(** ** Properties of a database and of a run *)

Fixpoint distinct (l : list string) : bool :=
  match l with
  | [] => true
  | x :: r => negb (existsb (String.eqb x) r) && distinct r
  end.

Definition ids (rows : list CalendarDay) : list string := map Day.id rows.

Definition paymentRefs (rows : list CalendarDay) : list string :=
  flat_map (fun d => match Day.stripePaymentIntentId d with
                     | Some p => [p]
                     | None => []
                     end) rows.

(** The primary key of [calendar_days]. *)
Definition unique_id (db : DB) : Prop := distinct (ids (calendarDay db)) = true.

(** The unique index on [stripePaymentIntentId]. *)
Definition unique_stripePaymentIntentId (db : DB) : Prop :=
  distinct (paymentRefs (calendarDay db)) = true.

(** The sales window lets a hold request through at its [now]. *)
Definition sales_open (settings : option AdminSettings) (now : Date) : Prop :=
  CheckoutHold.salesNotStarted settings now = false
  /\ CheckoutHold.salesEnded settings now = false.

(** A hold request for [date] that reaches the transaction. *)
Definition admitted (date : string) (db : DB) (rq : CheckoutHold.PostRequest) : Prop :=
  CheckoutHold.limit_allowed rq = true
  /\ CheckoutHold.post_body rq = Some (Some date)
  /\ sales_open (adminSettings db) (CheckoutHold.now rq).

(** The 409 answer of the hold endpoint. *)
Definition Conflict (status : DayStatus) : Response :=
  json (JErrorStatus "This date is no longer available" (Some (DayStatus_text status))) 409.

(** What an admitted request for [date] holds before its transaction, and
    the 200 answer it gets when the hold is granted. *)
Definition prepared_of (date : string) (rq : CheckoutHold.PostRequest) : CheckoutHold.Prepared :=
  {| CheckoutHold.date_text := date;
     CheckoutHold.dateObj := date;
     CheckoutHold.prepared_now := CheckoutHold.now rq;
     CheckoutHold.prepared_token := CheckoutHold.holdToken rq;
     CheckoutHold.holdExpiresAt := CheckoutHold.Date_now rq + CheckoutHold.HOLD_DURATION_MS;
     CheckoutHold.prepared_ip := CheckoutHold.ip rq |}.

Definition grant (date : string) (rq : CheckoutHold.PostRequest) : Response :=
  json (JHold (CheckoutHold.holdToken rq)
          (CheckoutHold.Date_now rq + CheckoutHold.HOLD_DURATION_MS) date) 200.

(** The payment reference a charge.refunded event carries, if any. *)
Definition charge_paymentRef (charge : Charge.t) : option string :=
  match Charge.payment_intent charge with
  | Some (Id s) => if truthy (Some s) then Some s else None
  | Some (Expanded pi) => if truthy (Some (PI.id pi)) then Some (PI.id pi) else None
  | None => None
  end.

(** A webhook request whose signature verifies and yields [data]. *)
Definition delivers (rq : StripeWebhook.Request) (data : EventData) : Prop :=
  truthy (StripeWebhook.sig rq) = true
  /\ truthy (StripeWebhook.webhookSecret rq) = true
  /\ exists ev, StripeWebhook.constructEvent rq = Returned ev /\ event_data ev = data.

(** A refund request of an authenticated administrator for [date]. *)
Definition refund_of (rq : AdminRefund.Request) (date : string) : Prop :=
  AdminRefund.session rq <> None
  /\ exists body, AdminRefund.request_body rq = Some body
                  /\ AdminRefund.date body = Some date.

(** The Stripe refund call did not confirm the refund: it threw, or its
    status is neither succeeded nor pending. *)
Definition gateway_declined (answer : Outcome AdminRefund.Refund) : Prop :=
  match answer with
  | Thrown _ => True
  | Returned refund =>
      AdminRefund.refund_status refund <> Some "succeeded"
      /\ AdminRefund.refund_status refund <> Some "pending"
  end.

(** The days a calendar response lists. *)
Definition days_of (r : Response) : list PublicCalendarDay :=
  match body r with
  | JCalendar days _ _ _ => days
  | _ => []
  end.

(** The rows after the read at [now] has expired the stale holds: every row
    that shares its id with a stale hold is reverted. *)
Definition expire_rows (now : Date) (rows : list CalendarDay) : list CalendarDay :=
  map (fun r => if existsb (fun d => by_id (Day.id d) r) (filter (Calendar.expired now) rows)
                then Calendar.revert r else r) rows.

(** The rows after reverting, one update at a time, the days of a list. *)
Definition revert_each (l rows : list CalendarDay) : list CalendarDay :=
  fold_left (fun rows d => replace_row (Day.id d) Calendar.revert rows) l rows.

(** What the public may see of a stored hold: it is stale at [now]. *)
Definition stale (now : Date) (p : PublicCalendarDay) : Prop :=
  Public.status p = CHECKOUT_HOLD
  /\ exists e, Public.holdExpiresAt p = Some e /\ e < now.

(** *** The calendar answer, computed from the public projection alone *)

Module PublicView.

Definition expired (now : Date) (p : PublicCalendarDay) : bool :=
  DayStatus_eqb (Public.status p) CHECKOUT_HOLD
  && match Public.holdExpiresAt p with
     | Some e => e <? now
     | None => false
     end.

Definition revert (p : PublicCalendarDay) : PublicCalendarDay :=
  {| Public.id := Public.id p; Public.date := Public.date p;
     Public.status := AVAILABLE;
     Public.dedicationText := None; Public.holdExpiresAt := None |}.

Definition expire (now : Date) (ps : list PublicCalendarDay) : list PublicCalendarDay :=
  map (fun p => if existsb (fun q => String.eqb (Public.id p) (Public.id q))
                     (filter (expired now) ps)
                then revert p else p) ps.

Fixpoint insert_by_date (p : PublicCalendarDay) (l : list PublicCalendarDay)
  : list PublicCalendarDay :=
  match l with
  | [] => [p]
  | x :: r => if String.leb (Public.date p) (Public.date x) then p :: l
              else x :: insert_by_date p r
  end.

Definition orderBy_date (l : list PublicCalendarDay) : list PublicCalendarDay :=
  fold_right insert_by_date [] l.

Definition answer (rq : Calendar.Request) (settings : option AdminSettings)
    (ps : list PublicCalendarDay) : Response :=
  if negb (Calendar.limit_allowed rq) then json (JError "Too many requests") 429
  else
    let year := match settings with
                | Some s => Settings.calendarYear s
                | None => 2027%nat
                end in
    json (JCalendar
            (orderBy_date
               (filter (fun p => String.leb (Calendar.jan1 year) (Public.date p)
                                 && String.ltb (Public.date p) (Calendar.jan1 (year + 1)))
                  (expire (Calendar.now rq) ps)))
            (Calendar.getSalesStatus settings (Calendar.status_now rq))
            (match settings with Some s => Settings.priceInCents s | None => 10000 end)
            year) 200.

End PublicView.

(** A row with everything the public projection does not carry blanked:
    buyer name, e-mail, phone, billing address, opt-in, payment reference,
    order, amount, payment time, hold token, admin note; the dedication
    text unless SOLD and the hold expiry unless CHECKOUT_HOLD. *)
Definition redact (d : CalendarDay) : CalendarDay :=
  {| Day.id := Day.id d; Day.date := Day.date d; Day.status := Day.status d;
     Day.dedicationText :=
       if DayStatus_eqb (Day.status d) SOLD then Day.dedicationText d else None;
     Day.buyerFirstName := None; Day.buyerLastName := None;
     Day.buyerEmail := None; Day.buyerPhone := None;
     Day.billingAddress := None; Day.contactOptIn := false;
     Day.stripePaymentIntentId := None; Day.orderId := None;
     Day.amountPaidCents := None; Day.paidAt := None;
     Day.holdToken := None;
     Day.holdExpiresAt :=
       if DayStatus_eqb (Day.status d) CHECKOUT_HOLD then Day.holdExpiresAt d else None;
     Day.adminNote := None |}.

(** The order number [generateOrderId()] computes on a database. *)
Definition next_orderId (db : DB) : string :=
  "ACF-" ++ String_of_nat 2027 ++ "-"
  ++ padStart0
       (String_of_nat
          (List.length
             (filter (fun d => DayStatus_eqb (Day.status d) SOLD && isSome (Day.orderId d))
                (calendarDay db)) + 1)) 5.

(** The database after [handlePaymentSucceeded] has finalised [day] at
    time [t]. *)
Definition sold_db (pi : PaymentIntent) (day : CalendarDay) (t : Date) (db : DB) : DB :=
  {| calendarDay :=
       replace_row (Day.id day)
         (StripeWebhook.sold_data pi day (next_orderId db) t
            (StripeWebhook.parsed_billingAddress (PI.metadata pi)))
         (calendarDay db);
     auditLog := auditLog db ++ [StripeWebhook.sold_entry pi day (next_orderId db)];
     adminSettings := adminSettings db |}.

(** The audit entries of one action. *)
Definition entries_of (action : string) (db : DB) : list AuditLog :=
  filter (fun e => String.eqb (Audit.action e) action) (auditLog db).

(** *** The invariants of a resource *)

(** The hold token and the hold expiry are set exactly in CHECKOUT_HOLD. *)
Definition hold_fields_ok (d : CalendarDay) : Prop :=
  (Day.holdToken d <> None <-> Day.status d = CHECKOUT_HOLD)
  /\ (Day.holdExpiresAt d <> None <-> Day.status d = CHECKOUT_HOLD).

(** A SOLD day has its order reference and its payment time. *)
Definition sale_fields_ok (d : CalendarDay) : Prop :=
  Day.status d = SOLD -> Day.orderId d <> None /\ Day.paidAt d <> None.

(** The order reference and the payment time are set exactly in SOLD. *)
Definition sale_fields_iff_sold (d : CalendarDay) : Prop :=
  (Day.orderId d <> None <-> Day.status d = SOLD)
  /\ (Day.paidAt d <> None <-> Day.status d = SOLD).

(** What every reachable database satisfies. *)
Definition invariant (db : DB) : Prop :=
  unique_id db
  /\ Forall (fun d => hold_fields_ok d /\ sale_fields_ok d) (calendarDay db).

(** The day with id [i] has been refunded: the audit trail has a
    REFUND_ISSUED entry for it. *)
Definition refunded (db : DB) (i : string) : Prop :=
  exists e, In e (auditLog db)
            /\ Audit.calendarDayId e = i
            /\ Audit.action e = AUDIT_ACTIONS.REFUND_ISSUED.

(** An order reference or a payment time is on a day that is SOLD, or on a
    day that has been refunded. *)
Definition sale_fields_from_sale (db : DB) (d : CalendarDay) : Prop :=
  Day.orderId d <> None \/ Day.paidAt d <> None ->
  Day.status d = SOLD \/ refunded db (Day.id d).

(** What every reachable database satisfies, with the record of its
    refunds. *)
Definition resource_invariant (db : DB) : Prop :=
  invariant db /\ Forall (sale_fields_from_sale db) (calendarDay db).

(** What a successful refund leaves of a row: the state and the note
    change, every other column stays. *)
Definition refund_data (newStatus : DayStatus) (note : option string) (d : CalendarDay)
  : CalendarDay :=
  Col.adminNote note (Col.status newStatus d).

(** The invariant of the data model as the specification words it. *)
Definition stated_invariant (db : DB) : Prop :=
  Forall (fun d => hold_fields_ok d /\ sale_fields_iff_sold d) (calendarDay db).

(** The order references the finalisations have assigned, oldest first:
    the [orderId] of each PAYMENT_RECEIVED entry. *)
Definition assigned_orderIds (db : DB) : list string :=
  flat_map (fun e => match Audit.newValue e with
                     | Some fs => match field "orderId" fs with
                                  | Some (VString o) => [o]
                                  | _ => []
                                  end
                     | None => []
                     end)
    (entries_of AUDIT_ACTIONS.PAYMENT_RECEIVED db).

(** The (id, status, order reference) of every row. *)
Definition ledger (db : DB) : list (string * DayStatus * option string) :=
  map (fun d => (Day.id d, Day.status d, Day.orderId d)) (calendarDay db).

(** *** Audited transitions *)

(** The state of the day with id [i]. *)
Definition status_of (db : DB) (i : string) : option DayStatus :=
  option_map Day.status (find (by_id i) (calendarDay db)).

(** From [db] to [db'] exactly one audit entry was appended; its
    [oldValue.status] is the state its day had, its [newValue.status] the
    state its day has, and no other day changed state. *)
Definition audited_transition (db db' : DB) : Prop :=
  exists e,
    auditLog db' = (auditLog db ++ [e])%list
    /\ (exists s, status_of db (Audit.calendarDayId e) = Some s
                  /\ snapshot_status (Audit.oldValue e) = Some s)
    /\ (exists s', status_of db' (Audit.calendarDayId e) = Some s'
                   /\ snapshot_status (Audit.newValue e) = Some s')
    /\ (forall i, i <> Audit.calendarDayId e -> status_of db' i = status_of db i).

(** The outcome of one state-transition request: a failure writes nothing;
    otherwise nothing was written or one transition was audited. *)
Definition transition_outcome (db : DB) (resp : Response) (db' : DB) : Prop :=
  (http_status resp <> 200 -> db' = db)
  /\ (db' = db \/ audited_transition db db').

(** The outcome of a request that does what it is asked whenever it
    answers 200: a failure writes nothing, a success is one audited
    transition. *)
Definition granted_outcome (db : DB) (resp : Response) (db' : DB) : Prop :=
  (http_status resp <> 200 -> db' = db)
  /\ (http_status resp = 200 -> audited_transition db db').

(** The outcome of an edit of the dedication text.  No day changes state.
    A successful edit appends exactly one TEXT_EDIT entry, for a SOLD day,
    with the old and the new text and no status; an edit that fails appends
    none. *)
Definition text_edit_outcome (db : DB) (resp : Response) (db' : DB) : Prop :=
  (forall i, status_of db' i = status_of db i)
  /\ (http_status resp <> 200 -> auditLog db' = auditLog db)
  /\ (http_status resp = 200 ->
      exists e day day',
        auditLog db' = (auditLog db ++ [e])%list
        /\ Audit.action e = AUDIT_ACTIONS.TEXT_EDIT
        /\ find (by_id (Audit.calendarDayId e)) (calendarDay db) = Some day
        /\ find (by_id (Audit.calendarDayId e)) (calendarDay db') = Some day'
        /\ Audit.oldValue e
           = Some [("dedicationText", VNullableString (Day.dedicationText day))]
        /\ Audit.newValue e
           = Some [("dedicationText", VNullableString (Day.dedicationText day'))]
        /\ Day.status day = SOLD).

(** The outcome of a calendar read: one entry per reverted hold, each from
    CHECKOUT_HOLD to AVAILABLE, and no other change of state. *)
Definition expiry_outcome (now : Date) (db db' : DB) : Prop :=
  let reverted := filter (Calendar.expired now) (calendarDay db) in
  auditLog db' = (auditLog db ++ map Calendar.expiry_entry reverted)%list
  /\ (forall d, In d reverted ->
                status_of db (Day.id d) = Some CHECKOUT_HOLD
                /\ status_of db' (Day.id d) = Some AVAILABLE
                /\ Audit.calendarDayId (Calendar.expiry_entry d) = Day.id d
                /\ snapshot_status (Audit.oldValue (Calendar.expiry_entry d))
                   = Some CHECKOUT_HOLD
                /\ snapshot_status (Audit.newValue (Calendar.expiry_entry d))
                   = Some AVAILABLE)
  /\ (forall i, ~ In i (ids reverted) -> status_of db' i = status_of db i).

(** The outcome of a request that changes no state: no entry for the
    payment intent, at most the informational one for a charge refund. *)
Definition stateless_outcome (db : DB) (resp : Response) (db' : DB) : Prop :=
  (http_status resp <> 200 -> db' = db)
  /\ (forall i, status_of db' i = status_of db i).

(** What the audit trail owes to a request.  A hold, an admin hold, its
    release and a refund answer 200 only when they have written; a release
    by the customer and a webhook event also answer 200 when there was
    nothing to do. *)
Definition audit_outcome (rq : Request) (w : World) : Prop :=
  let db := prisma w in
  let resp := fst (handle rq w) in
  let db' := prisma (snd (handle rq w)) in
  match rq with
  | CalendarGet r =>
      if Calendar.limit_allowed r then expiry_outcome (Calendar.now r) db db'
      else db' = db
  | DedicationEdit _ => text_edit_outcome db resp db'
  | PaymentIntentCreate _ =>
      stateless_outcome db resp db' /\ auditLog db' = auditLog db
  | Webhook r =>
      match StripeWebhook.constructEvent r with
      | Returned {| event_data := charge_refunded _ |} => stateless_outcome db resp db'
      | _ => transition_outcome db resp db'
      end
  | HoldRelease _ => transition_outcome db resp db'
  | HoldCreate _ | Refund _ | AdminHoldCreate _ | AdminHoldRelease _ =>
      granted_outcome db resp db'
  end.

(** The claim as the specification words it for every listed operation:
    a successful one appends one entry with the old and the new state. *)
Definition audits_state_change (rq : Request) (w : World) : Prop :=
  http_status (fst (handle rq w)) = 200 ->
  prisma (snd (handle rq w)) <> prisma w ->
  audited_transition (prisma w) (prisma (snd (handle rq w))).

(** *** Rows after a failed payment and after an admin hold *)

(** What a failed payment writes on the row. *)
Definition failed_data (d : CalendarDay) : CalendarDay :=
  Col.stripePaymentIntentId None
    (Col.holdExpiresAt None (Col.holdToken None (Col.status AVAILABLE d))).

(** What an admin hold that is placed and released again leaves of a row. *)
Definition cleared (d : CalendarDay) : CalendarDay :=
  Col.adminNote None (Col.holdExpiresAt None (Col.holdToken None (Col.status AVAILABLE d))).

(** ** The normal form of a dedication text *)

Module DedicationForm.
Import Dedication.

(** Every whitespace of the text from here on is one U+0020 that follows a
    character that is no whitespace and is followed by one; [after_space]
    tells whether the character before was a whitespace (or the start). *)
Fixpoint single_spaced (after_space : bool) (s : string) : bool :=
  match s with
  | "" => negb after_space
  | String c r =>
      if is_space c
      then negb after_space && Ascii.eqb c " " && single_spaced true r
      else single_spaced false r
  end.

(** A text without leading or trailing whitespace whose words are
    separated by single spaces. *)
Definition normalized (s : string) : bool :=
  match s with
  | "" => true
  | _ => single_spaced true s
  end.

End DedicationForm.

(** ** The orders that [generateOrderId] counts *)

(** The number of orders [generateOrderId] counts: the SOLD rows that have
    an order id. *)
Definition sold_orders (db : DB) : nat :=
  List.length
    (filter (fun d => DayStatus_eqb (Day.status d) SOLD && isSome (Day.orderId d))
       (calendarDay db)).

(** The number a text of decimal digits denotes, leading zeros allowed. *)
Definition number_of_digits (s : string) : option nat :=
  option_map Nat.of_uint (NilEmpty.uint_of_string s).
(** ** The in-memory rate limiter ([getRateLimiter]) *)

Module RateLimit.

Record RateLimitEntry := { count : Z; resetAt : Z }.

(** The [Map<string, RateLimitEntry>] of one limiter: its entries in
    insertion order. *)
Definition Store : Type := list (string * RateLimitEntry).

(** [store.get(key)] *)
Fixpoint get (key : string) (store : Store) : option RateLimitEntry :=
  match store with
  | [] => None
  | (k, e) :: rest => if String.eqb k key then Some e else get key rest
  end.

(** [store.set(key, entry)]: an existing key keeps its place. *)
Fixpoint set (key : string) (entry : RateLimitEntry) (store : Store) : Store :=
  match store with
  | [] => [(key, entry)]
  | (k, e) :: rest =>
      if String.eqb k key then (k, entry) :: rest else (k, e) :: set key entry rest
  end.

Record Verdict := { allowed : bool; remaining : Z; verdict_resetAt : Z }.

(** [getRateLimiter(name, maxRequests, windowMs).check(key)] at the time
    [now] = [Date.now()], on the store of the limiter. *)
Definition check (maxRequests windowMs : Z) (key : string) (now : Z) (store : Store)
  : Verdict * Store :=
  let fresh :=
    ({| allowed := true; remaining := maxRequests - 1; verdict_resetAt := now + windowMs |},
     set key {| count := 1; resetAt := now + windowMs |} store) in
  match get key store with
  | None => fresh
  | Some entry =>
      if now >? resetAt entry then fresh
      else if count entry >=? maxRequests
      then ({| allowed := false; remaining := 0; verdict_resetAt := resetAt entry |}, store)
      else
        (* entry.count++ on the object the map holds *)
        let entry' := {| count := count entry + 1; resetAt := resetAt entry |} in
        ({| allowed := true; remaining := maxRequests - count entry';
            verdict_resetAt := resetAt entry |},
         set key entry' store)
  end.

(** One run of the cleanup timer on the store of a limiter, at the time
    [now]: [if (now > entry.resetAt) store.delete(key)]. *)
Definition cleanup (now : Z) (store : Store) : Store :=
  filter (fun ke => negb (now >? resetAt (snd ke))) store.

(** What happens to a limiter: a call of [check], or a run of the timer. *)
Inductive Event :=
| Check (key : string) (now : Z)
| Cleanup (now : Z).

(** The calls of [check] for [key]. *)
Definition is_call_for (key : string) (e : Event) : bool :=
  match e with Check k _ => String.eqb k key | Cleanup _ => false end.

Definition calls_for (key : string) (events : list Event) : list Event :=
  filter (is_call_for key) events.

(** The events served one after the other: how many calls for [key] were
    allowed. *)
Fixpoint allowed_calls (maxRequests windowMs : Z) (key : string)
    (events : list Event) (store : Store) : nat :=
  match events with
  | [] => 0%nat
  | Check k now :: rest =>
      let '(v, store') := check maxRequests windowMs k now store in
      ((if String.eqb k key && allowed v then 1 else 0)
       + allowed_calls maxRequests windowMs key rest store')%nat
  | Cleanup now :: rest => allowed_calls maxRequests windowMs key rest (cleanup now store)
  end.

(** The events that fall in the window ending at [r], as far as [key] is
    concerned: its own calls and the runs of the timer. *)
Definition in_window (key : string) (r : Z) (e : Event) : Prop :=
  match e with
  | Check k now => k = key -> now <= r
  | Cleanup now => now <= r
  end.

End RateLimit.
(** ** prisma/seed.ts *)

Module Seed.
Import Validation.

(** A [Date] at UTC midnight, as its fields
    [(getUTCFullYear(), getUTCMonth(), getUTCDate())]. *)
Definition Day : Type := Z * Z * Z.

(** [a < b] on two such dates. *)
Definition before (a b : Day) : bool :=
  let '(ya, ma, da) := a in
  let '(yb, mb, db) := b in
  (ya <? yb) || ((ya =? yb) && ((ma <? mb) || ((ma =? mb) && (da <? db)))).

(** [d.setUTCDate(d.getUTCDate() + 1)] *)
Definition next_day (d : Day) : Day :=
  let '(y, m, dd) := d in Date_UTC_fields y m (dd + 1).

(** [for (let d = new Date(start); d < end; d.setUTCDate(...)) dates.push(new Date(d))],
    run for at most [fuel] rounds. *)
Fixpoint days_from (fuel : nat) (d end_ : Day) : list Day :=
  match fuel with
  | O => []
  | S k => if before d end_ then d :: days_from k (next_day d) end_ else []
  end.

(** [generateDaysForYear(year)]: a year has at most 366 days, and the loop
    leaves on its own condition well within 400 rounds. *)
Definition generateDaysForYear (year : Z) : list Day :=
  days_from 400 (year, 0, 1) (year + 1, 0, 1).

(** [date.toISOString().slice(0, 10)] for a year of four digits: the text
    under which the [date] column keeps the day. *)
Definition toISODate (d : Day) : string :=
  let '(y, m, dd) := d in
  padStart0 (String_of_nat (Z.to_nat y)) 4 ++ "-"
  ++ padStart0 (String_of_nat (Z.to_nat (m + 1))) 2 ++ "-"
  ++ padStart0 (String_of_nat (Z.to_nat dd)) 2.

End Seed.

(** The dates the seed creates for the calendar year. *)
Definition seeded_dates : list string :=
  Eval vm_compute in map Seed.toISODate (Seed.generateDaysForYear Validation.CALENDAR_YEAR).

(** The ASCII digit of a number from 0 to 9. *)
Definition digit_char (n : Z) : ascii := ascii_of_nat (Z.to_nat n + 48).

(** The text 2027-MM-DD with the digits [a b] of the month and [c e] of
    the day. *)
Definition date_2027 (a b c e : Z) : string :=
  String "2" (String "0" (String "2" (String "7" (String "-"
    (String (digit_char a) (String (digit_char b) (String "-"
      (String (digit_char c) (String (digit_char e) ""))))))))).
(** ** scripts/reset-holds.ts *)

Module ResetHolds.

(** [where: { status: DayStatus.CHECKOUT_HOLD }] *)
Definition stuck (d : CalendarDay) : bool := DayStatus_eqb (Day.status d) CHECKOUT_HOLD.

(** [data: { status: AVAILABLE, holdToken: null, holdExpiresAt: null }] *)
Definition reset (d : CalendarDay) : CalendarDay :=
  Col.holdExpiresAt None (Col.holdToken None (Col.status AVAILABLE d)).

(** [main]: one [calendarDay.updateMany]; the result is its [count]. *)
Definition main (db : DB) : nat * DB :=
  (List.length (filter stuck (calendarDay db)),
   with_days db (map (fun d => if stuck d then reset d else d) (calendarDay db))).

End ResetHolds.

(** ** Sample data *)

Module Sample.

(** A day as prisma/seed.ts creates it. *)
Definition seeded (i date : string) : CalendarDay :=
  {| Day.id := i; Day.date := date; Day.status := AVAILABLE;
     Day.dedicationText := None;
     Day.buyerFirstName := None; Day.buyerLastName := None;
     Day.buyerEmail := None; Day.buyerPhone := None;
     Day.billingAddress := None; Day.contactOptIn := false;
     Day.stripePaymentIntentId := None; Day.orderId := None;
     Day.amountPaidCents := None; Day.paidAt := None;
     Day.holdToken := None; Day.holdExpiresAt := None; Day.adminNote := None |}.

Definition settings : AdminSettings :=
  {| Settings.emojisAllowed := false; Settings.textRequired := false;
     Settings.priceInCents := 10000; Settings.calendarYear := 2027%nat;
     Settings.salesStartDate := None; Settings.salesEndDate := None;
     Settings.acfAdminEmail := "admin@albanycf.org" |}.

Definition db0 : DB :=
  {| calendarDay := [seeded "day_0314" "2027-03-14"; seeded "day_0315" "2027-03-15";
                     seeded "day_0316" "2027-03-16"];
     auditLog := [];
     adminSettings := Some settings |}.

Definition w0 : World := {| prisma := db0; stripe_refunds := [] |}.

Definition hold_request (date token : string) (t : Date) : CheckoutHold.PostRequest :=
  {| CheckoutHold.ip := "203.0.113.7"; CheckoutHold.limit_allowed := true;
     CheckoutHold.post_body := Some (Some date);
     CheckoutHold.now := t; CheckoutHold.holdToken := token;
     CheckoutHold.Date_now := t + 1 |}.

Definition buyer : CreatePaymentIntent.BuyerInfo :=
  {| CreatePaymentIntent.firstName := "Ada";
     CreatePaymentIntent.lastName := "Byron";
     CreatePaymentIntent.email := "ada@example.org";
     CreatePaymentIntent.phone := None;
     CreatePaymentIntent.billingAddress :=
       {| line1 := "1 State St"; line2 := None; city := "Albany"; state := "NY";
          postal_code := "12207"; country := "US" |};
     CreatePaymentIntent.contactOptIn := false;
     CreatePaymentIntent.dedicationText := "For Mum" |}.

(** The PaymentIntent [p] as the route creates it for a held day. *)
Definition intent (p i date token : string) : PaymentIntent :=
  {| PI.id := p; PI.amount := 10000;
     PI.metadata := CreatePaymentIntent.metadata_of date token (seeded i date) buyer;
     PI.last_payment_error_message := None |}.

(** A PaymentIntent whose metadata names no calendar day. *)
Definition bare_intent (p : string) : PaymentIntent :=
  {| PI.id := p; PI.amount := 10000;
     PI.metadata :=
       {| Metadata.date := Some "2027-03-15"; Metadata.holdToken := None;
          Metadata.calendarDayId := None;
          Metadata.buyerEmail := None; Metadata.buyerFirstName := None;
          Metadata.buyerLastName := None; Metadata.buyerPhone := None;
          Metadata.dedicationText := None; Metadata.contactOptIn := None;
          Metadata.billingAddress := None |};
     PI.last_payment_error_message := None |}.

Definition webhook (data : EventData) (t : Date) : StripeWebhook.Request :=
  {| StripeWebhook.sig := Some "t=1,v1=5257a869";
     StripeWebhook.webhookSecret := Some "whsec_test";
     StripeWebhook.constructEvent := Returned {| event_id := "evt_1"; event_data := data |};
     StripeWebhook.clock := t |}.

Definition admin : Session := {| user_email := Some "destin@albanycf.org" |}.

Definition refund_request (date : string) (restore : bool)
    (answer : Outcome AdminRefund.Refund) : AdminRefund.Request :=
  {| AdminRefund.session := Some admin;
     AdminRefund.request_body :=
       Some {| AdminRefund.date := Some date;
               AdminRefund.restoreDate := Some restore;
               AdminRefund.reason := Some "Buyer asked" |};
     AdminRefund.today := "2027-01-02";
     AdminRefund.refunds_create := answer |}.

Definition refunded : Outcome AdminRefund.Refund :=
  Returned {| AdminRefund.refund_id := "re_1";
              AdminRefund.refund_status := Some "succeeded";
              AdminRefund.refund_amount := 10000 |}.

Definition intent_request (date token p : string) (t : Date) : CreatePaymentIntent.Request :=
  {| CreatePaymentIntent.ip := "203.0.113.7";
     CreatePaymentIntent.limit_allowed := true;
     CreatePaymentIntent.request_body :=
       Some {| CreatePaymentIntent.date := Some date;
               CreatePaymentIntent.holdToken := Some token;
               CreatePaymentIntent.formData := Some buyer |};
     CreatePaymentIntent.now := t;
     CreatePaymentIntent.paymentIntents_create :=
       Returned {| CreatePaymentIntent.created_id := p;
                   CreatePaymentIntent.client_secret := p ++ "_secret" |} |}.

(** One complete sale of 2027-03-15: hold, payment intent, webhook. *)
Definition sale_0315 : list Request :=
  [HoldCreate (hold_request "2027-03-15" "T1" 1000);
   PaymentIntentCreate (intent_request "2027-03-15" "T1" "pi_1" 2000);
   Webhook (webhook (payment_intent_succeeded (intent "pi_1" "day_0315" "2027-03-15" "T1")) 3000)].

(** The world after that sale. *)
Definition w_sold : World := Eval vm_compute in snd (run sale_0315 w0).

Definition db_sold : DB := prisma w_sold.

(** The world with 2027-03-15 under a checkout hold that has a payment
    intent. *)
Definition w_held : World :=
  Eval vm_compute in
    snd (run [HoldCreate (hold_request "2027-03-15" "T1" 1000);
              PaymentIntentCreate (intent_request "2027-03-15" "T1" "pi_1" 2000)] w0).

Definition db_held : DB := prisma w_held.

Definition calendar_request (t : Date) : Calendar.Request :=
  {| Calendar.ip := "198.51.100.4"; Calendar.limit_allowed := true;
     Calendar.now := t; Calendar.status_now := t + 3 |}.

(** The sold world with another buyer and another payment behind every row. *)
Definition db_sold_other : DB :=
  with_days db_sold
    (map (fun d => Col.buyerEmail (Some "eve@example.org")
                     (Col.buyerFirstName (Some "Eve")
                        (Col.buyerPhone (Some "+1 518 555 0100")
                           (Col.stripePaymentIntentId None
                              (Col.holdToken (Some "T9") d)))))
       (calendarDay db_sold)).

(** The sale of 2027-03-15 followed by its refund, the day restored. *)
Definition sale_then_refund : list Request :=
  sale_0315 ++ [Refund (refund_request "2027-03-15" true refunded)].

(** ... followed by a second sale of the same day under another payment. *)
Definition resale : list Request :=
  sale_then_refund
  ++ [HoldCreate (hold_request "2027-03-15" "T2" 700000);
      PaymentIntentCreate (intent_request "2027-03-15" "T2" "pi_2" 701000);
      Webhook (webhook (payment_intent_succeeded (intent "pi_2" "day_0315" "2027-03-15" "T2"))
                 702000)].

(** Three sales with a refund of the first before the third. *)
Definition three_sales : list Request :=
  sale_0315
  ++ [HoldCreate (hold_request "2027-03-16" "T2" 4000);
      PaymentIntentCreate (intent_request "2027-03-16" "T2" "pi_2" 5000);
      Webhook (webhook (payment_intent_succeeded (intent "pi_2" "day_0316" "2027-03-16" "T2"))
                 6000);
      Refund (refund_request "2027-03-15" false refunded);
      HoldCreate (hold_request "2027-03-14" "T3" 7000);
      PaymentIntentCreate (intent_request "2027-03-14" "T3" "pi_3" 8000);
      Webhook (webhook (payment_intent_succeeded (intent "pi_3" "day_0314" "2027-03-14" "T3"))
                 9000)].

(** The world after the sale and its refund. *)
Definition w_refunded : World := Eval vm_compute in snd (run sale_then_refund w0).

Definition edit_request (date text : string) : AdminDays.Request :=
  {| AdminDays.session := Some admin;
     AdminDays.date := date;
     AdminDays.request_body := Some (Some text, Some "Typo");
     AdminDays.auditLog_create_answer := Returned tt |}.

(** The database with 2027-03-15 under a checkout hold and no payment
    intent yet. *)
Definition db_hold_only : DB :=
  Eval vm_compute in snd (CheckoutHold.POST (hold_request "2027-03-15" "T1" 1000) db0).

(** The held day of [db_held]. *)
Definition day_held : CalendarDay :=
  Eval vm_compute in
    match find (by_date "2027-03-15") (calendarDay db_held) with
    | Some d => d
    | None => seeded "" ""
    end.

(** [db_held] after a calendar read long after the hold has lapsed: the day
    is AVAILABLE again and still carries the payment reference. *)
Definition db_lapsed : DB :=
  Eval vm_compute in snd (Calendar.GET (calendar_request 700000) db_held).

Definition day_lapsed : CalendarDay :=
  Eval vm_compute in
    match find (by_date "2027-03-15") (calendarDay db_lapsed) with
    | Some d => d
    | None => seeded "" ""
    end.

(** The seeded database with sales that start later. *)
Definition db_not_started : DB :=
  {| calendarDay := calendarDay db0;
     auditLog := [];
     adminSettings :=
       Some {| Settings.emojisAllowed := false; Settings.textRequired := false;
               Settings.priceInCents := 10000; Settings.calendarYear := 2027%nat;
               Settings.salesStartDate := Some 5000; Settings.salesEndDate := None;
               Settings.acfAdminEmail := "admin@albanycf.org" |} |}.

(** The same edit when the database rejects the audit insert. *)
Definition edit_request_rejected (date text : string) : AdminDays.Request :=
  {| AdminDays.session := Some admin;
     AdminDays.date := date;
     AdminDays.request_body := Some (Some text, Some "Typo");
     AdminDays.auditLog_create_answer := Thrown "Can't reach database server" |}.

End Sample.
(** * Proofs *)

(** ** Equality tests *)

Lemma DayStatus_eqb_eq (a b : DayStatus) : DayStatus_eqb a b = true <-> a = b.
Proof. destruct a, b; simpl; split; intro H; congruence. Qed.

Lemma DayStatus_eqb_refl (a : DayStatus) : DayStatus_eqb a a = true.
Proof. now destruct a. Qed.

Lemma DayStatus_eqb_neq (a b : DayStatus) : DayStatus_eqb a b = false <-> a <> b.
Proof. destruct a, b; simpl; split; intro H; congruence. Qed.

Lemma option_string_eqb_eq (a b : option string) : option_string_eqb a b = true <-> a = b.
Proof.
  destruct a as [x|], b as [y|]; simpl; try (split; congruence).
  rewrite String.eqb_eq. split; congruence.
Qed.

Lemma option_string_eqb_refl (a : option string) : option_string_eqb a a = true.
Proof. now apply option_string_eqb_eq. Qed.

Lemma by_id_true (i : string) (d : CalendarDay) : by_id i d = true <-> Day.id d = i.
Proof. unfold by_id. apply String.eqb_eq. Qed.

Lemma by_date_true (k : string) (d : CalendarDay) : by_date k d = true <-> Day.date d = k.
Proof. unfold by_date. apply String.eqb_eq. Qed.

Lemma by_pi_true (p : string) (d : CalendarDay) :
  by_stripePaymentIntentId p d = true <-> Day.stripePaymentIntentId d = Some p.
Proof. unfold by_stripePaymentIntentId. apply option_string_eqb_eq. Qed.

(** ** Rows and their replacement *)

Section ReplaceRow.
Variable i : string.
Variable data : CalendarDay -> CalendarDay.
Hypothesis data_id : forall d, Day.id (data d) = Day.id d.

Lemma replace_row_ids (rows : list CalendarDay) :
  ids (replace_row i data rows) = ids rows.
Proof.
  unfold ids, replace_row. rewrite map_map. apply map_ext.
  intro r. destruct (by_id i r); auto.
Qed.

Lemma find_id_replace_row (j : string) (rows : list CalendarDay) :
  find (by_id j) (replace_row i data rows)
  = option_map (fun r => if by_id i r then data r else r) (find (by_id j) rows).
Proof.
  induction rows as [|r rows IH]; simpl; auto.
  assert (E : by_id j (if by_id i r then data r else r) = by_id j r).
  { unfold by_id at 1 3. destruct (by_id i r); auto. now rewrite data_id. }
  rewrite E. destruct (by_id j r); auto.
Qed.

Lemma find_date_replace_row (k : string) (rows : list CalendarDay) :
  (forall d, Day.date (data d) = Day.date d) ->
  find (by_date k) (replace_row i data rows)
  = option_map (fun r => if by_id i r then data r else r) (find (by_date k) rows).
Proof.
  intro data_date.
  induction rows as [|r rows IH]; simpl; auto.
  assert (E : by_date k (if by_id i r then data r else r) = by_date k r).
  { unfold by_date. destruct (by_id i r); auto. now rewrite data_date. }
  rewrite E. destruct (by_date k r); auto.
Qed.

Lemma Forall_replace_row (P : CalendarDay -> Prop) (rows : list CalendarDay) :
  Forall P rows ->
  (forall r, In r rows -> Day.id r = i -> P r -> P (data r)) ->
  Forall P (replace_row i data rows).
Proof.
  intros HP Hdata. unfold replace_row. rewrite Forall_forall in *.
  intros x Hx. apply in_map_iff in Hx as (r & <- & Hr).
  destruct (by_id i r) eqn:E; auto.
  apply Hdata; auto. now apply by_id_true.
Qed.

End ReplaceRow.

Lemma find_in_rows (f : CalendarDay -> bool) (rows : list CalendarDay) (d : CalendarDay) :
  find f rows = Some d -> In d rows /\ f d = true.
Proof. apply find_some. Qed.

(** The statement that writes a row whose payment reference stays as it
    was never meets the unique index. *)
Lemma unique_violation_same_ref (i : string) (old new : CalendarDay) (rows : list CalendarDay) :
  Day.stripePaymentIntentId new = Day.stripePaymentIntentId old ->
  unique_violation i old new rows = false.
Proof.
  unfold unique_violation. intros ->.
  destruct (Day.stripePaymentIntentId old); auto.
  now rewrite option_string_eqb_refl.
Qed.

Lemma update_returns (i : string) (data : CalendarDay -> CalendarDay) (db : DB)
    (old : CalendarDay) :
  find (by_id i) (calendarDay db) = Some old ->
  unique_violation i old (data old) (calendarDay db) = false ->
  update i data db
  = Returned (data old, with_days db (replace_row i data (calendarDay db))).
Proof. intros Hf Hu. unfold update. now rewrite Hf, Hu. Qed.

(** A row found by its date is found by its own id as well (possibly as
    another row when ids repeat). *)
Lemma find_own_id (rows : list CalendarDay) (d : CalendarDay) :
  In d rows -> exists old, find (by_id (Day.id d)) rows = Some old /\ Day.id old = Day.id d.
Proof.
  intro Hin. destruct (find (by_id (Day.id d)) rows) as [old|] eqn:E.
  - exists old. split; auto. apply find_some in E as [_ E]. now apply by_id_true.
  - exfalso. apply (find_none _ _ E) in Hin. unfold by_id in Hin.
    now rewrite String.eqb_refl in Hin.
Qed.

Lemma existsb_eqb_In (x : string) (l : list string) :
  existsb (String.eqb x) l = true <-> In x l.
Proof.
  rewrite existsb_exists. split.
  - intros (y & Hy & E). apply String.eqb_eq in E. now subst.
  - intro H. exists x. split; auto. apply String.eqb_refl.
Qed.

Lemma distinct_NoDup (l : list string) : distinct l = true <-> NoDup l.
Proof.
  induction l as [|x l IH]; simpl.
  - split; auto. constructor.
  - rewrite andb_true_iff, negb_true_iff, IH. split.
    + intros [H1 H2]. constructor; auto. intro Hin.
      apply existsb_eqb_In in Hin. congruence.
    + intro H. inversion H; subst. split; auto.
      destruct (existsb (String.eqb x) l) eqn:E; auto.
      apply existsb_eqb_In in E. contradiction.
Qed.

(** Under the primary key, two rows with one id are one row. *)
Lemma unique_id_row (rows : list CalendarDay) (a b : CalendarDay) :
  distinct (ids rows) = true -> In a rows -> In b rows -> Day.id a = Day.id b -> a = b.
Proof.
  rewrite distinct_NoDup. unfold ids.
  induction rows as [|r rows IH]; simpl; intros ND Ha Hb E; [contradiction|].
  inversion ND as [|? ? Hnotin ND']; subst.
  destruct Ha as [-> | Ha], Hb as [-> | Hb]; auto.
  - exfalso. apply Hnotin. rewrite E. now apply in_map.
  - exfalso. apply Hnotin. rewrite <- E. now apply in_map.
Qed.

Lemma find_by_id_unique (rows : list CalendarDay) (d : CalendarDay) :
  distinct (ids rows) = true -> In d rows -> find (by_id (Day.id d)) rows = Some d.
Proof.
  intros U Hin. destruct (find_own_id rows d Hin) as (old & Hf & E).
  rewrite Hf. f_equal. apply find_some in Hf as [Hold _].
  eapply unique_id_row; eauto.
Qed.

(** ** The hold endpoint *)

Section HoldRequests.
Import CheckoutHold.

Variable date : string.
Hypothesis date_valid : Validation.validateCalendarDate date = true.

Lemma prepare_admitted (rq : PostRequest) (db : DB) :
  admitted date db rq -> prepare rq db = inr (prepared_of date rq).
Proof.
  intros (Hlim & Hbody & Hns & Hend). unfold prepare.
  rewrite Hlim, Hbody, date_valid. cbn [negb]. now rewrite Hns, Hend.
Qed.

(** The transaction on a day that can be held grants the hold: the row now
    carries the call's token and expiry. *)
Lemma commit_granted (rq : PostRequest) (db : DB) (day : CalendarDay) :
  find (by_date date) (calendarDay db) = Some day ->
  Day.status day = AVAILABLE ->
  exists db',
    commit (prepared_of date rq) db = (grant date rq, db')
    /\ adminSettings db' = adminSettings db
    /\ find (by_date date) (calendarDay db')
       = Some (hold_data (holdToken rq) (Date_now rq + HOLD_DURATION_MS) day).
Proof.
  intros Hfind Hst.
  destruct (find_in_rows _ _ _ Hfind) as [Hin _].
  destruct (find_own_id _ _ Hin) as (old & Hold & _).
  unfold commit, prepared_of.
  cbn [dateObj prepared_now prepared_token holdExpiresAt prepared_ip date_text].
  unfold transaction, hold_tx, bind, findUnique. rewrite Hfind, Hst. cbn [DayStatus_eqb orb negb].
  rewrite (update_returns _ _ _ old Hold) by (now apply unique_violation_same_ref).
  cbn [auditLog_create ret].
  eexists. split; [reflexivity|]. split; [reflexivity|].
  cbn [calendarDay with_audit with_days].
  rewrite find_date_replace_row by reflexivity.
  rewrite Hfind. cbn [option_map]. unfold by_id. now rewrite String.eqb_refl.
Qed.

(** The transaction on a day under an unexpired hold is refused with 409 and
    writes nothing. *)
Lemma commit_refused (rq : PostRequest) (db : DB) (day : CalendarDay) (e : Date) :
  find (by_date date) (calendarDay db) = Some day ->
  Day.status day = CHECKOUT_HOLD ->
  Day.holdExpiresAt day = Some e ->
  now rq <= e ->
  commit (prepared_of date rq) db = (Conflict CHECKOUT_HOLD, db).
Proof.
  intros Hfind Hst Hexp Hle.
  unfold commit, prepared_of.
  cbn [dateObj prepared_now prepared_token holdExpiresAt prepared_ip date_text].
  unfold transaction, hold_tx, bind, findUnique. rewrite Hfind, Hst, Hexp.
  cbn [DayStatus_eqb orb andb].
  replace (e <? now rq) with false by (symmetry; apply Z.ltb_ge; lia).
  reflexivity.
Qed.

End HoldRequests.

(** *** Concurrent calls *)

Section ConcurrentHolds.
Import CheckoutHold.

Lemma caught_commit (p : Prepared) (db : DB) (msg : string) :
  transaction (hold_tx (dateObj p) (prepared_now p) (prepared_token p) (holdExpiresAt p)
                 (prepared_ip p)) db = (Thrown msg, db) ->
  commit p db = (caught msg, db).
Proof.
  intro H. unfold commit. rewrite H. unfold caught.
  destruct (String.eqb msg "DATE_NOT_FOUND"); [reflexivity|].
  destruct (String.prefix "DATE_UNAVAILABLE" msg); reflexivity.
Qed.

Lemma replace_row_constant (i : string) (data : CalendarDay -> CalendarDay)
    (rows : list CalendarDay) (old : CalendarDay) :
  distinct (ids rows) = true ->
  find (by_id i) rows = Some old ->
  replace_row i (fun _ => data old) rows = replace_row i data rows.
Proof.
  intros U Hf. unfold replace_row. apply map_ext_in. intros r Hr.
  destruct (by_id i r) eqn:E; [|reflexivity].
  apply find_some in Hf as [Hold Hid].
  apply by_id_true in E. apply by_id_true in Hid.
  f_equal. eapply unique_id_row; eauto. congruence.
Qed.

(** A call that runs alone, one step after the other, is the handler
    [POST]: the steps cut the handler at its awaits and add nothing. *)
Lemma alone_is_POST (rq : PostRequest) (db : DB) :
  unique_id db ->
  interleave [0; 0; 0; 0; 0]%nat [Waiting rq] db = ([Done (fst (POST rq db))], snd (POST rq db)).
Proof.
  intro U. unfold POST. cbn [interleave nth_error advance].
  destruct (prepare rq db) as [response|p]; [reflexivity|].
  cbn [set_nth nth_error advance].
  destruct (find (by_date (dateObj p)) (calendarDay db)) as [day|] eqn:Hf.
  2:{ cbn [set_nth nth_error advance fst snd].
      rewrite (caught_commit p db "DATE_NOT_FOUND"); [reflexivity|].
      unfold transaction, hold_tx, bind, findUnique. now rewrite Hf. }
  destruct (negb (DayStatus_eqb (Day.status day) AVAILABLE
                  || DayStatus_eqb (Day.status day) CHECKOUT_HOLD
                     && match Day.holdExpiresAt day with
                        | Some e => e <? prepared_now p
                        | None => false
                        end)) eqn:Hcan.
  { cbn [set_nth nth_error advance fst snd].
    rewrite (caught_commit p db ("DATE_UNAVAILABLE:" ++ DayStatus_text (Day.status day)));
      [reflexivity|].
    unfold transaction, hold_tx, bind, findUnique. now rewrite Hf, Hcan. }
  cbn [set_nth nth_error advance locked_by_other existsb].
  assert (Htx : transaction (hold_tx (dateObj p) (prepared_now p) (prepared_token p)
                               (holdExpiresAt p) (prepared_ip p)) db
                = match update (Day.id day)
                          (hold_data (prepared_token p) (holdExpiresAt p)) db with
                  | Returned (updated, db1) =>
                      (Returned updated, with_audit db1 (auditLog db1 ++ [hold_entry p day]))
                  | Thrown m => (Thrown m, db)
                  end).
  { unfold transaction, hold_tx, bind, findUnique. rewrite Hf, Hcan.
    destruct (update _ _ db) as [[updated db1]|m]; reflexivity. }
  destruct (update (Day.id day) (hold_data (prepared_token p) (holdExpiresAt p)) db)
    as [[updated db1]|m] eqn:Hup.
  2:{ cbn [set_nth nth_error advance fst snd].
      now rewrite (caught_commit p db m Htx). }
  cbn [set_nth nth_error advance fst snd].
  unfold commit. rewrite Htx. cbn [fst snd]. f_equal.
  unfold update in Hup.
  destruct (find (by_id (Day.id day)) (calendarDay db)) as [old|] eqn:Hold; [|discriminate].
  destruct (unique_violation _ _ _ _); [discriminate|].
  injection Hup as <- <-.
  cbn [with_days with_audit calendarDay auditLog adminSettings].
  now rewrite (replace_row_constant _ _ _ old U Hold).
Qed.

(** Two calls for one AVAILABLE day that both run their [findUnique]
    before either runs its [update] are both answered 200: each passes
    [canHold] on the row it read, and the update, [where: { id }], does not
    look at the status again.  The day ends under the token of the call
    that commits last. *)
Lemma both_read_then_both_granted (date : string) (db : DB) (day : CalendarDay)
    (rq1 rq2 : PostRequest) :
  Validation.validateCalendarDate date = true ->
  unique_id db ->
  find (by_date date) (calendarDay db) = Some day ->
  Day.status day = AVAILABLE ->
  admitted date db rq1 ->
  admitted date db rq2 ->
  let out := interleave [0; 1; 0; 1; 0; 0; 0; 1; 1; 1]%nat [Waiting rq1; Waiting rq2] db in
  fst out = [Done (grant date rq1); Done (grant date rq2)]
  /\ find (by_date date) (calendarDay (snd out))
     = Some (hold_data (holdToken rq2) (Date_now rq2 + HOLD_DURATION_MS) day)
  /\ auditLog (snd out)
     = (auditLog db ++ [hold_entry (prepared_of date rq1) day;
                        hold_entry (prepared_of date rq2) day])%list.
Proof.
  intros Hdate U Hf Hst Ha1 Ha2 out. unfold out.
  assert (Hin : In day (calendarDay db)) by (exact (proj1 (find_in_rows _ _ _ Hf))).
  assert (Hid : find (by_id (Day.id day)) (calendarDay db) = Some day)
    by (now apply find_by_id_unique).
  cbn [interleave nth_error advance].
  rewrite (prepare_admitted date Hdate rq1 db Ha1). cbn [set_nth nth_error advance].
  rewrite (prepare_admitted date Hdate rq2 db Ha2). cbn [set_nth nth_error advance].
  cbn [prepared_of dateObj prepared_now prepared_token holdExpiresAt prepared_ip date_text].
  rewrite Hf, Hst. cbn [DayStatus_eqb orb negb set_nth nth_error advance].
  cbn [prepared_of dateObj prepared_now prepared_token holdExpiresAt prepared_ip date_text].
  rewrite Hf, Hst.
  cbn [DayStatus_eqb orb negb set_nth nth_error advance locked_by_other lock existsb
       option_string_eqb].
  cbn [prepared_of dateObj prepared_now prepared_token holdExpiresAt prepared_ip date_text].
  rewrite (update_returns _ _ _ day Hid) by (now apply unique_violation_same_ref).
  cbn [set_nth nth_error advance locked_by_other lock existsb option_string_eqb orb].
  cbn [prepared_of dateObj prepared_now prepared_token holdExpiresAt prepared_ip date_text].
  rewrite (replace_row_constant (Day.id day)
             (hold_data (holdToken rq1) (Date_now rq1 + HOLD_DURATION_MS))
             (calendarDay db) day U Hid).
  set (held1 := hold_data (holdToken rq1) (Date_now rq1 + HOLD_DURATION_MS) day).
  set (db1 := with_audit _ _).
  assert (Hid1 : find (by_id (Day.id day)) (calendarDay db1) = Some held1).
  { unfold db1. cbn [calendarDay with_audit with_days].
    rewrite find_id_replace_row by reflexivity. rewrite Hid. cbn [option_map].
    unfold by_id. now rewrite String.eqb_refl. }
  assert (U1 : distinct (ids (calendarDay db1)) = true).
  { unfold db1. cbn [calendarDay with_audit with_days].
    now rewrite replace_row_ids by reflexivity. }
  rewrite (update_returns _ _ _ held1 Hid1) by (now apply unique_violation_same_ref).
  cbn [set_nth nth_error advance fst snd].
  cbn [prepared_of dateObj prepared_now prepared_token holdExpiresAt prepared_ip date_text].
  rewrite (replace_row_constant (Day.id day)
             (hold_data (holdToken rq2) (Date_now rq2 + HOLD_DURATION_MS))
             (calendarDay db1) held1 U1 Hid1).
  split; [reflexivity|]. split.
  - cbn [calendarDay with_audit with_days]. rewrite find_date_replace_row by reflexivity.
    unfold db1. cbn [calendarDay with_audit with_days].
    rewrite find_date_replace_row by reflexivity. rewrite Hf. cbn [option_map].
    unfold by_id. rewrite String.eqb_refl.
    cbn [Day.id held1 hold_data Col.holdExpiresAt Col.holdToken Col.status].
    rewrite String.eqb_refl. now destruct day.
  - unfold db1. cbn [auditLog with_audit with_days]. now rewrite <- app_assoc.
Qed.

End ConcurrentHolds.

(** C1.  At most one winner fails on the code.  Two calls to [createHold]
    for the AVAILABLE day 2027-03-15 run concurrently on the seeded
    database, each yielding at its awaits, under the default isolation of
    the database (reads take no lock, an update locks its row until the
    commit).  Both calls read the day before either updates it; the first
    then updates, logs and commits, and the second does the same.  Both are
    answered 200 with a hold token, the day is left under the second token,
    and the audit trail has two CHECKOUT_HOLD_CREATED entries that both
    record AVAILABLE as the state before. *)
Theorem concurrent_holds_both_granted :
  let rqs := [Sample.hold_request "2027-03-15" "T1" 1000;
              Sample.hold_request "2027-03-15" "T2" 1002] in
  let out := CheckoutHold.interleave [0; 1; 0; 1; 0; 0; 0; 1; 1; 1]%nat
               (map CheckoutHold.Waiting rqs) Sample.db0 in
  option_map Day.status (find (by_date "2027-03-15") (calendarDay Sample.db0))
  = Some AVAILABLE
  /\ fst out = [CheckoutHold.Done (json (JHold "T1" 601001 "2027-03-15") 200);
                CheckoutHold.Done (json (JHold "T2" 601003 "2027-03-15") 200)]
  /\ List.length (filter CheckoutHold.granted (fst out)) = 2%nat
  /\ option_map (fun d => (Day.status d, Day.holdToken d, Day.holdExpiresAt d))
       (find (by_date "2027-03-15") (calendarDay (snd out)))
     = Some (CHECKOUT_HOLD, Some "T2", Some 601003)
  /\ map (fun e => (Audit.action e, Audit.oldValue e)) (auditLog (snd out))
     = [(AUDIT_ACTIONS.CHECKOUT_HOLD_CREATED, Some [("status", VStatus AVAILABLE)]);
        (AUDIT_ACTIONS.CHECKOUT_HOLD_CREATED, Some [("status", VStatus AVAILABLE)])].
Proof. vm_compute. repeat split. Qed.

(** ** The webhook *)

(** C10.  A payment-succeeded event whose metadata lacks [calendarDayId] or
    [date] changes nothing, writes no audit entry, and is still acknowledged
    with 200 [{ received: true }]. *)
Theorem succeeded_without_metadata_acknowledged :
  forall (rq : StripeWebhook.Request) (pi : PaymentIntent) (db : DB),
    delivers rq (payment_intent_succeeded pi) ->
    truthy (Metadata.calendarDayId (PI.metadata pi)) = false
    \/ truthy (Metadata.date (PI.metadata pi)) = false ->
    StripeWebhook.POST rq db = (json JReceived 200, db).
Proof.
  intros rq pi db (Hsig & Hsec & ev & Hev & Hdata) Hmiss.
  unfold StripeWebhook.POST. rewrite Hsig, Hsec, Hev, Hdata. cbn [negb orb].
  assert (H : StripeWebhook.handlePaymentSucceeded pi (StripeWebhook.clock rq) db
              = (Returned tt, db)).
  { unfold StripeWebhook.handlePaymentSucceeded.
    destruct (Metadata.calendarDayId (PI.metadata pi)) as [c|];
      destruct (Metadata.date (PI.metadata pi)) as [d|]; auto.
    destruct Hmiss as [H | H]; rewrite H; cbn [negb orb]; auto.
    now rewrite orb_true_r. }
  now rewrite H.
Qed.

Lemma succeeded_without_metadata_acknowledged_witness :
  StripeWebhook.POST
    (Sample.webhook (payment_intent_succeeded (Sample.bare_intent "pi_9")) 5000)
    Sample.db0
  = (json JReceived 200, Sample.db0).
Proof.
  apply (succeeded_without_metadata_acknowledged _ (Sample.bare_intent "pi_9")).
  - repeat split; try reflexivity. eexists. split; reflexivity.
  - left. reflexivity.
Defined.

(** C7.  A charge-refunded event changes no row of [calendar_days] and no
    setting: when a day carries the event's payment reference the handler
    appends one REFUND_ISSUED entry for that day, and otherwise the database
    is left as it was.  Through the endpoint, whatever the signature check
    says, the rows stay as they were. *)
Theorem charge_refunded_changes_no_resource :
  forall (charge : Charge.t) (db : DB),
    (let db' := snd (StripeWebhook.handleChargeRefunded charge db) in
     calendarDay db' = calendarDay db
     /\ adminSettings db' = adminSettings db
     /\ match charge_paymentRef charge with
        | Some p =>
            match find (by_stripePaymentIntentId p) (calendarDay db) with
            | Some day =>
                exists e, auditLog db' = (auditLog db ++ [e])%list
                          /\ Audit.calendarDayId e = Day.id day
                          /\ Audit.action e = AUDIT_ACTIONS.REFUND_ISSUED
            | None => db' = db
            end
        | None => db' = db
        end)
    /\ forall (sig secret : option string) (id : string) (clock : Date),
         calendarDay
           (snd (StripeWebhook.POST
                   {| StripeWebhook.sig := sig;
                      StripeWebhook.webhookSecret := secret;
                      StripeWebhook.constructEvent :=
                        Returned {| event_id := id; event_data := charge_refunded charge |};
                      StripeWebhook.clock := clock |} db))
         = calendarDay db.
Proof.
  intros charge db.
  assert (Hrows : calendarDay (snd (StripeWebhook.handleChargeRefunded charge db))
                  = calendarDay db).
  { unfold StripeWebhook.handleChargeRefunded.
    destruct (Charge.payment_intent charge) as [[s|pi]|]; auto.
    - destruct (truthy (Some s)); auto. cbn [negb].
      unfold statement, transaction, findUnique.
      destruct (find _ _); auto.
    - destruct (truthy (Some (PI.id pi))); auto. cbn [negb].
      unfold statement, transaction, findUnique.
      destruct (find _ _); auto. }
  split.
  - cbv zeta. split; [exact Hrows|]. split.
    + unfold StripeWebhook.handleChargeRefunded.
      destruct (Charge.payment_intent charge) as [[s|pi]|]; auto.
      * destruct (truthy (Some s)); auto. cbn [negb].
        unfold statement, transaction, findUnique. destruct (find _ _); auto.
      * destruct (truthy (Some (PI.id pi))); auto. cbn [negb].
        unfold statement, transaction, findUnique. destruct (find _ _); auto.
    + unfold StripeWebhook.handleChargeRefunded, charge_paymentRef.
      destruct (Charge.payment_intent charge) as [[s|pi]|]; auto.
      * destruct (truthy (Some s)); auto. cbn [negb].
        unfold statement, transaction, findUnique.
        destruct (find _ _) as [day|]; auto.
        eexists. repeat split.
      * destruct (truthy (Some (PI.id pi))); auto. cbn [negb].
        unfold statement, transaction, findUnique.
        destruct (find _ _) as [day|]; auto.
        eexists. repeat split.
  - intros sig secret id clock. unfold StripeWebhook.POST.
    cbn [StripeWebhook.sig StripeWebhook.webhookSecret StripeWebhook.constructEvent
         event_data].
    destruct (negb (truthy sig) || negb (truthy secret)); auto.
    destruct (StripeWebhook.handleChargeRefunded charge db) as [[u|m] db'] eqn:E;
      cbn [snd] in *; exact Hrows.
Qed.

(** ** The administrative refund *)

(** C6.  A refund asked for a day that is not SOLD, or that stores no
    payment reference, is answered 400 with the database untouched (no audit
    entry) and no call to Stripe.  When the day qualifies but Stripe throws
    or answers with a status other than succeeded or pending, the database
    is untouched as well and the caller gets the error in a 500. *)
Theorem refund_precondition_and_gateway_failure :
  forall (rq : AdminRefund.Request) (db : DB) (date : string) (day : CalendarDay),
    refund_of rq date ->
    find (by_date date) (calendarDay db) = Some day ->
    (Day.status day <> SOLD \/ truthy (Day.stripePaymentIntentId day) = false ->
     exists msg, AdminRefund.POST rq db = (json (JError msg) 400, db, []))
    /\ (Validation.validateCalendarDate date = true ->
        Day.status day = SOLD ->
        truthy (Day.stripePaymentIntentId day) = true ->
        gateway_declined (AdminRefund.refunds_create rq) ->
        exists call,
          AdminRefund.POST rq db
          = (json (JError
                     match AdminRefund.refunds_create rq with
                     | Thrown msg => msg
                     | Returned refund =>
                         "Stripe refund failed: "
                         ++ match AdminRefund.refund_status refund with
                            | Some s => s
                            | None => "null"
                            end
                     end) 500, db, [call])).
Proof.
  intros rq db date day (Hsess & body & Hbody & Hdate) Hfind.
  destruct (AdminRefund.session rq) as [session|] eqn:Es; [clear Hsess|congruence].
  split.
  - intros Hnot. unfold AdminRefund.POST. rewrite Es, Hbody, Hdate.
    destruct (Validation.validateCalendarDate date); cbn [negb]; [|eauto].
    unfold statement, transaction, findUnique. rewrite Hfind.
    destruct (DayStatus_eqb (Day.status day) SOLD) eqn:Est; cbn [negb]; [|eauto].
    apply DayStatus_eqb_eq in Est.
    destruct Hnot as [Hnot | Hnot]; [contradiction|].
    rewrite Hnot. cbn [negb]. eauto.
  - intros Hvalid Hst Hpi Hdecl. unfold AdminRefund.POST.
    rewrite Es, Hbody, Hdate, Hvalid. cbn [negb].
    unfold statement, transaction, findUnique. rewrite Hfind, Hst, Hpi.
    cbn [DayStatus_eqb negb].
    destruct (AdminRefund.refunds_create rq) as [refund|msg]; [|eauto].
    destruct Hdecl as [H1 H2].
    destruct (option_string_eqb (AdminRefund.refund_status refund) (Some "succeeded")) eqn:E1.
    { apply option_string_eqb_eq in E1. contradiction. }
    destruct (option_string_eqb (AdminRefund.refund_status refund) (Some "pending")) eqn:E2.
    { apply option_string_eqb_eq in E2. contradiction. }
    cbn [negb andb]. eauto.
Qed.

Lemma refund_precondition_and_gateway_failure_witness :
  (exists msg,
     AdminRefund.POST (Sample.refund_request "2027-03-14" true Sample.refunded) Sample.db_sold
     = (json (JError msg) 400, Sample.db_sold, []))
  /\ (exists call,
        AdminRefund.POST
          (Sample.refund_request "2027-03-15" false (Thrown "card network unavailable"))
          Sample.db_sold
        = (json (JError "card network unavailable") 500, Sample.db_sold, [call])).
Proof.
  split.
  - apply (refund_precondition_and_gateway_failure
             (Sample.refund_request "2027-03-14" true Sample.refunded) Sample.db_sold
             "2027-03-14" (Sample.seeded "day_0314" "2027-03-14")).
    + split; [discriminate|]. eexists. split; reflexivity.
    + reflexivity.
    + left. discriminate.
  - eapply (refund_precondition_and_gateway_failure
              (Sample.refund_request "2027-03-15" false (Thrown "card network unavailable"))
              Sample.db_sold "2027-03-15").
    + split; [discriminate|]. eexists. split; reflexivity.
    + reflexivity.
    + reflexivity.
    + reflexivity.
    + reflexivity.
    + exact I.
Defined.

(** ** The public calendar and the lazy expiry of holds *)

Section CalendarRead.
Import Calendar.

Lemma revert_id (d : CalendarDay) : Day.id (revert d) = Day.id d.
Proof. reflexivity. Qed.

Lemma revert_idempotent (d : CalendarDay) : revert (revert d) = revert d.
Proof. reflexivity. Qed.

Lemma revert_not_expired (now : Date) (d : CalendarDay) : expired now (revert d) = false.
Proof. reflexivity. Qed.

Lemma in_ids_find (i : string) (rows : list CalendarDay) :
  In i (ids rows) -> exists old, find (by_id i) rows = Some old.
Proof.
  unfold ids. intro H. apply in_map_iff in H as (d & <- & Hd).
  destruct (find_own_id rows d Hd) as (old & Hf & _). eauto.
Qed.

(** The expiry transaction never throws: it reverts each listed day and
    appends one entry for each. *)
Lemma expire_tx_returns (l : list CalendarDay) (db : DB) :
  (forall d, In d l -> In (Day.id d) (ids (calendarDay db))) ->
  expire_tx l db
  = Returned (tt, {| calendarDay := revert_each l (calendarDay db);
                     auditLog := (auditLog db ++ map expiry_entry l)%list;
                     adminSettings := adminSettings db |}).
Proof.
  revert db. induction l as [|d l IH]; intros db Hin.
  - cbn. rewrite app_nil_r. now destruct db.
  - cbn [expire_tx]. unfold bind at 1.
    destruct (in_ids_find (Day.id d) (calendarDay db)) as (old & Hold).
    { apply Hin. now left. }
    rewrite (update_returns _ _ _ old Hold) by (now apply unique_violation_same_ref).
    unfold bind at 1. cbn [auditLog_create].
    rewrite IH.
    + cbn [calendarDay auditLog adminSettings with_audit with_days revert_each fold_left map].
      now rewrite <- app_assoc.
    + intros x Hx. cbn [calendarDay with_audit with_days].
      rewrite replace_row_ids by apply revert_id. apply Hin. now right.
Qed.

Lemma revert_each_map (l rows : list CalendarDay) :
  revert_each l rows
  = map (fun r => if existsb (fun d => by_id (Day.id d) r) l then revert r else r) rows.
Proof.
  revert rows. induction l as [|d l IH]; intro rows.
  - cbn. symmetry. apply map_id.
  - cbn [revert_each fold_left]. fold (revert_each l (replace_row (Day.id d) revert rows)).
    rewrite IH. unfold replace_row. rewrite map_map. apply map_ext. intro r.
    cbn [existsb]. destruct (by_id (Day.id d) r) eqn:E; cbn [orb]; auto.
    assert (Hex : existsb (fun d0 => by_id (Day.id d0) (revert r)) l
                  = existsb (fun d0 => by_id (Day.id d0) r) l) by reflexivity.
    rewrite Hex. destruct (existsb (fun d0 => by_id (Day.id d0) r) l); auto.
Qed.

(** The database a calendar read leaves behind. *)
Lemma GET_database (rq : Request) (db : DB) :
  limit_allowed rq = true ->
  snd (GET rq db)
  = {| calendarDay := expire_rows (now rq) (calendarDay db);
       auditLog := (auditLog db
                    ++ map expiry_entry (filter (expired (now rq)) (calendarDay db)))%list;
       adminSettings := adminSettings db |}.
Proof.
  intro Hlim. unfold GET. rewrite Hlim. cbn [negb].
  unfold statement at 1, transaction at 1, findMany.
  destruct (filter (expired (now rq)) (calendarDay db)) as [|d l] eqn:E.
  - cbn. unfold expire_rows. rewrite E. cbn. rewrite map_id, app_nil_r. now destruct db.
  - cbn [List.length Nat.ltb Nat.leb]. unfold transaction.
    rewrite expire_tx_returns.
    + cbn [snd]. unfold expire_rows. rewrite E. now rewrite revert_each_map.
    + intros x Hx. rewrite <- E in Hx. apply filter_In in Hx as [Hx _].
      unfold ids. now apply in_map.
Qed.

(** The answer of a calendar read: the days of the year after expiry, in
    date order, projected. *)
Lemma GET_response (rq : Request) (db : DB) :
  limit_allowed rq = true ->
  let settings := adminSettings db in
  let year := match settings with
              | Some s => Settings.calendarYear s
              | None => 2027%nat
              end in
  fst (GET rq db)
  = json (JCalendar
            (map publicDay
               (orderBy_date
                  (filter (fun d => String.leb (jan1 year) (Day.date d)
                                    && String.ltb (Day.date d) (jan1 (year + 1)))
                     (expire_rows (now rq) (calendarDay db)))))
            (getSalesStatus settings (status_now rq))
            (match settings with Some s => Settings.priceInCents s | None => 10000 end)
            year) 200.
Proof.
  intro Hlim. unfold GET. rewrite Hlim. cbn [negb].
  unfold statement at 1, transaction at 1, findMany.
  destruct (filter (expired (now rq)) (calendarDay db)) as [|d l] eqn:E.
  - cbn. unfold expire_rows. rewrite E. cbn. now rewrite map_id.
  - cbn [List.length Nat.ltb Nat.leb]. unfold transaction.
    rewrite expire_tx_returns.
    + cbn [fst calendarDay adminSettings]. unfold expire_rows. rewrite E.
      now rewrite revert_each_map.
    + intros x Hx. rewrite <- E in Hx. apply filter_In in Hx as [Hx _].
      unfold ids. now apply in_map.
Qed.

End CalendarRead.

Section CalendarFacts.
Import Calendar.

Lemma In_insert_by_date (x d : CalendarDay) (l : list CalendarDay) :
  In x (insert_by_date d l) <-> x = d \/ In x l.
Proof.
  induction l as [|y l IH]; cbn.
  - intuition auto.
  - destruct (String.leb (Day.date d) (Day.date y)); cbn; rewrite ?IH; intuition auto.
Qed.

Lemma In_orderBy_date (x : CalendarDay) (l : list CalendarDay) :
  In x (orderBy_date l) <-> In x l.
Proof.
  induction l as [|y l IH]; cbn; [tauto|].
  fold (orderBy_date l). rewrite In_insert_by_date, IH. intuition auto.
Qed.

(** Every listed day is the projection of a row the read left behind. *)
Lemma listed_day (rq : Request) (db : DB) (p : PublicCalendarDay) :
  limit_allowed rq = true ->
  In p (days_of (fst (GET rq db))) ->
  exists r, In r (calendarDay (snd (GET rq db))) /\ p = publicDay r.
Proof.
  intros Hlim Hp. rewrite GET_database by assumption.
  rewrite GET_response in Hp by assumption. cbn [days_of body json calendarDay] in *.
  apply in_map_iff in Hp as (r & <- & Hr).
  apply (proj1 (In_orderBy_date _ _)) in Hr. apply filter_In in Hr as [Hr _]. eauto.
Qed.

Lemma expire_rows_not_expired (now : Date) (rows : list CalendarDay) (d : CalendarDay) :
  In d (expire_rows now rows) -> expired now d = false.
Proof.
  unfold expire_rows. intro H. apply in_map_iff in H as (r & <- & Hr).
  destruct (existsb _ _) eqn:E; [apply revert_not_expired|].
  destruct (expired now r) eqn:Er; auto.
  assert (Hex : existsb (fun d => by_id (Day.id d) r) (filter (expired now) rows) = true).
  { apply existsb_exists. exists r. split.
    - apply filter_In. auto.
    - unfold by_id. apply String.eqb_refl. }
  congruence.
Qed.

(** A row that shares its id with a stale hold is AVAILABLE after the read. *)
Lemma expire_rows_reverted (now : Date) (rows : list CalendarDay) (d r : CalendarDay) :
  In d rows -> expired now d = true -> In r (expire_rows now rows) ->
  Day.id r = Day.id d ->
  Day.status r = AVAILABLE /\ Day.holdToken r = None /\ Day.holdExpiresAt r = None.
Proof.
  intros Hd He Hr Hid. unfold expire_rows in Hr.
  apply in_map_iff in Hr as (r0 & <- & Hr0).
  assert (Hid0 : Day.id r0 = Day.id d) by (destruct (existsb _ _); exact Hid).
  assert (Hex : existsb (fun x => by_id (Day.id x) r0) (filter (expired now) rows) = true).
  { apply existsb_exists. exists d. split.
    - apply filter_In. auto.
    - apply by_id_true. auto. }
  rewrite Hex. now cbn.
Qed.

(** A read keeps an AVAILABLE row AVAILABLE. *)
Lemma expire_rows_keeps_available (now : Date) (rows : list CalendarDay) (r : CalendarDay) :
  In r (expire_rows now rows) ->
  exists r0, In r0 rows /\ Day.id r = Day.id r0
             /\ (Day.status r0 = AVAILABLE -> Day.status r = AVAILABLE).
Proof.
  unfold expire_rows. intro H. apply in_map_iff in H as (r0 & <- & Hr0).
  exists r0. destruct (existsb _ _); cbn; auto.
Qed.

Lemma Forall2_map_right {A B : Type} (P : A -> B -> Prop) (g : A -> B) (l : list A) :
  (forall a, In a l -> P a (g a)) -> Forall2 P l (map g l).
Proof.
  induction l as [|a l IH]; intro H; cbn; constructor.
  - apply H. now left.
  - apply IH. intros x Hx. apply H. now right.
Qed.

Lemma publicDay_stale (now : Date) (r : CalendarDay) :
  stale now (publicDay r) -> expired now r = true.
Proof.
  intros [Hst (e & He & Hlt)]. cbn in Hst, He. unfold expired.
  rewrite Hst in *. cbn in *. rewrite He. now apply Z.ltb_lt.
Qed.

End CalendarFacts.

(** C8.  Hold expiry.  Once a calendar read has run its expiry at time
    [t], no row is left in CHECKOUT_HOLD with an expiry before [t]; every
    row that was such a stale hold is AVAILABLE with token and expiry
    cleared; the audit log has grown by one "Checkout hold expired
    automatically" entry per stale hold, and by nothing else; the read's own
    answer lists no stale hold, and this read and any read after it show
    the days that were stale as AVAILABLE. *)
Theorem expired_holds_are_reverted :
  forall (rq : Calendar.Request) (db : DB),
    Calendar.limit_allowed rq = true ->
    let t := Calendar.now rq in
    let db' := snd (Calendar.GET rq db) in
    let reverted := filter (Calendar.expired t) (calendarDay db) in
    (forall d, In d (calendarDay db') ->
               ~ (Day.status d = CHECKOUT_HOLD
                  /\ exists e, Day.holdExpiresAt d = Some e /\ e < t))
    /\ Forall2 (fun d d' =>
                  Day.id d' = Day.id d
                  /\ (Calendar.expired t d = true ->
                      Day.status d' = AVAILABLE
                      /\ Day.holdToken d' = None /\ Day.holdExpiresAt d' = None))
         (calendarDay db) (calendarDay db')
    /\ auditLog db' = (auditLog db ++ map Calendar.expiry_entry reverted)%list
    /\ Forall (fun e =>
                 Audit.action e = AUDIT_ACTIONS.CHECKOUT_HOLD_EXPIRED
                 /\ Audit.notes e = Some "Checkout hold expired automatically"
                 /\ snapshot_status (Audit.oldValue e) = Some CHECKOUT_HOLD
                 /\ snapshot_status (Audit.newValue e) = Some AVAILABLE)
         (map Calendar.expiry_entry reverted)
    /\ (forall p, In p (days_of (fst (Calendar.GET rq db))) -> ~ stale t p)
    /\ (forall d p, In d reverted ->
                    In p (days_of (fst (Calendar.GET rq db))) ->
                    Public.id p = Day.id d -> Public.status p = AVAILABLE)
    /\ (forall rq2 d p, Calendar.limit_allowed rq2 = true ->
                        In d reverted ->
                        In p (days_of (fst (Calendar.GET rq2 db'))) ->
                        Public.id p = Day.id d -> Public.status p = AVAILABLE).
Proof.
  intros rq db Hlim t db' reverted.
  assert (Hdb : calendarDay db' = expire_rows t (calendarDay db)).
  { unfold db'. now rewrite GET_database. }
  split; [|split; [|split; [|split; [|split; [|split]]]]].
  - intros d Hd [Hst (e & He & Hlt)]. rewrite Hdb in Hd.
    apply expire_rows_not_expired in Hd. unfold Calendar.expired in Hd.
    rewrite Hst, He in Hd. cbn in Hd. apply Z.ltb_ge in Hd. lia.
  - rewrite Hdb. unfold expire_rows. apply Forall2_map_right.
    intros d Hd. split.
    + destruct (existsb _ _); reflexivity.
    + intro He.
      apply (expire_rows_reverted t (calendarDay db) d); auto.
      * unfold expire_rows. apply in_map_iff. exists d. auto.
      * destruct (existsb _ _); reflexivity.
  - unfold db'. now rewrite GET_database.
  - apply Forall_forall. intros e He. apply in_map_iff in He as (d & <- & _).
    repeat split.
  - intros p Hp Hstale. apply listed_day in Hp as (r & Hr & ->); auto.
    fold db' in Hr. rewrite Hdb in Hr. apply expire_rows_not_expired in Hr.
    apply publicDay_stale in Hstale. congruence.
  - intros d p Hd Hp Hid. apply filter_In in Hd as [Hd He].
    apply listed_day in Hp as (r & Hr & ->); auto.
    fold db' in Hr. rewrite Hdb in Hr.
    now apply (expire_rows_reverted t (calendarDay db) d r).
  - intros rq2 d p Hlim2 Hd Hp Hid. apply filter_In in Hd as [Hd He].
    apply listed_day in Hp as (r & Hr & ->); auto.
    rewrite GET_database in Hr by assumption. cbn [calendarDay] in Hr.
    apply expire_rows_keeps_available in Hr as (r0 & Hr0 & Hid0 & Hkeep).
    cbn [Calendar.publicDay Public.status Public.id] in *. apply Hkeep.
    rewrite Hdb in Hr0.
    apply (expire_rows_reverted t (calendarDay db) d r0); auto. congruence.
Qed.

Lemma expired_holds_are_reverted_witness :
  Calendar.limit_allowed (Sample.calendar_request 700000) = true
  /\ auditLog (snd (Calendar.GET (Sample.calendar_request 700000) Sample.db_held))
     = (auditLog Sample.db_held
        ++ map Calendar.expiry_entry
             (filter (Calendar.expired 700000) (calendarDay Sample.db_held)))%list
  /\ List.length (filter (Calendar.expired 700000) (calendarDay Sample.db_held)) = 1%nat.
Proof.
  split; [reflexivity|]. split; [|reflexivity].
  pose proof (expired_holds_are_reverted (Sample.calendar_request 700000) Sample.db_held
                eq_refl) as (_ & _ & H & _).
  exact H.
Defined.

(** ** The public projection *)

Section Projection.
Import Calendar.

Lemma publicDay_expired (now : Date) (r : CalendarDay) :
  PublicView.expired now (publicDay r) = expired now r.
Proof.
  unfold PublicView.expired, expired. cbn.
  destruct (DayStatus_eqb (Day.status r) CHECKOUT_HOLD); reflexivity.
Qed.

Lemma publicDay_revert (r : CalendarDay) :
  publicDay (revert r) = PublicView.revert (publicDay r).
Proof. reflexivity. Qed.

Lemma map_filter_commute {A B : Type} (g : A -> B) (f : A -> bool) (f' : B -> bool)
    (l : list A) :
  (forall a, f' (g a) = f a) -> filter f' (map g l) = map g (filter f l).
Proof.
  intro H. induction l as [|a l IH]; cbn; auto.
  rewrite H. destruct (f a); cbn; now rewrite IH.
Qed.

Lemma existsb_map_commute {A B : Type} (g : A -> B) (f : B -> bool) (l : list A) :
  existsb f (map g l) = existsb (fun a => f (g a)) l.
Proof. induction l as [|a l IH]; cbn; auto. now rewrite IH. Qed.

Lemma publicDay_expire_rows (now : Date) (rows : list CalendarDay) :
  map publicDay (expire_rows now rows) = PublicView.expire now (map publicDay rows).
Proof.
  unfold expire_rows, PublicView.expire.
  rewrite (map_filter_commute publicDay (expired now)) by apply publicDay_expired.
  rewrite !map_map. apply map_ext. intro r.
  rewrite existsb_map_commute.
  assert (E : existsb (fun a => String.eqb (Public.id (publicDay r)) (Public.id (publicDay a)))
                (filter (expired now) rows)
              = existsb (fun d => by_id (Day.id d) r) (filter (expired now) rows)).
  { induction (filter (expired now) rows) as [|d ds IHd]; cbn; auto;
      try (now rewrite IHd). }
  rewrite E. destruct (existsb _ _); auto.
Qed.

Lemma publicDay_insert (d : CalendarDay) (l : list CalendarDay) :
  map publicDay (insert_by_date d l)
  = PublicView.insert_by_date (publicDay d) (map publicDay l).
Proof.
  induction l as [|x l IH]; cbn; auto.
  destruct (String.leb (Day.date d) (Day.date x)); cbn; auto.
  now rewrite <- IH.
Qed.

Lemma publicDay_orderBy (l : list CalendarDay) :
  map publicDay (orderBy_date l) = PublicView.orderBy_date (map publicDay l).
Proof.
  induction l as [|x l IH]; cbn; auto.
  fold (orderBy_date l). fold (PublicView.orderBy_date (map publicDay l)).
  now rewrite publicDay_insert, IH.
Qed.

(** The answer of the calendar endpoint is a function of the request, the
    settings and the public projection of the rows. *)
Lemma GET_answer (rq : Request) (db : DB) :
  fst (GET rq db) = PublicView.answer rq (adminSettings db) (map publicDay (calendarDay db)).
Proof.
  unfold PublicView.answer.
  destruct (limit_allowed rq) eqn:Hlim; cbn [negb].
  - rewrite GET_response by assumption. cbv zeta.
    rewrite publicDay_orderBy.
    rewrite <- (map_filter_commute publicDay
                  (fun d => String.leb _ (Day.date d) && String.ltb (Day.date d) _)
                  (fun p => String.leb _ (Public.date p) && String.ltb (Public.date p) _))
      by reflexivity.
    now rewrite publicDay_expire_rows.
  - unfold GET. now rewrite Hlim.
Qed.

Lemma publicDay_redact (d : CalendarDay) : publicDay (redact d) = publicDay d.
Proof.
  unfold publicDay, redact. cbn.
  destruct (DayStatus_eqb (Day.status d) SOLD),
           (DayStatus_eqb (Day.status d) CHECKOUT_HOLD); reflexivity.
Qed.

End Projection.

(** C9.  The public calendar.  Every listed day carries a dedication text
    only when its status is SOLD and a hold expiry only when its status is
    CHECKOUT_HOLD.  The answer does not depend on anything else a row
    stores: blanking buyer name, e-mail, phone, billing address, payment
    reference, hold token and the other unlisted columns of every row leaves
    the answer unchanged, and two databases with the same settings and the
    same public projection get the same answer. *)
Theorem public_calendar_exposes_no_pii :
  forall (rq : Calendar.Request) (db : DB),
    (forall p, In p (days_of (fst (Calendar.GET rq db))) ->
               (Public.dedicationText p <> None -> Public.status p = SOLD)
               /\ (Public.holdExpiresAt p <> None -> Public.status p = CHECKOUT_HOLD))
    /\ fst (Calendar.GET rq (with_days db (map redact (calendarDay db))))
       = fst (Calendar.GET rq db)
    /\ (forall db2,
          map Calendar.publicDay (calendarDay db2) = map Calendar.publicDay (calendarDay db) ->
          adminSettings db2 = adminSettings db ->
          fst (Calendar.GET rq db2) = fst (Calendar.GET rq db)).
Proof.
  intros rq db. split; [|split].
  - intros p Hp.
    destruct (Calendar.limit_allowed rq) eqn:Hlim.
    + apply listed_day in Hp as (r & _ & ->); auto. cbn.
      split; intro H.
      * destruct (DayStatus_eqb (Day.status r) SOLD) eqn:E; [|congruence].
        now apply DayStatus_eqb_eq.
      * destruct (DayStatus_eqb (Day.status r) CHECKOUT_HOLD) eqn:E; [|congruence].
        now apply DayStatus_eqb_eq.
    + unfold Calendar.GET in Hp. rewrite Hlim in Hp. contradiction.
  - rewrite !GET_answer. cbn [calendarDay adminSettings with_days].
    rewrite map_map. f_equal. apply map_ext. apply publicDay_redact.
  - intros db2 Hrows Hset. rewrite !GET_answer. now rewrite Hrows, Hset.
Qed.

Lemma public_calendar_exposes_no_pii_witness :
  calendarDay Sample.db_sold_other <> calendarDay Sample.db_sold
  /\ fst (Calendar.GET (Sample.calendar_request 4000) Sample.db_sold_other)
     = fst (Calendar.GET (Sample.calendar_request 4000) Sample.db_sold).
Proof.
  split; [discriminate|].
  pose proof (public_calendar_exposes_no_pii (Sample.calendar_request 4000) Sample.db_sold)
    as (_ & _ & H).
  apply H; reflexivity.
Defined.

(** ** Payment success and its replay *)

Section PaymentSucceeded.
Import StripeWebhook.

Lemma generateOrderId_returns (db : DB) :
  OrderNumber.generateOrderId 2027 db = Returned (next_orderId db, db).
Proof. reflexivity. Qed.

(** [handlePaymentSucceeded] as one decision on the database it reads. *)
Lemma handlePaymentSucceeded_eq (pi : PaymentIntent) (t : Date) (db : DB) :
  handlePaymentSucceeded pi t db
  = match Metadata.calendarDayId (PI.metadata pi), Metadata.date (PI.metadata pi) with
    | Some cid, Some date =>
        if negb (truthy (Some cid)) || negb (truthy (Some date)) then (Returned tt, db)
        else if match find (by_stripePaymentIntentId (PI.id pi)) (calendarDay db) with
                | Some e => DayStatus_eqb (Day.status e) SOLD
                | None => false
                end
        then (Returned tt, db)
        else
          match find (by_id cid) (calendarDay db) with
          | None => (Thrown ("CalendarDay not found: " ++ cid), db)
          | Some day =>
              if negb (DayStatus_eqb (Day.status day) CHECKOUT_HOLD)
                 && negb (option_string_eqb (Day.stripePaymentIntentId day)
                            (Some (PI.id pi)))
              then (Returned tt, db)
              else if negb (option_string_eqb (Day.stripePaymentIntentId day)
                              (Some (PI.id pi)))
                      && existsb (fun r => negb (by_id (Day.id day) r)
                                           && by_stripePaymentIntentId (PI.id pi) r)
                           (calendarDay db)
              then (Thrown "P2002: unique constraint failed on stripePaymentIntentId", db)
              else (Returned tt, sold_db pi day t db)
          end
    | _, _ => (Returned tt, db)
    end.
Proof.
  unfold handlePaymentSucceeded.
  destruct (Metadata.calendarDayId (PI.metadata pi)) as [cid|]; [|reflexivity].
  destruct (Metadata.date (PI.metadata pi)) as [date|]; [|reflexivity].
  destruct (negb (truthy (Some cid)) || negb (truthy (Some date))); [reflexivity|].
  unfold statement, transaction, findUnique.
  destruct (match find (by_stripePaymentIntentId (PI.id pi)) (calendarDay db) with
            | Some e => DayStatus_eqb (Day.status e) SOLD
            | None => false
            end); [reflexivity|].
  rewrite generateOrderId_returns.
  unfold succeeded_tx, bind, findUnique.
  destruct (find (by_id cid) (calendarDay db)) as [day|] eqn:Hfind; [|reflexivity].
  assert (Hid : Day.id day = cid).
  { apply find_some in Hfind as [_ H]. now apply by_id_true. }
  destruct (negb (DayStatus_eqb (Day.status day) CHECKOUT_HOLD)
            && negb (option_string_eqb (Day.stripePaymentIntentId day) (Some (PI.id pi))));
    [reflexivity|].
  unfold update. rewrite Hid, Hfind. unfold unique_violation.
  cbn [sold_data Col.dedicationText Col.contactOptIn Col.billingAddress Col.buyerPhone
       Col.buyerEmail Col.buyerLastName Col.buyerFirstName Col.holdExpiresAt
       Col.holdToken Col.stripePaymentIntentId Day.stripePaymentIntentId].
  rewrite <- Hid.
  destruct (negb (option_string_eqb (Day.stripePaymentIntentId day) (Some (PI.id pi)))
            && existsb (fun r => negb (by_id (Day.id day) r)
                                 && by_stripePaymentIntentId (PI.id pi) r)
                 (calendarDay db)); reflexivity.
Qed.

(** The three ways [handlePaymentSucceeded] can go on a database, whatever
    the clock: leave it alone, throw, or finalise the day. *)
Lemma handlePaymentSucceeded_cases (pi : PaymentIntent) (db : DB) :
  (forall t, handlePaymentSucceeded pi t db = (Returned tt, db))
  \/ (exists m, forall t, handlePaymentSucceeded pi t db = (Thrown m, db))
  \/ (exists cid day,
        Metadata.calendarDayId (PI.metadata pi) = Some cid
        /\ find (by_id cid) (calendarDay db) = Some day
        /\ (Day.status day = CHECKOUT_HOLD
            \/ Day.stripePaymentIntentId day = Some (PI.id pi))
        /\ (Day.stripePaymentIntentId day = Some (PI.id pi)
            \/ existsb (fun r => negb (by_id (Day.id day) r)
                                 && by_stripePaymentIntentId (PI.id pi) r)
                 (calendarDay db) = false)
        /\ forall t, handlePaymentSucceeded pi t db = (Returned tt, sold_db pi day t db)).
Proof.
  pose proof (fun t => handlePaymentSucceeded_eq pi t db) as E. revert E.
  destruct (Metadata.calendarDayId (PI.metadata pi)) as [cid|]; [|now left].
  destruct (Metadata.date (PI.metadata pi)) as [date|]; [|now left].
  destruct (negb (truthy (Some cid)) || negb (truthy (Some date))); [now left|].
  destruct (match find (by_stripePaymentIntentId (PI.id pi)) (calendarDay db) with
            | Some e => DayStatus_eqb (Day.status e) SOLD
            | None => false
            end); [now left|].
  destruct (find (by_id cid) (calendarDay db)) as [day|] eqn:Hfind.
  2:{ intro E. right. left. eexists. exact E. }
  destruct (DayStatus_eqb (Day.status day) CHECKOUT_HOLD) eqn:Est;
    destruct (option_string_eqb (Day.stripePaymentIntentId day) (Some (PI.id pi))) eqn:Epi;
    cbn [negb andb]; try (now left).
  - intro E. right. right. exists cid, day. repeat split; auto.
    + left. now apply DayStatus_eqb_eq.
    + left. now apply option_string_eqb_eq.
  - destruct (existsb _ _) eqn:Eex; intro E.
    + right. left. eexists. exact E.
    + right. right. exists cid, day. repeat split; auto.
      left. now apply DayStatus_eqb_eq.
  - intro E. right. right. exists cid, day. repeat split; auto.
    + right. now apply option_string_eqb_eq.
    + left. now apply option_string_eqb_eq.
Qed.

Lemma paymentRefs_In (rows : list CalendarDay) (d : CalendarDay) (p : string) :
  In d rows -> Day.stripePaymentIntentId d = Some p -> In p (paymentRefs rows).
Proof.
  intros Hin Hp. unfold paymentRefs. apply in_flat_map. exists d. split; auto.
  rewrite Hp. now left.
Qed.

(** Under the unique index, two rows with one payment reference are one row. *)
Lemma unique_ref_row (rows : list CalendarDay) (a b : CalendarDay) (p : string) :
  distinct (paymentRefs rows) = true ->
  In a rows -> In b rows ->
  Day.stripePaymentIntentId a = Some p -> Day.stripePaymentIntentId b = Some p ->
  a = b.
Proof.
  induction rows as [|r rows IH]; intros U Ha Hb Hpa Hpb; [contradiction|].
  assert (Hr : Day.stripePaymentIntentId r = Some p -> ~ In p (paymentRefs rows)).
  { intros Hpr Hin. cbn in U. rewrite Hpr in U. cbn in U.
    apply andb_true_iff in U as [U _]. apply negb_true_iff in U.
    apply (proj2 (existsb_eqb_In _ _)) in Hin. unfold paymentRefs in Hin. congruence. }
  assert (U' : distinct (paymentRefs rows) = true).
  { cbn in U. destruct (Day.stripePaymentIntentId r); cbn in U; auto.
    now apply andb_true_iff in U as [_ U]. }
  destruct Ha as [-> | Ha], Hb as [-> | Hb]; auto.
  - exfalso. apply (Hr Hpa). eapply paymentRefs_In; eauto.
  - exfalso. apply (Hr Hpb). eapply paymentRefs_In; eauto.
Qed.

(** Once a day is finalised for a payment, the idempotency lookup by that
    payment finds a SOLD row. *)
Lemma finalised_is_found_sold (pi : PaymentIntent) (day : CalendarDay) (t : Date) (db : DB) :
  unique_stripePaymentIntentId db ->
  In day (calendarDay db) ->
  (Day.stripePaymentIntentId day = Some (PI.id pi)
   \/ existsb (fun r => negb (by_id (Day.id day) r)
                        && by_stripePaymentIntentId (PI.id pi) r)
        (calendarDay db) = false) ->
  exists e, find (by_stripePaymentIntentId (PI.id pi)) (calendarDay (sold_db pi day t db))
            = Some e
            /\ Day.status e = SOLD.
Proof.
  intros U Hday Hno. cbn [sold_db calendarDay].
  set (data := sold_data pi day (next_orderId db) t (parsed_billingAddress (PI.metadata pi))).
  destruct (find (by_stripePaymentIntentId (PI.id pi))
              (replace_row (Day.id day) data (calendarDay db))) as [e|] eqn:Hf.
  - exists e. split; auto.
    apply find_some in Hf as [He Hpe]. unfold replace_row in He.
    apply in_map_iff in He as (r & <- & Hr).
    destruct (by_id (Day.id day) r) eqn:Eid; [reflexivity|].
    exfalso. apply by_pi_true in Hpe. destruct Hno as [Hpd | Hex].
    + assert (day = r) by (eapply unique_ref_row; eauto). subst r.
      unfold by_id in Eid. now rewrite String.eqb_refl in Eid.
    + assert (existsb (fun r => negb (by_id (Day.id day) r)
                                && by_stripePaymentIntentId (PI.id pi) r)
                (calendarDay db) = true); [|congruence].
      apply existsb_exists. exists r. split; auto.
      rewrite Eid. cbn. now apply by_pi_true.
  - exfalso.
    assert (Hin : In (data day) (replace_row (Day.id day) data (calendarDay db))).
    { unfold replace_row. apply in_map_iff. exists day. split; auto.
      unfold by_id. now rewrite String.eqb_refl. }
    apply (find_none _ _ Hf) in Hin. unfold by_stripePaymentIntentId in Hin.
    cbn in Hin. now rewrite String.eqb_refl in Hin.
Qed.

(** A second delivery after the day is finalised changes nothing. *)
Lemma redelivery_skips (pi : PaymentIntent) (day : CalendarDay) (t t2 : Date) (db : DB) :
  unique_stripePaymentIntentId db ->
  In day (calendarDay db) ->
  (Day.stripePaymentIntentId day = Some (PI.id pi)
   \/ existsb (fun r => negb (by_id (Day.id day) r)
                        && by_stripePaymentIntentId (PI.id pi) r)
        (calendarDay db) = false) ->
  handlePaymentSucceeded pi t2 (sold_db pi day t db) = (Returned tt, sold_db pi day t db).
Proof.
  intros U Hday Hno.
  destruct (finalised_is_found_sold pi day t db U Hday Hno) as (e & Hf & He).
  rewrite handlePaymentSucceeded_eq. rewrite Hf, He. cbn [DayStatus_eqb].
  destruct (Metadata.calendarDayId (PI.metadata pi)) as [cid|]; [|reflexivity].
  destruct (Metadata.date (PI.metadata pi)) as [date|]; [|reflexivity].
  destruct (negb (truthy (Some cid)) || negb (truthy (Some date))); reflexivity.
Qed.

(** Whatever the first delivery did, the second one leaves its database and
    repeats its outcome. *)
Lemma handlePaymentSucceeded_twice (pi : PaymentIntent) (t1 t2 : Date) (db : DB) :
  unique_stripePaymentIntentId db ->
  handlePaymentSucceeded pi t2 (snd (handlePaymentSucceeded pi t1 db))
  = (fst (handlePaymentSucceeded pi t1 db), snd (handlePaymentSucceeded pi t1 db)).
Proof.
  intro U.
  destruct (handlePaymentSucceeded_cases pi db)
    as [E | [(m & E) | (cid & day & Hcid & Hfind & _ & Hno & E)]].
  - rewrite (E t1). cbn [fst snd]. apply E.
  - rewrite (E t1). cbn [fst snd]. apply E.
  - rewrite (E t1). cbn [fst snd]. apply redelivery_skips; auto.
    now apply find_some in Hfind as [H _].
Qed.

End PaymentSucceeded.

Section Replay.
Import StripeWebhook.

Lemma POST_succeeded (rq : Request) (pi : PaymentIntent) (db : DB) :
  delivers rq (payment_intent_succeeded pi) ->
  POST rq db
  = (match fst (handlePaymentSucceeded pi (clock rq) db) with
     | Returned _ => json JReceived 200
     | Thrown _ => json (JError "Handler failed") 500
     end, snd (handlePaymentSucceeded pi (clock rq) db)).
Proof.
  intros (Hsig & Hsec & ev & Hev & Hdata). unfold POST.
  rewrite Hsig, Hsec, Hev, Hdata. cbn [negb orb].
  destruct (handlePaymentSucceeded pi (clock rq) db) as [[u|m] db']; reflexivity.
Qed.

(** The first delivery for a day under checkout hold that carries the
    payment's reference finalises it. *)
Lemma first_delivery_finalises (pi : PaymentIntent) (t : Date) (db : DB)
    (cid : string) (day : CalendarDay) :
  unique_stripePaymentIntentId db ->
  Metadata.calendarDayId (PI.metadata pi) = Some cid ->
  truthy (Some cid) = true ->
  truthy (Metadata.date (PI.metadata pi)) = true ->
  find (by_id cid) (calendarDay db) = Some day ->
  Day.status day = CHECKOUT_HOLD ->
  Day.stripePaymentIntentId day = Some (PI.id pi)
  \/ find (by_stripePaymentIntentId (PI.id pi)) (calendarDay db) = None ->
  handlePaymentSucceeded pi t db = (Returned tt, sold_db pi day t db).
Proof.
  intros U Hcid Htc Htd Hfind Hst Hpi.
  rewrite handlePaymentSucceeded_eq, Hcid.
  destruct (Metadata.date (PI.metadata pi)) as [date|]; [|discriminate].
  rewrite Htc, Htd. cbn [negb orb].
  assert (Hex : match find (by_stripePaymentIntentId (PI.id pi)) (calendarDay db) with
                | Some e => DayStatus_eqb (Day.status e) SOLD
                | None => false
                end = false).
  { destruct (find (by_stripePaymentIntentId (PI.id pi)) (calendarDay db))
      as [e|] eqn:Hf; auto.
    destruct Hpi as [Hpi | Hpi]; [|discriminate].
    apply find_some in Hf as [He Hpe]. apply by_pi_true in Hpe.
    apply find_some in Hfind as [Hd _].
    assert (e = day) by (eapply unique_ref_row; eauto). subst e.
    now rewrite Hst. }
  rewrite Hex, Hfind, Hst. cbn [DayStatus_eqb negb andb].
  destruct Hpi as [Hpi | Hnone].
  - now rewrite Hpi, option_string_eqb_refl.
  - assert (Hno : existsb (fun r => negb (by_id (Day.id day) r)
                                    && by_stripePaymentIntentId (PI.id pi) r)
                    (calendarDay db) = false).
    { destruct (existsb _ _) eqn:E; auto.
      apply existsb_exists in E as (r & Hr & Hb).
      apply andb_true_iff in Hb as [_ Hb].
      pose proof (find_none _ _ Hnone r Hr). congruence. }
    now rewrite Hno, andb_false_r.
Qed.

End Replay.

(** C4.  Idempotent payment success.  When the same payment-succeeded event
    is delivered twice in a row, the second delivery leaves the database
    exactly as the first one left it and gets the same answer.  When the
    event's day is under checkout hold (with this payment's reference, or
    with the reference on no row yet), both deliveries are
    answered 200, the day is SOLD, and the two deliveries together have
    appended exactly one audit entry, a PAYMENT_RECEIVED from CHECKOUT_HOLD
    to SOLD. *)
Theorem payment_succeeded_replay_is_noop :
  forall (rq1 rq2 : StripeWebhook.Request) (pi : PaymentIntent) (db : DB),
    delivers rq1 (payment_intent_succeeded pi) ->
    delivers rq2 (payment_intent_succeeded pi) ->
    unique_stripePaymentIntentId db ->
    let db1 := snd (StripeWebhook.POST rq1 db) in
    let db2 := snd (StripeWebhook.POST rq2 db1) in
    db2 = db1
    /\ fst (StripeWebhook.POST rq2 db1) = fst (StripeWebhook.POST rq1 db)
    /\ (forall cid day,
          Metadata.calendarDayId (PI.metadata pi) = Some cid ->
          truthy (Some cid) = true ->
          truthy (Metadata.date (PI.metadata pi)) = true ->
          find (by_id cid) (calendarDay db) = Some day ->
          Day.status day = CHECKOUT_HOLD ->
          Day.stripePaymentIntentId day = Some (PI.id pi)
          \/ find (by_stripePaymentIntentId (PI.id pi)) (calendarDay db) = None ->
          fst (StripeWebhook.POST rq1 db) = json JReceived 200
          /\ fst (StripeWebhook.POST rq2 db1) = json JReceived 200
          /\ (exists e,
                auditLog db2 = (auditLog db ++ [e])%list
                /\ entries_of AUDIT_ACTIONS.PAYMENT_RECEIVED db2
                   = (entries_of AUDIT_ACTIONS.PAYMENT_RECEIVED db ++ [e])%list
                /\ Audit.calendarDayId e = cid
                /\ snapshot_status (Audit.oldValue e) = Some CHECKOUT_HOLD
                /\ snapshot_status (Audit.newValue e) = Some SOLD)
          /\ (exists day',
                find (by_id cid) (calendarDay db2) = Some day'
                /\ Day.status day' = SOLD
                /\ Day.orderId day' = Some (next_orderId db)
                /\ Day.stripePaymentIntentId day' = Some (PI.id pi))).
Proof.
  intros rq1 rq2 pi db H1 H2 U db1 db2.
  assert (Hdb1 : db1 = snd (StripeWebhook.handlePaymentSucceeded pi (StripeWebhook.clock rq1) db)).
  { unfold db1. now rewrite (POST_succeeded rq1 pi db H1). }
  assert (Hsecond : StripeWebhook.POST rq2 db1
                    = (fst (StripeWebhook.POST rq1 db), db1)).
  { rewrite (POST_succeeded rq2 pi db1 H2), (POST_succeeded rq1 pi db H1).
    rewrite Hdb1, handlePaymentSucceeded_twice by assumption. reflexivity. }
  split; [|split].
  - unfold db2. now rewrite Hsecond.
  - now rewrite Hsecond.
  - intros cid day Hcid Htc Htd Hfind Hst Hpi.
    assert (Hfirst := first_delivery_finalises pi (StripeWebhook.clock rq1) db cid day
                        U Hcid Htc Htd Hfind Hst Hpi).
    assert (Hid : Day.id day = cid).
    { apply find_some in Hfind as [_ H]. now apply by_id_true. }
    assert (Hr1 : fst (StripeWebhook.POST rq1 db) = json JReceived 200).
    { now rewrite (POST_succeeded rq1 pi db H1), Hfirst. }
    assert (Hdb2 : db2 = sold_db pi day (StripeWebhook.clock rq1) db).
    { unfold db2. rewrite Hsecond. cbn [snd]. now rewrite Hdb1, Hfirst. }
    split; [exact Hr1|]. split; [now rewrite Hsecond|]. split.
    + exists (StripeWebhook.sold_entry pi day (next_orderId db)).
      rewrite Hdb2. split; [reflexivity|]. split.
      * unfold entries_of. cbn [sold_db auditLog]. now rewrite filter_app.
      * cbn. rewrite Hst. auto.
    + rewrite Hdb2. cbn [sold_db calendarDay].
      rewrite find_id_replace_row by reflexivity.
      rewrite <- Hid in Hfind. rewrite <- Hid, Hfind. cbn [option_map].
      unfold by_id. rewrite String.eqb_refl.
      eexists. split; [reflexivity|]. repeat split.
Qed.

Lemma payment_succeeded_replay_is_noop_witness :
  let rq1 := Sample.webhook
               (payment_intent_succeeded (Sample.intent "pi_1" "day_0315" "2027-03-15" "T1")) 3000 in
  let rq2 := Sample.webhook
               (payment_intent_succeeded (Sample.intent "pi_1" "day_0315" "2027-03-15" "T1")) 9000 in
  snd (StripeWebhook.POST rq2 (snd (StripeWebhook.POST rq1 Sample.db_held)))
  = snd (StripeWebhook.POST rq1 Sample.db_held)
  /\ fst (StripeWebhook.POST rq2 (snd (StripeWebhook.POST rq1 Sample.db_held)))
     = json JReceived 200.
Proof.
  intros rq1 rq2.
  assert (D1 : delivers rq1
                 (payment_intent_succeeded (Sample.intent "pi_1" "day_0315" "2027-03-15" "T1"))).
  { repeat split; try reflexivity. eexists. split; reflexivity. }
  assert (D2 : delivers rq2
                 (payment_intent_succeeded (Sample.intent "pi_1" "day_0315" "2027-03-15" "T1"))).
  { repeat split; try reflexivity. eexists. split; reflexivity. }
  pose proof (payment_succeeded_replay_is_noop rq1 rq2 _ Sample.db_held D1 D2 eq_refl)
    as (Hsame & _ & Hscenario).
  split; [exact Hsame|].
  destruct (Hscenario "day_0315"
              (CheckoutHold.hold_data "T1" 601001
                 (Col.dedicationText (Some "For Mum")
                 (Col.contactOptIn false
                 (Col.billingAddress
                    (Some (JsonAddress (CreatePaymentIntent.billingAddress Sample.buyer)))
                 (Col.buyerPhone None
                 (Col.buyerEmail (Some "ada@example.org")
                 (Col.buyerLastName (Some "Byron")
                 (Col.buyerFirstName (Some "Ada")
                 (Col.stripePaymentIntentId (Some "pi_1")
                    (Sample.seeded "day_0315" "2027-03-15"))))))))))
              eq_refl eq_refl eq_refl eq_refl eq_refl (or_introl eq_refl)) as (_ & H & _).
  exact H.
Defined.

(** ** Invariants *)

(** Split the next [match] or [if] of the goal on its scrutinee. *)
Ltac break_match :=
  match goal with
  | |- context [match ?x with _ => _ end] =>
      lazymatch x with
      | context [match _ with _ => _ end] => fail
      | _ => destruct x eqn:?
      end
  end.

Ltac unfold_tx :=
  unfold statement, createAuditLog in *;
  unfold transaction, bind, findUnique, findMany, auditLog_create, ret, throw in *.

(** Decide a fact on the columns of a row from the tests met on the way. *)
Ltac columns :=
  repeat match goal with
         | H : DayStatus_eqb _ _ = true |- _ => apply DayStatus_eqb_eq in H
         | H : DayStatus_eqb _ _ = false |- _ => apply DayStatus_eqb_neq in H
         | H : negb _ = true |- _ => apply negb_true_iff in H
         | H : negb _ = false |- _ => apply negb_false_iff in H
         | H : _ || _ = false |- _ => apply orb_false_iff in H as [? ?]
         | H : _ && _ = true |- _ => apply andb_true_iff in H as [? ?]
         end.

Lemma invariant_with_audit (db : DB) (logs : list AuditLog) :
  invariant db -> invariant (with_audit db logs).
Proof. intros [U F]. split; assumption. Qed.

(** An update of one found row keeps the invariant when it keeps the row
    well-formed. *)
Lemma update_invariant (i : string) (data : CalendarDay -> CalendarDay) (db db' : DB)
    (day r : CalendarDay) :
  invariant db ->
  In day (calendarDay db) ->
  Day.id day = i ->
  (forall d, Day.id (data d) = Day.id d) ->
  (hold_fields_ok day /\ sale_fields_ok day ->
   hold_fields_ok (data day) /\ sale_fields_ok (data day)) ->
  update i data db = Returned (r, db') ->
  invariant db'.
Proof.
  intros [U F] Hin Hid Hdata Hok Hup. unfold update in Hup.
  destruct (find (by_id i) (calendarDay db)) as [old|]; [|discriminate].
  destruct (unique_violation i old (data old) (calendarDay db)); [discriminate|].
  injection Hup as _ <-. split.
  - unfold unique_id. cbn [calendarDay with_days]. now rewrite replace_row_ids.
  - cbn [calendarDay with_days]. apply Forall_replace_row; auto.
    intros x Hx Hxi Hxok.
    assert (x = day) by (eapply unique_id_row; eauto; congruence).
    subst x. auto.
Qed.

Lemma found_in (f : CalendarDay -> bool) (db : DB) (day : CalendarDay) :
  find f (calendarDay db) = Some day -> In day (calendarDay db).
Proof. intro H. now apply find_some in H. Qed.

(** Close a leaf of a handler: the database is the one it was, or one
    update (and an audit entry) away from it. *)
Ltac row_facts day :=
  unfold hold_fields_ok, sale_fields_ok; cbn;
  repeat match goal with
         | H : context [Day.status day] |- _ => revert H
         end;
  generalize (Day.status day) (Day.holdToken day) (Day.holdExpiresAt day)
             (Day.orderId day) (Day.paidAt day);
  intros st tok exp oid pat;
  destruct st, tok, exp, oid, pat; cbn;
  intuition (congruence || discriminate).

Ltac leaf :=
  cbn [fst snd];
  try assumption;
  try (apply invariant_with_audit);
  try assumption;
  match goal with
  | Hu : update ?i ?data ?db = Returned (_, ?db1),
    Hf : find _ (calendarDay ?db) = Some ?day |- invariant ?db1 =>
      eapply (update_invariant i data db db1 day);
      [ assumption
      | exact (found_in _ _ _ Hf)
      | first [ reflexivity
              | apply find_some in Hf as [_ Hf]; apply by_id_true in Hf; exact Hf ]
      | reflexivity
      | columns; row_facts day
      | exact Hu ]
  end.

Lemma CheckoutHold_POST_invariant (rq : CheckoutHold.PostRequest) (db : DB) :
  invariant db -> invariant (snd (CheckoutHold.POST rq db)).
Proof.
  intro I. unfold CheckoutHold.POST, CheckoutHold.prepare, CheckoutHold.commit,
    CheckoutHold.hold_tx. unfold_tx.
  repeat break_match; try discriminate;
    repeat match goal with
           | H : Returned _ = Returned _ |- _ => injection H as; subst
           | H : (_, _) = (_, _) |- _ => injection H as; subst
           end; leaf.
Qed.

Ltac handler_invariant :=
  unfold_tx;
  repeat break_match; try discriminate;
  repeat match goal with
         | H : Returned _ = Returned _ |- _ => injection H as; subst
         | H : (_, _) = (_, _) |- _ => injection H as; subst
         end;
  leaf.

Lemma CheckoutHold_DELETE_invariant (rq : CheckoutHold.DeleteRequest) (db : DB) :
  invariant db -> invariant (snd (CheckoutHold.DELETE rq db)).
Proof.
  intro I. unfold CheckoutHold.DELETE, CheckoutHold.release_tx. handler_invariant.
Qed.

Lemma CreatePaymentIntent_POST_invariant (rq : CreatePaymentIntent.Request) (db : DB) :
  invariant db -> invariant (snd (CreatePaymentIntent.POST rq db)).
Proof.
  intro I. unfold CreatePaymentIntent.POST, CreatePaymentIntent.verify_tx.
  handler_invariant.
Qed.

Lemma StripeWebhook_POST_invariant (rq : StripeWebhook.Request) (db : DB) :
  invariant db -> invariant (snd (StripeWebhook.POST rq db)).
Proof.
  intro I.
  unfold StripeWebhook.POST, StripeWebhook.handlePaymentSucceeded,
    StripeWebhook.handlePaymentFailed, StripeWebhook.handleChargeRefunded,
    StripeWebhook.succeeded_tx, StripeWebhook.failed_tx,
    OrderNumber.generateOrderId, count.
  handler_invariant.
Qed.

Lemma AdminRefund_POST_invariant (rq : AdminRefund.Request) (db : DB) :
  invariant db -> invariant (snd (fst (AdminRefund.POST rq db))).
Proof.
  intro I. unfold AdminRefund.POST, AdminRefund.refund_tx. handler_invariant.
Qed.

Lemma AdminHolds_POST_invariant (rq : AdminHolds.PostRequest) (db : DB) :
  invariant db -> invariant (snd (AdminHolds.POST rq db)).
Proof.
  intro I. unfold AdminHolds.POST, AdminHolds.create_tx. handler_invariant.
Qed.

Lemma AdminHolds_DELETE_invariant (rq : AdminHolds.DeleteRequest) (db : DB) :
  invariant db -> invariant (snd (AdminHolds.DELETE rq db)).
Proof.
  intro I. unfold AdminHolds.DELETE, AdminHolds.release_tx. handler_invariant.
Qed.

Lemma AdminDays_PATCH_invariant (rq : AdminDays.Request) (db : DB) :
  invariant db -> invariant (snd (AdminDays.PATCH rq db)).
Proof.
  intro I. unfold AdminDays.PATCH, AdminDays.insert_entry. handler_invariant.
Qed.

Lemma Calendar_GET_invariant (rq : Calendar.Request) (db : DB) :
  invariant db -> invariant (snd (Calendar.GET rq db)).
Proof.
  intros [U F]. destruct (Calendar.limit_allowed rq) eqn:Hlim.
  - rewrite GET_database by assumption. split.
    + unfold unique_id, expire_rows, ids in *. cbn [calendarDay].
      rewrite map_map.
      erewrite map_ext; [exact U|]. intro r. now destruct (existsb _ _).
    + cbn [calendarDay]. unfold expire_rows. rewrite Forall_forall in *.
      intros x Hx. apply in_map_iff in Hx as (r & <- & Hr).
      destruct (existsb _ _); [|auto].
      split; [split; cbn; split; intro H; congruence | intro H; discriminate].
  - unfold Calendar.GET. rewrite Hlim. split; assumption.
Qed.

(** Every request keeps the invariant. *)
Lemma handle_invariant (rq : Request) (w : World) :
  invariant (prisma w) -> invariant (prisma (snd (handle rq w))).
Proof.
  intro I. destruct rq as [r|r|r|r|r|r|r|r|r]; cbn [handle on_db snd prisma].
  - now apply CheckoutHold_POST_invariant.
  - now apply CheckoutHold_DELETE_invariant.
  - now apply CreatePaymentIntent_POST_invariant.
  - now apply StripeWebhook_POST_invariant.
  - pose proof (AdminRefund_POST_invariant r (prisma w) I) as H.
    destruct (AdminRefund.POST r (prisma w)) as [[resp db'] calls]. exact H.
  - now apply AdminHolds_POST_invariant.
  - now apply AdminHolds_DELETE_invariant.
  - now apply AdminDays_PATCH_invariant.
  - now apply Calendar_GET_invariant.
Qed.

(** *** The record of sales *)

Lemma update_rows (i : string) (data : CalendarDay -> CalendarDay) (db db1 : DB)
    (r : CalendarDay) :
  update i data db = Returned (r, db1) ->
  db1 = with_days db (replace_row i data (calendarDay db)).
Proof.
  unfold update. intro H.
  destruct (find (by_id i) (calendarDay db)) as [old|]; [|discriminate].
  destruct (unique_violation i old (data old) (calendarDay db)); [discriminate|].
  now injection H as _ <-.
Qed.

Lemma refunded_later (db db' : DB) (i : string) (l : list AuditLog) :
  auditLog db' = (auditLog db ++ l)%list -> refunded db i -> refunded db' i.
Proof.
  intros Hlog (e & He & Hid & Hact). exists e. rewrite Hlog.
  split; [apply in_or_app; now left | auto].
Qed.

Lemma sale_fields_later (db db' : DB) (l : list AuditLog) (rows : list CalendarDay) :
  auditLog db' = (auditLog db ++ l)%list ->
  Forall (sale_fields_from_sale db) rows -> Forall (sale_fields_from_sale db') rows.
Proof.
  intros Hlog F. rewrite Forall_forall in *. intros d Hd Hset.
  destruct (F d Hd Hset) as [H | H]; [now left | right].
  eapply refunded_later; eauto.
Qed.

(** An update of one found row, followed by the entries [l], keeps the
    record when the row is SOLD afterwards, or [l] records its refund, or the
    update keeps the order reference and the payment time and does not take
    the row out of SOLD. *)
Lemma update_sale_record (i : string) (data : CalendarDay -> CalendarDay) (db db1 db' : DB)
    (day r : CalendarDay) (l : list AuditLog) :
  unique_id db ->
  In day (calendarDay db) ->
  Day.id day = i ->
  (forall d, Day.id (data d) = Day.id d) ->
  Forall (sale_fields_from_sale db) (calendarDay db) ->
  update i data db = Returned (r, db1) ->
  calendarDay db' = calendarDay db1 ->
  auditLog db' = (auditLog db1 ++ l)%list ->
  Day.status (data day) = SOLD
  \/ (exists e, In e l /\ Audit.calendarDayId e = i
                /\ Audit.action e = AUDIT_ACTIONS.REFUND_ISSUED)
  \/ (Day.orderId (data day) = Day.orderId day
      /\ Day.paidAt (data day) = Day.paidAt day
      /\ (Day.status day = SOLD -> Day.status (data day) = SOLD)) ->
  Forall (sale_fields_from_sale db') (calendarDay db').
Proof.
  intros U Hin Hid Hdata F Hup Hrows Hlog Hday.
  apply update_rows in Hup. subst db1. cbn [calendarDay auditLog with_days] in *.
  rewrite Hrows. unfold replace_row. rewrite Forall_forall in *.
  intros x Hx. apply in_map_iff in Hx as (d & <- & Hd).
  destruct (by_id i d) eqn:E.
  - apply by_id_true in E.
    assert (d = day) by (eapply unique_id_row; eauto; congruence). subst d.
    intro Hset. rewrite Hdata.
    destruct Hday as [Hs | [(e & He & Hei & Hea) | (Ho & Hp & Hs)]].
    + now left.
    + right. exists e. rewrite Hlog. split; [apply in_or_app; now right|]. split; congruence.
    + rewrite Ho, Hp in Hset. destruct (F day Hin Hset) as [H | H]; [left; auto | right].
      eapply refunded_later; eauto.
  - intro Hset. destruct (F d Hd Hset) as [H | H]; [now left | right].
    eapply refunded_later; eauto.
Qed.

(** Close a leaf of a handler for the record of sales. *)
Ltac sale_row :=
  first
    [ left; reflexivity
    | right; left; eexists; split; [left; reflexivity | split; reflexivity]
    | right; right; split; [reflexivity | split; [reflexivity|]];
      let Hs := fresh "Hs" in
      intro Hs;
      first [ exact Hs
            | exfalso; congruence
            | exfalso; rewrite Hs in *; cbn in *; congruence ] ].

Ltac sale_leaf U F :=
  cbn [fst snd];
  first
    [ exact F
    | cbn [calendarDay with_audit];
      match goal with
      | |- Forall (sale_fields_from_sale (with_audit ?db0 _)) (calendarDay ?db0) =>
          eapply (sale_fields_later db0); [|exact F]; cbn; reflexivity
      end
    | match goal with
      | Hu : update ?i ?data ?db = Returned (_, ?db1),
        Hf : find _ (calendarDay ?db) = Some ?day
        |- Forall (sale_fields_from_sale ?db') _ =>
          eapply (update_sale_record i data db db1 db' day);
          [ exact U
          | exact (found_in _ _ _ Hf)
          | first [ reflexivity
                  | apply find_some in Hf as [_ Hf]; apply by_id_true in Hf; exact Hf ]
          | reflexivity
          | exact F
          | exact Hu
          | reflexivity
          | first [ cbn; reflexivity | cbn; symmetry; apply app_nil_r ]
          | columns; sale_row ]
      end ].

Ltac handler_sale U F :=
  unfold_tx;
  repeat break_match; try discriminate;
  repeat match goal with
         | H : Returned _ = Returned _ |- _ => injection H as; subst
         | H : (_, _) = (_, _) |- _ => injection H as; subst
         end;
  sale_leaf U F.

Section SaleRecord.
Variable db : DB.
Hypothesis U : unique_id db.
Hypothesis F : Forall (sale_fields_from_sale db) (calendarDay db).

Lemma CheckoutHold_POST_sale_record (rq : CheckoutHold.PostRequest) :
  Forall (sale_fields_from_sale (snd (CheckoutHold.POST rq db)))
    (calendarDay (snd (CheckoutHold.POST rq db))).
Proof.
  unfold CheckoutHold.POST, CheckoutHold.prepare, CheckoutHold.commit,
    CheckoutHold.hold_tx. handler_sale U F.
Qed.

Lemma CheckoutHold_DELETE_sale_record (rq : CheckoutHold.DeleteRequest) :
  Forall (sale_fields_from_sale (snd (CheckoutHold.DELETE rq db)))
    (calendarDay (snd (CheckoutHold.DELETE rq db))).
Proof.
  unfold CheckoutHold.DELETE, CheckoutHold.release_tx. handler_sale U F.
Qed.

Lemma CreatePaymentIntent_POST_sale_record (rq : CreatePaymentIntent.Request) :
  Forall (sale_fields_from_sale (snd (CreatePaymentIntent.POST rq db)))
    (calendarDay (snd (CreatePaymentIntent.POST rq db))).
Proof.
  unfold CreatePaymentIntent.POST, CreatePaymentIntent.verify_tx. handler_sale U F.
Qed.

Lemma StripeWebhook_POST_sale_record (rq : StripeWebhook.Request) :
  Forall (sale_fields_from_sale (snd (StripeWebhook.POST rq db)))
    (calendarDay (snd (StripeWebhook.POST rq db))).
Proof.
  unfold StripeWebhook.POST, StripeWebhook.handlePaymentSucceeded,
    StripeWebhook.handlePaymentFailed, StripeWebhook.handleChargeRefunded,
    StripeWebhook.succeeded_tx, StripeWebhook.failed_tx,
    OrderNumber.generateOrderId, count.
  handler_sale U F.
Qed.

Lemma AdminRefund_POST_sale_record (rq : AdminRefund.Request) :
  Forall (sale_fields_from_sale (snd (fst (AdminRefund.POST rq db))))
    (calendarDay (snd (fst (AdminRefund.POST rq db)))).
Proof.
  unfold AdminRefund.POST, AdminRefund.refund_tx. handler_sale U F.
Qed.

Lemma AdminHolds_POST_sale_record (rq : AdminHolds.PostRequest) :
  Forall (sale_fields_from_sale (snd (AdminHolds.POST rq db)))
    (calendarDay (snd (AdminHolds.POST rq db))).
Proof.
  unfold AdminHolds.POST, AdminHolds.create_tx. handler_sale U F.
Qed.

Lemma AdminHolds_DELETE_sale_record (rq : AdminHolds.DeleteRequest) :
  Forall (sale_fields_from_sale (snd (AdminHolds.DELETE rq db)))
    (calendarDay (snd (AdminHolds.DELETE rq db))).
Proof.
  unfold AdminHolds.DELETE, AdminHolds.release_tx. handler_sale U F.
Qed.

Lemma AdminDays_PATCH_sale_record (rq : AdminDays.Request) :
  Forall (sale_fields_from_sale (snd (AdminDays.PATCH rq db)))
    (calendarDay (snd (AdminDays.PATCH rq db))).
Proof.
  unfold AdminDays.PATCH, AdminDays.insert_entry. handler_sale U F.
Qed.

End SaleRecord.

Lemma Calendar_GET_sale_record (rq : Calendar.Request) (db : DB) :
  unique_id db ->
  Forall (sale_fields_from_sale db) (calendarDay db) ->
  Forall (sale_fields_from_sale (snd (Calendar.GET rq db)))
    (calendarDay (snd (Calendar.GET rq db))).
Proof.
  intros U F. destruct (Calendar.limit_allowed rq) eqn:Hlim.
  2:{ unfold Calendar.GET. rewrite Hlim. exact F. }
  rewrite GET_database by assumption. cbn [calendarDay].
  set (db' := {| calendarDay := _ |}).
  assert (Hlog : auditLog db'
                 = (auditLog db
                    ++ map Calendar.expiry_entry
                         (filter (Calendar.expired (Calendar.now rq)) (calendarDay db)))%list)
    by reflexivity.
  unfold expire_rows. rewrite Forall_forall in *.
  intros x Hx. apply in_map_iff in Hx as (r & <- & Hr).
  destruct (existsb _ _) eqn:E.
  - apply existsb_exists in E as (d & Hd & Hid). apply filter_In in Hd as [Hd He].
    apply by_id_true in Hid.
    assert (r = d) by (eapply unique_id_row; eauto). subst d.
    unfold Calendar.expired in He. apply andb_true_iff in He as [He _].
    apply DayStatus_eqb_eq in He.
    intro Hset. destruct (F r Hr Hset) as [H | H]; [congruence | right].
    eapply refunded_later; eauto.
  - intro Hset. destruct (F r Hr Hset) as [H | H]; [now left | right].
    eapply refunded_later; eauto.
Qed.

(** Every request keeps the invariant and the record of sales. *)
Lemma handle_resource_invariant (rq : Request) (w : World) :
  resource_invariant (prisma w) -> resource_invariant (prisma (snd (handle rq w))).
Proof.
  intros [I F]. split; [now apply handle_invariant|].
  destruct I as [U _].
  destruct rq as [r|r|r|r|r|r|r|r|r]; cbn [handle on_db snd prisma].
  - now apply CheckoutHold_POST_sale_record.
  - now apply CheckoutHold_DELETE_sale_record.
  - now apply CreatePaymentIntent_POST_sale_record.
  - now apply StripeWebhook_POST_sale_record.
  - pose proof (AdminRefund_POST_sale_record (prisma w) U F r) as H.
    destruct (AdminRefund.POST r (prisma w)) as [[resp db'] calls]. exact H.
  - now apply AdminHolds_POST_sale_record.
  - now apply AdminHolds_DELETE_sale_record.
  - now apply AdminDays_PATCH_sale_record.
  - now apply Calendar_GET_sale_record.
Qed.

Lemma run_resource_invariant (rqs : list Request) (w : World) :
  resource_invariant (prisma w) -> resource_invariant (prisma (snd (run rqs w))).
Proof.
  revert w. induction rqs as [|rq rqs IH]; intros w I; [exact I|].
  cbn [run]. pose proof (handle_resource_invariant rq w I) as H1.
  destruct (handle rq w) as [resp w1]. cbn [snd] in H1.
  pose proof (IH w1 H1) as H2.
  destruct (run rqs w1) as [resps w2]. exact H2.
Qed.

(** A successful refund changes the state and the note of the day and
    nothing else. *)
Lemma refund_keeps_row (rq : AdminRefund.Request) (db : DB) :
  http_status (fst (fst (AdminRefund.POST rq db))) = 200 ->
  exists date day newStatus note,
    find (by_date date) (calendarDay db) = Some day
    /\ Day.status day = SOLD
    /\ (newStatus = AVAILABLE \/ newStatus = ADMIN_HOLD)
    /\ calendarDay (snd (fst (AdminRefund.POST rq db)))
       = replace_row (Day.id day) (refund_data newStatus note) (calendarDay db)
    /\ find (by_date date) (calendarDay (snd (fst (AdminRefund.POST rq db))))
       = Some (refund_data newStatus note day).
Proof.
  intro H200.
  destruct (AdminRefund.POST rq db) as [[resp db1] calls] eqn:Hout. cbn [fst snd] in *.
  unfold AdminRefund.POST in Hout.
  destruct (AdminRefund.session rq) as [session|];
    [|injection Hout as <- _ _; discriminate].
  destruct (AdminRefund.request_body rq) as [body|];
    [|injection Hout as <- _ _; discriminate].
  destruct (AdminRefund.date body) as [date|];
    [|injection Hout as <- _ _; discriminate].
  destruct (negb (Validation.validateCalendarDate date));
    [injection Hout as <- _ _; discriminate|].
  unfold statement, transaction, findUnique in Hout.
  destruct (find (by_date date) (calendarDay db)) as [day|] eqn:Hf;
    [|injection Hout as <- _ _; discriminate].
  destruct (DayStatus_eqb (Day.status day) SOLD) eqn:Hst;
    [|injection Hout as <- _ _; discriminate].
  destruct (truthy (Day.stripePaymentIntentId day));
    [|injection Hout as <- _ _; discriminate].
  cbn [negb] in Hout.
  destruct (AdminRefund.refunds_create rq) as [refund|msg];
    [|injection Hout as <- _ _; discriminate].
  destruct (negb (option_string_eqb (AdminRefund.refund_status refund) (Some "succeeded"))
            && negb (option_string_eqb (AdminRefund.refund_status refund) (Some "pending")));
    [injection Hout as <- _ _; discriminate|].
  unfold AdminRefund.refund_tx, bind in Hout.
  destruct (update (Day.id day) _ db) as [[updated db2]|msg] eqn:Hup;
    [|injection Hout as <- _ _; discriminate].
  cbn [auditLog_create] in Hout. injection Hout as _ <- _.
  apply update_rows in Hup. subst db2.
  apply DayStatus_eqb_eq in Hst.
  exists date, day. do 2 eexists.
  split; [exact Hf|]. split; [exact Hst|].
  split; [|split].
  2:{ cbn [calendarDay with_audit with_days]. unfold refund_data. reflexivity. }
  - destruct (match AdminRefund.restoreDate body with Some b => b | None => false end);
      [left | right]; reflexivity.
  - cbn [calendarDay with_audit with_days].
    rewrite find_date_replace_row by reflexivity. rewrite Hf. cbn [option_map].
    unfold by_id. now rewrite String.eqb_refl.
Qed.

(** C3 (as the code has it).  After any sequence of requests, starting
    from a database that satisfies them, every day has a hold token and a
    hold expiry exactly when it is in CHECKOUT_HOLD; every SOLD day has an
    order reference and a payment time; and a day that has an order
    reference or a payment time is SOLD or has been refunded (the audit
    trail has a REFUND_ISSUED entry for it).  A successful refund moves a
    SOLD day to AVAILABLE or ADMIN_HOLD and changes, besides the state, only
    the admin note: the order reference, the payment time, the amount, the
    payment reference, the dedication text and the buyer fields stay on the
    row. *)
Theorem invariants_preserved :
  (forall (rqs : list Request) (w : World),
     resource_invariant (prisma w) -> resource_invariant (prisma (snd (run rqs w))))
  /\ (forall (rq : AdminRefund.Request) (db : DB),
        http_status (fst (fst (AdminRefund.POST rq db))) = 200 ->
        exists date day day' note,
          find (by_date date) (calendarDay db) = Some day
          /\ Day.status day = SOLD
          /\ find (by_date date) (calendarDay (snd (fst (AdminRefund.POST rq db))))
             = Some day'
          /\ (Day.status day' = AVAILABLE \/ Day.status day' = ADMIN_HOLD)
          /\ day' = refund_data (Day.status day') note day
          /\ Day.orderId day' = Day.orderId day
          /\ Day.paidAt day' = Day.paidAt day
          /\ Day.amountPaidCents day' = Day.amountPaidCents day
          /\ Day.stripePaymentIntentId day' = Day.stripePaymentIntentId day
          /\ Day.dedicationText day' = Day.dedicationText day
          /\ Day.buyerFirstName day' = Day.buyerFirstName day
          /\ Day.buyerLastName day' = Day.buyerLastName day
          /\ Day.buyerEmail day' = Day.buyerEmail day
          /\ Day.buyerPhone day' = Day.buyerPhone day
          /\ Day.billingAddress day' = Day.billingAddress day).
Proof.
  split; [exact run_resource_invariant|].
  intros rq db H200.
  destruct (refund_keeps_row rq db H200)
    as (date & day & newStatus & note & Hf & Hst & Hnew & _ & Hf').
  exists date, day, (refund_data newStatus note day), note.
  split; [exact Hf|]. split; [exact Hst|]. split; [exact Hf'|].
  split; [exact Hnew|]. repeat split.
Qed.

Lemma seeded_ok (i date : string) :
  hold_fields_ok (Sample.seeded i date) /\ sale_fields_iff_sold (Sample.seeded i date).
Proof.
  unfold hold_fields_ok, sale_fields_iff_sold. cbn.
  repeat split; intro H; congruence.
Qed.

Lemma seeded_invariant : invariant Sample.db0.
Proof.
  split; [reflexivity|].
  unfold Sample.db0. cbn [calendarDay].
  repeat (apply Forall_cons; [split; [apply seeded_ok | discriminate]|]).
  apply Forall_nil.
Defined.

Lemma seeded_resource_invariant : resource_invariant Sample.db0.
Proof.
  split; [exact seeded_invariant|].
  unfold Sample.db0. cbn [calendarDay].
  repeat (apply Forall_cons; [intros [H | H]; exfalso; apply H; reflexivity|]).
  apply Forall_nil.
Defined.

Lemma invariants_preserved_witness :
  resource_invariant (prisma (snd (run Sample.resale Sample.w0)))
  /\ exists date day day' note,
       find (by_date date) (calendarDay Sample.db_sold) = Some day
       /\ Day.status day = SOLD
       /\ find (by_date date)
            (calendarDay
               (snd (fst (AdminRefund.POST
                            (Sample.refund_request "2027-03-15" true Sample.refunded)
                            Sample.db_sold))))
          = Some day'
       /\ (Day.status day' = AVAILABLE \/ Day.status day' = ADMIN_HOLD)
       /\ day' = refund_data (Day.status day') note day
       /\ Day.orderId day' = Day.orderId day
       /\ Day.paidAt day' = Day.paidAt day
       /\ Day.amountPaidCents day' = Day.amountPaidCents day
       /\ Day.stripePaymentIntentId day' = Day.stripePaymentIntentId day
       /\ Day.dedicationText day' = Day.dedicationText day
       /\ Day.buyerFirstName day' = Day.buyerFirstName day
       /\ Day.buyerLastName day' = Day.buyerLastName day
       /\ Day.buyerEmail day' = Day.buyerEmail day
       /\ Day.buyerPhone day' = Day.buyerPhone day
       /\ Day.billingAddress day' = Day.billingAddress day.
Proof.
  split.
  - apply (proj1 invariants_preserved Sample.resale Sample.w0).
    exact seeded_resource_invariant.
  - apply (proj2 invariants_preserved
             (Sample.refund_request "2027-03-15" true Sample.refunded) Sample.db_sold).
    vm_compute. reflexivity.
Defined.

(** A day that was never sold and carries an order reference is not a
    state the invariant admits. *)
Lemma unsold_day_with_reference_rejected :
  ~ resource_invariant
      (with_days Sample.db0
         [Col.orderId (Some "ACF-2027-00009") (Sample.seeded "day_0314" "2027-03-14")]).
Proof.
  intros [_ F]. apply Forall_inv in F.
  destruct F as [H | (e & He & _)].
  - left. discriminate.
  - discriminate H.
  - exact He.
Qed.

Lemma run_sale_then_refund :
  snd (run Sample.sale_then_refund Sample.w0) = Sample.w_refunded.
Proof. vm_compute. reflexivity. Qed.

(** The invariant as the specification words it holds of the seeded
    database and fails after one sale and its refund: the restored day is
    AVAILABLE and still carries its order reference and payment time. *)
Lemma refund_keeps_sale_fields :
  stated_invariant Sample.db0
  /\ ledger (prisma (snd (run Sample.sale_then_refund Sample.w0)))
     = [("day_0314", AVAILABLE, None);
        ("day_0315", AVAILABLE, Some "ACF-2027-00001");
        ("day_0316", AVAILABLE, None)]
  /\ ~ stated_invariant (prisma (snd (run Sample.sale_then_refund Sample.w0))).
Proof.
  rewrite run_sale_then_refund.
  split; [|split].
  - unfold stated_invariant, Sample.db0. cbn [calendarDay].
    repeat (apply Forall_cons; [apply seeded_ok|]). apply Forall_nil.
  - reflexivity.
  - intro H. unfold stated_invariant, Sample.w_refunded in H. cbn [prisma calendarDay] in H.
    apply Forall_inv_tail in H. apply Forall_inv in H.
    destruct H as [_ [[Hoid _] _]]. cbn [Day.orderId Day.status] in Hoid.
    assert (E : AVAILABLE = SOLD) by (apply Hoid; discriminate).
    discriminate.
Qed.

(** ** The audit trail *)

Lemma status_of_replace_row (i j : string) (data : CalendarDay -> CalendarDay)
    (rows : list CalendarDay) (db : DB) :
  (forall d, Day.id (data d) = Day.id d) ->
  j <> i ->
  option_map Day.status (find (by_id j) (replace_row i data rows))
  = option_map Day.status (find (by_id j) rows).
Proof.
  intros Hdata Hne. rewrite find_id_replace_row by assumption.
  destruct (find (by_id j) rows) as [r|] eqn:Hf; auto. cbn.
  apply find_some in Hf as [_ Hf]. apply by_id_true in Hf.
  destruct (by_id i r) eqn:E; auto.
  apply by_id_true in E. congruence.
Qed.

(** What a successful update of a found row gives. *)
Lemma update_effect (i : string) (data : CalendarDay -> CalendarDay) (db db1 : DB)
    (day r : CalendarDay) :
  unique_id db ->
  In day (calendarDay db) ->
  Day.id day = i ->
  (forall d, Day.id (data d) = Day.id d) ->
  update i data db = Returned (r, db1) ->
  db1 = with_days db (replace_row i data (calendarDay db))
  /\ find (by_id i) (calendarDay db) = Some day
  /\ find (by_id i) (calendarDay db1) = Some (data day).
Proof.
  intros U Hin Hid Hdata Hup.
  assert (Hf : find (by_id i) (calendarDay db) = Some day).
  { rewrite <- Hid. now apply find_by_id_unique. }
  unfold update in Hup. rewrite Hf in Hup.
  destruct (unique_violation i day (data day) (calendarDay db)); [discriminate|].
  injection Hup as _ <-. repeat split; auto.
  cbn [calendarDay with_days]. rewrite find_id_replace_row by assumption.
  rewrite Hf. cbn. apply by_id_true in Hid. now rewrite Hid.
Qed.

(** One update of a found row followed by one entry that names the states
    before and after is an audited transition. *)
Lemma update_audited (i : string) (data : CalendarDay -> CalendarDay) (db db1 : DB)
    (day r : CalendarDay) (e : AuditLog) :
  unique_id db ->
  In day (calendarDay db) ->
  Day.id day = i ->
  (forall d, Day.id (data d) = Day.id d) ->
  update i data db = Returned (r, db1) ->
  Audit.calendarDayId e = i ->
  snapshot_status (Audit.oldValue e) = Some (Day.status day) ->
  snapshot_status (Audit.newValue e) = Some (Day.status (data day)) ->
  audited_transition db (with_audit db1 (auditLog db1 ++ [e])).
Proof.
  intros U Hin Hid Hdata Hup He Hold Hnew.
  destruct (update_effect i data db db1 day r U Hin Hid Hdata Hup) as (-> & Hf & Hf1).
  exists e. cbn [auditLog with_audit with_days calendarDay]. split; [reflexivity|].
  unfold status_of. cbn [calendarDay with_audit with_days] in *. rewrite He.
  split; [|split].
  - exists (Day.status day). now rewrite Hf.
  - exists (Day.status (data day)). now rewrite Hf1.
  - intros j Hj. now apply status_of_replace_row.
Qed.

Ltac failure_writes_nothing :=
  first [ intros _; reflexivity
        | let Hne := fresh in intro Hne; exfalso; apply Hne; reflexivity ].

Ltac audit_leaf :=
  unfold transition_outcome; cbn [fst snd http_status json];
  split;
  [ failure_writes_nothing
  | first
      [ left; reflexivity
      | right;
        match goal with
        | Hu : update ?i ?data ?db = Returned (_, ?db1),
          Hf : find _ (calendarDay ?db) = Some ?day
          |- audited_transition ?db (with_audit ?db1 _) =>
            eapply (update_audited i data db db1 day);
            [ assumption
            | exact (found_in _ _ _ Hf)
            | first [ reflexivity
                    | apply find_some in Hf as [_ Hf]; apply by_id_true in Hf; exact Hf ]
            | reflexivity
            | exact Hu
            | reflexivity
            | columns; cbn; congruence
            | reflexivity ]
        end ] ].

Ltac granted_leaf :=
  unfold granted_outcome; cbn [fst snd http_status json];
  split;
  [ failure_writes_nothing
  | let H := fresh in
    intro H;
    first
      [ discriminate H
      | clear H;
        match goal with
        | Hu : update ?i ?data ?db = Returned (_, ?db1),
          Hf : find _ (calendarDay ?db) = Some ?day
          |- audited_transition ?db (with_audit ?db1 _) =>
            eapply (update_audited i data db db1 day);
            [ assumption
            | exact (found_in _ _ _ Hf)
            | first [ reflexivity
                    | apply find_some in Hf as [_ Hf]; apply by_id_true in Hf; exact Hf ]
            | reflexivity
            | exact Hu
            | reflexivity
            | columns; cbn; congruence
            | reflexivity ]
        end ] ].

Ltac handler_granted :=
  unfold_tx;
  repeat break_match; try discriminate;
  repeat match goal with
         | H : Returned _ = Returned _ |- _ => injection H as; subst
         | H : (_, _) = (_, _) |- _ => injection H as; subst
         end;
  granted_leaf.

Ltac handler_audit :=
  unfold_tx;
  repeat break_match; try discriminate;
  repeat match goal with
         | H : Returned _ = Returned _ |- _ => injection H as; subst
         | H : (_, _) = (_, _) |- _ => injection H as; subst
         end;
  audit_leaf.

Lemma CheckoutHold_POST_audited (rq : CheckoutHold.PostRequest) (db : DB) :
  unique_id db ->
  granted_outcome db (fst (CheckoutHold.POST rq db)) (snd (CheckoutHold.POST rq db)).
Proof.
  intro U. unfold CheckoutHold.POST, CheckoutHold.prepare, CheckoutHold.commit,
    CheckoutHold.hold_tx. handler_granted.
Qed.

Lemma CheckoutHold_DELETE_audited (rq : CheckoutHold.DeleteRequest) (db : DB) :
  unique_id db ->
  transition_outcome db (fst (CheckoutHold.DELETE rq db)) (snd (CheckoutHold.DELETE rq db)).
Proof.
  intro U. unfold CheckoutHold.DELETE, CheckoutHold.release_tx. handler_audit.
Qed.

Lemma AdminHolds_POST_audited (rq : AdminHolds.PostRequest) (db : DB) :
  unique_id db ->
  granted_outcome db (fst (AdminHolds.POST rq db)) (snd (AdminHolds.POST rq db)).
Proof.
  intro U. unfold AdminHolds.POST, AdminHolds.create_tx. handler_granted.
Qed.

Lemma AdminHolds_DELETE_audited (rq : AdminHolds.DeleteRequest) (db : DB) :
  unique_id db ->
  granted_outcome db (fst (AdminHolds.DELETE rq db)) (snd (AdminHolds.DELETE rq db)).
Proof.
  intro U. unfold AdminHolds.DELETE, AdminHolds.release_tx. handler_granted.
Qed.

Lemma AdminRefund_POST_audited (rq : AdminRefund.Request) (db : DB) :
  unique_id db ->
  granted_outcome db (fst (fst (AdminRefund.POST rq db)))
    (snd (fst (AdminRefund.POST rq db))).
Proof.
  intro U. unfold AdminRefund.POST, AdminRefund.refund_tx. handler_granted.
Qed.

(** An update that writes neither the id nor the status changes no state. *)
Lemma update_keeps_states (i : string) (data : CalendarDay -> CalendarDay) (db db1 : DB)
    (r : CalendarDay) :
  (forall d, Day.id (data d) = Day.id d) ->
  (forall d, Day.status (data d) = Day.status d) ->
  update i data db = Returned (r, db1) ->
  forall j, status_of db1 j = status_of db j.
Proof.
  intros Hid Hst Hup j. apply update_rows in Hup as ->.
  unfold status_of. cbn [calendarDay with_days].
  rewrite find_id_replace_row by assumption.
  destruct (find (by_id j) (calendarDay db)) as [x|]; auto. cbn.
  destruct (by_id i x); auto. now rewrite Hst.
Qed.

Ltac stateless_leaf :=
  unfold stateless_outcome; cbn [fst snd http_status json];
  split; [ failure_writes_nothing | intro; reflexivity ].

Lemma StripeWebhook_POST_audited (rq : StripeWebhook.Request) (db : DB) :
  unique_id db ->
  match StripeWebhook.constructEvent rq with
  | Returned {| event_data := charge_refunded _ |} =>
      stateless_outcome db (fst (StripeWebhook.POST rq db)) (snd (StripeWebhook.POST rq db))
  | _ =>
      transition_outcome db (fst (StripeWebhook.POST rq db)) (snd (StripeWebhook.POST rq db))
  end.
Proof.
  intro U.
  unfold StripeWebhook.POST, StripeWebhook.handlePaymentSucceeded,
    StripeWebhook.handlePaymentFailed, StripeWebhook.handleChargeRefunded,
    StripeWebhook.succeeded_tx, StripeWebhook.failed_tx,
    OrderNumber.generateOrderId, count.
  unfold_tx;
  repeat break_match; try discriminate;
  repeat match goal with
         | H : Returned _ = Returned _ |- _ => injection H as; subst
         | H : (_, _) = (_, _) |- _ => injection H as; subst
         end;
  first [ stateless_leaf | audit_leaf ].
Qed.

Lemma CreatePaymentIntent_POST_audited (rq : CreatePaymentIntent.Request) (db : DB) :
  stateless_outcome db (fst (CreatePaymentIntent.POST rq db))
    (snd (CreatePaymentIntent.POST rq db))
  /\ auditLog (snd (CreatePaymentIntent.POST rq db)) = auditLog db.
Proof.
  unfold CreatePaymentIntent.POST, CreatePaymentIntent.verify_tx.
  unfold_tx;
  repeat break_match; try discriminate;
  repeat match goal with
         | H : Returned _ = Returned _ |- _ => injection H as; subst
         | H : (_, _) = (_, _) |- _ => injection H as; subst
         end;
  unfold stateless_outcome; cbn [fst snd];
  try (split; [split; [intros _; reflexivity | intro; reflexivity] | reflexivity]).
  all: match goal with
       | Hu : update _ _ _ = Returned (_, _) |- _ =>
           split; [split; [failure_writes_nothing
                          | eapply update_keeps_states; [| |exact Hu]; reflexivity]
                  | apply update_rows in Hu; subst; reflexivity]
       end.
Qed.

Lemma AdminDays_PATCH_audited (rq : AdminDays.Request) (db : DB) :
  unique_id db ->
  text_edit_outcome db (fst (AdminDays.PATCH rq db)) (snd (AdminDays.PATCH rq db)).
Proof.
  intro U. unfold text_edit_outcome, AdminDays.PATCH, AdminDays.insert_entry.
  assert (Hno : forall (b : Body) (st : Z),
             st <> 200 ->
             (forall i, status_of db i = status_of db i)
             /\ (http_status (json b st) <> 200 -> auditLog db = auditLog db)
             /\ (http_status (json b st) = 200 ->
                 exists e day day',
                   auditLog db = (auditLog db ++ [e])%list
                   /\ Audit.action e = AUDIT_ACTIONS.TEXT_EDIT
                   /\ find (by_id (Audit.calendarDayId e)) (calendarDay db) = Some day
                   /\ find (by_id (Audit.calendarDayId e)) (calendarDay db) = Some day'
                   /\ Audit.oldValue e
                      = Some [("dedicationText", VNullableString (Day.dedicationText day))]
                   /\ Audit.newValue e
                      = Some [("dedicationText", VNullableString (Day.dedicationText day'))]
                   /\ Day.status day = SOLD)).
  { intros b st Hst. split; [reflexivity|]. split; [reflexivity|].
    cbn [http_status json]. intro H. contradiction. }
  destruct (AdminDays.session rq) as [session|]; [|now apply Hno].
  destruct (negb (Validation.validateCalendarDate (AdminDays.date rq))); [now apply Hno|].
  destruct (AdminDays.request_body rq) as [[text reason]|]; [|now apply Hno].
  destruct (negb (Dedication.valid _)); [now apply Hno|].
  unfold statement, transaction, findUnique, createAuditLog, auditLog_create.
  destruct (find (by_date (AdminDays.date rq)) (calendarDay db)) as [day|] eqn:Hf;
    [|now apply Hno].
  destruct (negb (DayStatus_eqb (Day.status day) SOLD)) eqn:Hst; [now apply Hno|].
  destruct (update (Day.id day) _ db) as [[updated db2]|m] eqn:Hup; [|now apply Hno].
  match type of Hup with
  | update _ ?data _ = _ =>
      pose proof (update_keeps_states _ data _ _ _ (fun _ => eq_refl) (fun _ => eq_refl) Hup)
        as Hkeep;
      destruct (update_effect _ data db db2 day _ U (proj1 (find_in_rows _ _ _ Hf)) eq_refl
                  (fun _ => eq_refl) Hup) as (Hdb2 & Hfind & Hfind2)
  end.
  destruct (AdminDays.auditLog_create_answer rq) as [u|m];
    cbn [fst snd http_status json].
  - split; [exact Hkeep|]. split; [intro H; exfalso; apply H; reflexivity|].
    intros _. eexists. exists day. eexists.
    cbn [auditLog with_audit calendarDay Audit.calendarDayId Audit.action
         Audit.oldValue Audit.newValue].
    split; [rewrite Hdb2; reflexivity|].
    split; [reflexivity|].
    split; [exact Hfind|].
    split; [exact Hfind2|].
    split; [reflexivity|].
    split; [reflexivity|].
    apply negb_false_iff in Hst. now apply DayStatus_eqb_eq.
  - split; [exact Hkeep|]. split; [intros _; now rewrite Hdb2|].
    intro H. discriminate H.
Qed.

Lemma find_id_map (g : CalendarDay -> CalendarDay) (j : string) (rows : list CalendarDay) :
  (forall r, Day.id (g r) = Day.id r) ->
  find (by_id j) (map g rows) = option_map g (find (by_id j) rows).
Proof.
  intro Hg. induction rows as [|r rows IH]; cbn; auto.
  assert (E : by_id j (g r) = by_id j r) by (unfold by_id; now rewrite Hg).
  rewrite E. destruct (by_id j r); auto.
Qed.

Lemma Calendar_GET_audited (rq : Calendar.Request) (db : DB) :
  unique_id db ->
  Calendar.limit_allowed rq = true ->
  expiry_outcome (Calendar.now rq) db (snd (Calendar.GET rq db)).
Proof.
  intros U Hlim. rewrite GET_database by assumption.
  unfold expiry_outcome. cbn [auditLog calendarDay].
  set (reverted := filter (Calendar.expired (Calendar.now rq)) (calendarDay db)).
  assert (Hg : forall r, Day.id (if existsb (fun d => by_id (Day.id d) r) reverted
                                 then Calendar.revert r else r) = Day.id r).
  { intro r. now destruct (existsb _ _). }
  split; [reflexivity|]. split.
  - intros d Hd. pose proof Hd as Hd'. apply filter_In in Hd' as [Hin Hexp].
    assert (Hf : find (by_id (Day.id d)) (calendarDay db) = Some d)
      by now apply find_by_id_unique.
    unfold status_of. cbn [calendarDay]. unfold expire_rows. fold reverted.
    rewrite find_id_map by exact Hg. rewrite Hf. cbn [option_map].
    assert (Hex : existsb (fun x => by_id (Day.id x) d) reverted = true).
    { apply existsb_exists. exists d. split; auto. unfold by_id. apply String.eqb_refl. }
    rewrite Hex. unfold Calendar.expired in Hexp.
    apply andb_true_iff in Hexp as [Hst _]. apply DayStatus_eqb_eq in Hst.
    rewrite Hst. repeat split.
  - intros i Hi. unfold status_of. cbn [calendarDay]. unfold expire_rows. fold reverted.
    rewrite find_id_map by exact Hg.
    destruct (find (by_id i) (calendarDay db)) as [r|] eqn:Hf; auto. cbn [option_map].
    destruct (existsb (fun d => by_id (Day.id d) r) reverted) eqn:Hex; auto.
    exfalso. apply Hi. apply existsb_exists in Hex as (d & Hd & Hid).
    apply by_id_true in Hid. apply find_some in Hf as [_ Hf]. apply by_id_true in Hf.
    unfold ids. apply in_map_iff. exists d. split; congruence.
Qed.

(** C5 (as the code has it).  Audit completeness.  On a database with
    unique ids, every request leaves the audit trail in step with the
    states.  A createHold, createAdminHold, releaseAdminHold or refund that
    fails writes nothing, and one that succeeds appends exactly one entry
    whose [oldValue.status] is the day's state before, whose
    [newValue.status] is its state after, and changes the state of no
    other day.  A releaseHold, payment-succeeded or payment-failed either
    writes nothing (every failure does) or appends exactly one such entry.
    A calendar read appends one such entry, CHECKOUT_HOLD to AVAILABLE, per
    reverted hold.  An edit of the dedication text changes no state; when it
    succeeds it appends exactly one TEXT_EDIT entry, which carries the old
    and the new text and no status, and when it fails it appends none.
    Creating a payment intent and a charge-refunded event change no
    state. *)
Theorem audit_trail_complete :
  forall (rq : Request) (w : World),
    unique_id (prisma w) -> audit_outcome rq w.
Proof.
  intros rq w U. unfold audit_outcome.
  destruct rq as [r|r|r|r|r|r|r|r|r]; cbn [handle on_db fst snd prisma].
  - now apply CheckoutHold_POST_audited.
  - now apply CheckoutHold_DELETE_audited.
  - apply CreatePaymentIntent_POST_audited.
  - now apply StripeWebhook_POST_audited.
  - pose proof (AdminRefund_POST_audited r (prisma w) U) as H.
    destruct (AdminRefund.POST r (prisma w)) as [[resp db'] calls]. exact H.
  - now apply AdminHolds_POST_audited.
  - now apply AdminHolds_DELETE_audited.
  - now apply AdminDays_PATCH_audited.
  - destruct (Calendar.limit_allowed r) eqn:Hlim.
    + now apply Calendar_GET_audited.
    + unfold Calendar.GET. now rewrite Hlim.
Qed.

Lemma audit_trail_complete_witness :
  audit_outcome (Refund (Sample.refund_request "2027-03-15" false Sample.refunded))
    Sample.w_sold
  /\ audit_outcome (DedicationEdit (Sample.edit_request "2027-03-15" "For Mom")) Sample.w_sold
  /\ audit_outcome (CalendarGet (Sample.calendar_request 700000)) Sample.w_held.
Proof.
  split; [|split]; apply audit_trail_complete; reflexivity.
Defined.

(** A successful edit of the dedication text of a SOLD day appends an
    entry without [oldValue.status]: the claim as worded fails on it. *)
Lemma text_edit_entry_has_no_state :
  http_status (fst (handle (DedicationEdit (Sample.edit_request "2027-03-15" "For Mom"))
                      Sample.w_sold)) = 200
  /\ ~ audits_state_change (DedicationEdit (Sample.edit_request "2027-03-15" "For Mom"))
         Sample.w_sold.
Proof.
  split; [vm_compute; reflexivity|].
  intro H. unfold audits_state_change in H.
  destruct H as (e & Hlog & (s & _ & Hold) & _).
  - vm_compute. reflexivity.
  - vm_compute. discriminate.
  - vm_compute in Hlog. injection Hlog as <-. discriminate.
Qed.

(** The edit is the one operation that writes its row and its audit entry
    in two statements: when the insert is rejected the route answers 500,
    the new text is on the row and no entry records it. *)
Lemma rejected_insert_leaves_edited_text :
  let out := AdminDays.PATCH (Sample.edit_request_rejected "2027-03-15" "For Mom")
               Sample.db_sold in
  http_status (fst out) = 500
  /\ auditLog (snd out) = auditLog Sample.db_sold
  /\ option_map Day.dedicationText (find (by_date "2027-03-15") (calendarDay Sample.db_sold))
     = Some (Some "For Mum")
  /\ option_map Day.dedicationText (find (by_date "2027-03-15") (calendarDay (snd out)))
     = Some (Some "For Mom").
Proof. vm_compute. repeat split. Qed.

(** ** Order references *)

(** C2 (the code at the failing input).  [generateOrderId] numbers a sale
    by the count of rows that are SOLD now; a refund takes a row out of that
    count.  Two runs in which every request is answered 200: a day sold,
    refunded and sold again gets "ACF-2027-00001" both times; and with a
    first sale refunded between the second and the third, the second and
    the third sale both get "ACF-2027-00002" and both days are SOLD under
    it. *)
Theorem order_reference_repeats_after_refund :
  map http_status (fst (run Sample.resale Sample.w0)) = [200; 200; 200; 200; 200; 200; 200]
  /\ assigned_orderIds (prisma (snd (run Sample.resale Sample.w0)))
     = ["ACF-2027-00001"; "ACF-2027-00001"]
  /\ map http_status (fst (run Sample.three_sales Sample.w0))
     = [200; 200; 200; 200; 200; 200; 200; 200; 200; 200]
  /\ assigned_orderIds (prisma (snd (run Sample.three_sales Sample.w0)))
     = ["ACF-2027-00001"; "ACF-2027-00002"; "ACF-2027-00002"]
  /\ ledger (prisma (snd (run Sample.three_sales Sample.w0)))
     = [("day_0314", SOLD, Some "ACF-2027-00002");
        ("day_0315", ADMIN_HOLD, Some "ACF-2027-00001");
        ("day_0316", SOLD, Some "ACF-2027-00002")].
Proof. vm_compute. repeat split. Qed.

(** * Further properties of the handlers *)

Section HoldRelease.
Import CheckoutHold.

(** What the release transaction does: nothing, or the hold of the day
    found under the date, given up by the holder of its token. *)
Lemma release_tx_effect (date token : string) (db : DB) :
  transaction (release_tx date token) db = (Returned tt, db)
  \/ exists day,
       find (by_date date) (calendarDay db) = Some day
       /\ Day.status day = CHECKOUT_HOLD
       /\ Day.holdToken day = Some token
       /\ exists e,
            transaction (release_tx date token) db
            = (Returned tt,
               {| calendarDay := replace_row (Day.id day) Calendar.revert (calendarDay db);
                  auditLog := (auditLog db ++ [e])%list;
                  adminSettings := adminSettings db |})
            /\ Audit.action e = AUDIT_ACTIONS.CHECKOUT_HOLD_EXPIRED
            /\ Audit.calendarDayId e = Day.id day.
Proof.
  unfold release_tx, transaction, bind, findUnique.
  destruct (find (by_date date) (calendarDay db)) as [day|] eqn:Hf; [|left; reflexivity].
  destruct (DayStatus_eqb (Day.status day) CHECKOUT_HOLD) eqn:Hst; [|left; reflexivity].
  destruct (option_string_eqb (Day.holdToken day) (Some token)) eqn:Htok; [|left; reflexivity].
  cbn [negb orb]. right. exists day.
  apply DayStatus_eqb_eq in Hst. apply option_string_eqb_eq in Htok.
  do 3 (split; [first [assumption | reflexivity]|]).
  destruct (find_own_id _ _ (found_in _ _ _ Hf)) as (old & Hold & _).
  rewrite (update_returns _ _ _ old Hold) by (now apply unique_violation_same_ref).
  cbn [auditLog_create]. eexists. split; [reflexivity|]. split; reflexivity.
Qed.



(** X2.  Releasing twice is releasing once: the second identical request
    gets the answer of the first and leaves the database as the first left
    it. *)
Theorem release_is_idempotent (rq : DeleteRequest) (db : DB) :
  DELETE rq (snd (DELETE rq db)) = DELETE rq db.
Proof.
  unfold DELETE.
  destruct (delete_body rq) as [[[date|] [token|]]|]; try reflexivity.
  destruct (negb (truthy (Some date)) || negb (truthy (Some token))
            || negb (Validation.validateCalendarDate date)); [reflexivity|].
  destruct (release_tx_effect date token db) as [E | (day & Hf & Hst & Htok & e & E & _)].
  - rewrite E. cbn [snd]. now rewrite E.
  - rewrite E. cbn [snd].
    assert (E2 : forall db', find (by_date date) (calendarDay db') = Some (Calendar.revert day) ->
                 transaction (release_tx date token) db' = (Returned tt, db')).
    { intros db' Hf'. unfold release_tx, transaction, bind, findUnique. now rewrite Hf'. }
    rewrite E2; [reflexivity|].
    cbn [calendarDay]. rewrite find_date_replace_row by reflexivity.
    rewrite Hf. cbn [option_map]. unfold by_id. now rewrite String.eqb_refl.
Qed.

(** X3.  A hold that is granted on an AVAILABLE day and then released by
    its holder leaves the table of days exactly as it was; the audit trail
    has grown by the two entries, CHECKOUT_HOLD_CREATED and
    CHECKOUT_HOLD_EXPIRED. *)
Theorem hold_then_release_restores_table (date : string) (rq : PostRequest) (db : DB)
    (day : CalendarDay) :
  Validation.validateCalendarDate date = true ->
  admitted date db rq ->
  holdToken rq <> "" ->
  unique_id db ->
  find (by_date date) (calendarDay db) = Some day ->
  Day.status day = AVAILABLE ->
  Day.holdToken day = None ->
  Day.holdExpiresAt day = None ->
  let held := POST rq db in
  let released := DELETE {| delete_body := Some (Some date, Some (holdToken rq)) |} (snd held) in
  fst held = grant date rq
  /\ fst released = json JOk 200
  /\ calendarDay (snd released) = calendarDay db
  /\ map Audit.action (auditLog (snd released))
     = (map Audit.action (auditLog db)
        ++ [AUDIT_ACTIONS.CHECKOUT_HOLD_CREATED; AUDIT_ACTIONS.CHECKOUT_HOLD_EXPIRED])%list.
Proof.
  intros Hdate Hadm Htok U Hf Hst Hnotok Hnoexp held released.
  assert (Hin : In day (calendarDay db)) by (eapply found_in; eauto).
  assert (Hid : find (by_id (Day.id day)) (calendarDay db) = Some day)
    by (now apply find_by_id_unique).
  assert (Hheld : held
                  = (grant date rq,
                     {| calendarDay :=
                          replace_row (Day.id day)
                            (hold_data (holdToken rq) (Date_now rq + HOLD_DURATION_MS))
                            (calendarDay db);
                        auditLog :=
                          (auditLog db
                           ++ [{| Audit.calendarDayId := Day.id day;
                                  Audit.action := AUDIT_ACTIONS.CHECKOUT_HOLD_CREATED;
                                  Audit.oldValue := Some [("status", VStatus AVAILABLE)];
                                  Audit.newValue :=
                                    Some [("status", VStatus CHECKOUT_HOLD);
                                          ("holdExpiresAt",
                                           VDate (Date_now rq + HOLD_DURATION_MS))];
                                  Audit.performedBy := "customer-ip:" ++ ip rq;
                                  Audit.ipAddress := Some (ip rq);
                                  Audit.notes := None |}])%list;
                        adminSettings := adminSettings db |})).
  { unfold held, POST. rewrite (prepare_admitted date Hdate rq db Hadm).
    unfold commit, prepared_of.
    cbn [dateObj prepared_now prepared_token holdExpiresAt prepared_ip date_text].
    unfold transaction, hold_tx, bind, findUnique. rewrite Hf, Hst.
    cbn [DayStatus_eqb orb negb].
    rewrite (update_returns _ _ _ day Hid) by (now apply unique_violation_same_ref).
    reflexivity. }
  unfold released. rewrite Hheld. cbn [fst snd]. split; [reflexivity|].
  unfold DELETE. cbn [delete_body]. rewrite Hdate.
  replace (truthy (Some date)) with true.
  2:{ destruct date; [discriminate Hdate | reflexivity]. }
  replace (truthy (Some (holdToken rq))) with true.
  2:{ destruct (holdToken rq); [contradiction | reflexivity]. }
  cbn [negb orb].
  unfold transaction, release_tx, bind, findUnique. cbn [calendarDay].
  rewrite find_date_replace_row by reflexivity. rewrite Hf. cbn [option_map].
  replace (by_id (Day.id day) day) with true
    by (unfold by_id; now rewrite String.eqb_refl).
  cbn [hold_data Col.holdExpiresAt Col.holdToken Col.status Day.status Day.holdToken
       DayStatus_eqb negb orb Day.id].
  rewrite option_string_eqb_refl. cbn [negb].
  set (rows1 := replace_row _ _ (calendarDay db)).
  set (db1 := {| calendarDay := rows1 |}).
  assert (Hid1 : find (by_id (Day.id day)) (calendarDay db1)
                 = Some (hold_data (holdToken rq) (Date_now rq + HOLD_DURATION_MS) day)).
  { cbn [db1 calendarDay]. unfold rows1. rewrite find_id_replace_row by reflexivity.
    rewrite Hid. cbn [option_map]. unfold by_id. now rewrite String.eqb_refl. }
  rewrite (update_returns _ _ _ _ Hid1) by (now apply unique_violation_same_ref).
  cbn [auditLog_create fst snd with_audit with_days calendarDay auditLog db1].
  split; [reflexivity|]. split.
  - unfold rows1, replace_row. rewrite map_map. rewrite <- (map_id (calendarDay db)) at 2.
    apply map_ext_in. intros r Hr. destruct (by_id (Day.id day) r) eqn:E.
    + apply by_id_true in E.
      assert (r = day) by (eapply unique_id_row; eauto). subst r.
      unfold by_id. cbn [hold_data Col.holdExpiresAt Col.holdToken Col.status Day.id].
      rewrite String.eqb_refl.
      destruct day. cbn in Hst, Hnotok, Hnoexp. subst. reflexivity.
    + now rewrite E.
  - rewrite !map_app. cbn [map Audit.action]. now rewrite <- app_assoc.
Qed.

Lemma hold_then_release_restores_table_witness :
  let held := POST (Sample.hold_request "2027-03-15" "T1" 1000) Sample.db0 in
  let released :=
    DELETE {| delete_body :=
                Some (Some "2027-03-15",
                      Some (holdToken (Sample.hold_request "2027-03-15" "T1" 1000))) |}
      (snd held) in
  fst held = grant "2027-03-15" (Sample.hold_request "2027-03-15" "T1" 1000)
  /\ fst released = json JOk 200
  /\ calendarDay (snd released) = calendarDay Sample.db0
  /\ map Audit.action (auditLog (snd released))
     = (map Audit.action (auditLog Sample.db0)
        ++ [AUDIT_ACTIONS.CHECKOUT_HOLD_CREATED; AUDIT_ACTIONS.CHECKOUT_HOLD_EXPIRED])%list.
Proof.
  apply (hold_then_release_restores_table "2027-03-15"
           (Sample.hold_request "2027-03-15" "T1" 1000) Sample.db0
           (Sample.seeded "day_0315" "2027-03-15")).
  - reflexivity.
  - repeat split.
  - discriminate.
  - reflexivity.
  - reflexivity.
  - reflexivity.
  - reflexivity.
  - reflexivity.
Defined.

End HoldRelease.

Section HoldAndPay.
Import CheckoutHold CreatePaymentIntent.

(** X4.  At any instant a held day either still belongs to its holder,
    whose payment-intent verification passes while every new hold is
    refused, or its hold has lapsed, the verification fails with
    HOLD_EXPIRED and a new hold is granted: never both. *)
Theorem live_hold_excludes_takeover (date token : string) (now : Date) (db : DB)
    (day : CalendarDay) :
  find (by_date date) (calendarDay db) = Some day ->
  Day.status day = CHECKOUT_HOLD ->
  Day.holdToken day = Some token ->
  (verify_tx date token now db = Returned (day, db)
   /\ forall token' expires ip,
        hold_tx date now token' expires ip db = Thrown "DATE_UNAVAILABLE:CHECKOUT_HOLD")
  \/ (verify_tx date token now db = Thrown "HOLD_EXPIRED"
      /\ forall token' expires ip,
           exists updated db',
             hold_tx date now token' expires ip db = Returned (updated, db')
             /\ find (by_date date) (calendarDay db')
                = Some (hold_data token' expires day)).
Proof.
  intros Hf Hst Htok.
  unfold verify_tx, hold_tx, bind, findUnique. rewrite Hf, Hst, Htok.
  cbn [DayStatus_eqb negb orb andb]. rewrite option_string_eqb_refl. cbn [negb].
  destruct (match Day.holdExpiresAt day with
            | Some e => e <? now
            | None => false
            end) eqn:E.
  - right. split; [reflexivity|]. intros token' expires ip'. cbn [negb].
    destruct (find_own_id _ _ (found_in _ _ _ Hf)) as (old & Hold & Hoid).
    unfold update. rewrite Hold.
    rewrite unique_violation_same_ref by reflexivity.
    cbn [auditLog_create ret]. do 2 eexists. split; [reflexivity|].
    cbn [calendarDay with_audit with_days].
    rewrite find_date_replace_row by reflexivity. rewrite Hf. cbn [option_map].
    unfold by_id. now rewrite String.eqb_refl.
  - left. split; reflexivity.
Qed.

Lemma live_hold_excludes_takeover_witness :
  (CreatePaymentIntent.verify_tx "2027-03-15" "T1" 5000 Sample.db_held
   = Returned (Sample.day_held, Sample.db_held)
   /\ forall token' expires ip,
        hold_tx "2027-03-15" 5000 token' expires ip Sample.db_held
        = Thrown "DATE_UNAVAILABLE:CHECKOUT_HOLD")
  \/ (CreatePaymentIntent.verify_tx "2027-03-15" "T1" 5000 Sample.db_held
      = Thrown "HOLD_EXPIRED"
      /\ forall token' expires ip,
           exists updated db',
             hold_tx "2027-03-15" 5000 token' expires ip Sample.db_held
             = Returned (updated, db')
             /\ find (by_date "2027-03-15") (calendarDay db')
                = Some (hold_data token' expires Sample.day_held)).
Proof.
  apply (live_hold_excludes_takeover "2027-03-15" "T1" 5000 Sample.db_held Sample.day_held).
  - reflexivity.
  - reflexivity.
  - reflexivity.
Defined.

(** X5.  A payment intent is handed out only to the holder of a live hold:
    a 200 answer means the date is valid and its day is under checkout hold
    with the token of the request and an expiry that has not passed. *)
Theorem payment_intent_requires_live_hold (rq : CreatePaymentIntent.Request) (db : DB) :
  http_status (fst (CreatePaymentIntent.POST rq db)) = 200 ->
  exists body date token day,
    request_body rq = Some body
    /\ CreatePaymentIntent.date body = Some date
    /\ CreatePaymentIntent.holdToken body = Some token
    /\ Validation.validateCalendarDate date = true
    /\ find (by_date date) (calendarDay db) = Some day
    /\ Day.status day = CHECKOUT_HOLD
    /\ Day.holdToken day = Some token
    /\ (forall e, Day.holdExpiresAt day = Some e -> CreatePaymentIntent.now rq <= e).
Proof.
  unfold CreatePaymentIntent.POST.
  destruct (CreatePaymentIntent.limit_allowed rq); [|discriminate]. cbn [negb].
  destruct (request_body rq) as [body|] eqn:Hbody; [|discriminate].
  destruct (CreatePaymentIntent.date body) as [date|] eqn:Hd; [|discriminate].
  destruct (Validation.validateCalendarDate date) eqn:Hdate; [|discriminate]. cbn [negb].
  destruct (truthy (CreatePaymentIntent.holdToken body)); [|discriminate]. cbn [negb].
  destruct (CreatePaymentIntent.holdToken body) as [token|] eqn:Ht; [|discriminate].
  destruct (formData body) as [buyerData|]; [|discriminate].
  destruct (negb (Dedication.valid _)); [discriminate|].
  assert (Herr : forall m, http_status (on_error m) <> 200).
  { intro m. unfold on_error. repeat break_match; discriminate. }
  unfold transaction, verify_tx, bind, findUnique.
  destruct (find (by_date date) (calendarDay db)) as [day|] eqn:Hf.
  2:{ intro H. now apply Herr in H. }
  destruct (DayStatus_eqb (Day.status day) CHECKOUT_HOLD) eqn:Hst.
  2:{ intro H. now apply Herr in H. }
  destruct (option_string_eqb (Day.holdToken day) (Some token)) eqn:Htok.
  2:{ intro H. now apply Herr in H. }
  destruct (match Day.holdExpiresAt day with
            | Some e => e <? CreatePaymentIntent.now rq
            | None => false
            end) eqn:Hexp.
  { intro H. now apply Herr in H. }
  intros _. exists body, date, token, day.
  apply DayStatus_eqb_eq in Hst. apply option_string_eqb_eq in Htok.
  do 7 (split; [first [assumption | reflexivity]|]).
  intros e He. rewrite He in Hexp. apply Z.ltb_ge in Hexp. lia.
Qed.

Lemma payment_intent_requires_live_hold_witness :
  exists body date token day,
    request_body (Sample.intent_request "2027-03-15" "T1" "pi_1" 2000) = Some body
    /\ CreatePaymentIntent.date body = Some date
    /\ CreatePaymentIntent.holdToken body = Some token
    /\ Validation.validateCalendarDate date = true
    /\ find (by_date date) (calendarDay Sample.db_hold_only) = Some day
    /\ Day.status day = CHECKOUT_HOLD
    /\ Day.holdToken day = Some token
    /\ (forall e, Day.holdExpiresAt day = Some e ->
                  CreatePaymentIntent.now (Sample.intent_request "2027-03-15" "T1" "pi_1" 2000)
                  <= e).
Proof.
  apply (payment_intent_requires_live_hold
           (Sample.intent_request "2027-03-15" "T1" "pi_1" 2000) Sample.db_hold_only).
  vm_compute. reflexivity.
Defined.

End HoldAndPay.

Section PaymentFailed.
Import StripeWebhook.

Lemma handlePaymentFailed_effect (pi : PaymentIntent) (db : DB) :
  handlePaymentFailed pi db = (Returned tt, db)
  \/ exists cid day e,
       Metadata.calendarDayId (PI.metadata pi) = Some cid
       /\ find (by_id cid) (calendarDay db) = Some day
       /\ Day.status day = CHECKOUT_HOLD
       /\ handlePaymentFailed pi db
          = (Returned tt,
             {| calendarDay := replace_row cid failed_data (calendarDay db);
                auditLog := (auditLog db ++ [e])%list;
                adminSettings := adminSettings db |}).
Proof.
  unfold handlePaymentFailed.
  destruct (Metadata.calendarDayId (PI.metadata pi)) as [cid|]; [|now left].
  destruct (negb (truthy (Some cid))); [now left|].
  unfold transaction, failed_tx, bind, findUnique.
  destruct (find (by_id cid) (calendarDay db)) as [day|] eqn:Hf; [|now left].
  destruct (DayStatus_eqb (Day.status day) CHECKOUT_HOLD) eqn:Hst; [|now left].
  cbn [negb]. right.
  assert (Hid : Day.id day = cid).
  { apply find_some in Hf as [_ H]. now apply by_id_true. }
  rewrite Hid. unfold update. rewrite Hf. cbn [unique_violation].
  apply DayStatus_eqb_eq in Hst.
  exists cid, day. eexists. do 3 (split; [first [assumption | reflexivity]|]).
  reflexivity.
Qed.

(** X6.  A verified payment-failed event is always acknowledged with 200,
    and delivering it again changes nothing more. *)
Theorem payment_failed_acknowledged_once (rq : Request) (pi : PaymentIntent) (db : DB) :
  delivers rq (payment_intent_payment_failed pi) ->
  fst (POST rq db) = json JReceived 200
  /\ POST rq (snd (POST rq db)) = (json JReceived 200, snd (POST rq db)).
Proof.
  intros (Hsig & Hsec & ev & Hev & Hdata).
  assert (E : forall db0, POST rq db0
                          = (match fst (handlePaymentFailed pi db0) with
                             | Returned _ => json JReceived 200
                             | Thrown _ => json (JError "Handler failed") 500
                             end, snd (handlePaymentFailed pi db0))).
  { intro db0. unfold POST. rewrite Hsig, Hsec, Hev, Hdata. cbn [negb orb].
    destruct (handlePaymentFailed pi db0) as [[u|m] db']; reflexivity. }
  rewrite !E.
  destruct (handlePaymentFailed_effect pi db) as [H | (cid & day & e & Hcid & Hf & Hst & H)];
    rewrite H; cbn [fst snd].
  - rewrite H. auto.
  - split; [reflexivity|].
    assert (H2 : forall db', find (by_id cid) (calendarDay db') = Some (failed_data day) ->
                 handlePaymentFailed pi db' = (Returned tt, db')).
    { intros db' Hf'. unfold handlePaymentFailed. rewrite Hcid.
      destruct (negb (truthy (Some cid))); [reflexivity|].
      unfold transaction, failed_tx, bind, findUnique. now rewrite Hf'. }
    rewrite H2; [reflexivity|].
    cbn [calendarDay]. rewrite find_id_replace_row by reflexivity.
    rewrite Hf. cbn [option_map]. apply find_some in Hf as [_ Hf]. now rewrite Hf.
Qed.

Lemma payment_failed_acknowledged_once_witness :
  let rq := Sample.webhook
              (payment_intent_payment_failed
                 (Sample.intent "pi_1" "day_0315" "2027-03-15" "T1")) 3000 in
  fst (POST rq Sample.db_held) = json JReceived 200
  /\ POST rq (snd (POST rq Sample.db_held)) = (json JReceived 200, snd (POST rq Sample.db_held)).
Proof.
  apply (payment_failed_acknowledged_once _
           (Sample.intent "pi_1" "day_0315" "2027-03-15" "T1") Sample.db_held).
  repeat split; try reflexivity. eexists. split; reflexivity.
Defined.



(** X8.  A payment that succeeds for the day that carries its reference
    sells the day whatever state the day is in short of SOLD (AVAILABLE after
    the hold lapsed, ADMIN_HOLD after an admin took it): the day becomes SOLD
    with the next order reference, the payment time and amount, and no hold
    fields. *)
Theorem payment_finalises_day_that_carries_its_reference
    (pi : PaymentIntent) (t : Date) (db : DB) (cid : string) (day : CalendarDay) :
  unique_stripePaymentIntentId db ->
  Metadata.calendarDayId (PI.metadata pi) = Some cid ->
  truthy (Some cid) = true ->
  truthy (Metadata.date (PI.metadata pi)) = true ->
  find (by_id cid) (calendarDay db) = Some day ->
  Day.stripePaymentIntentId day = Some (PI.id pi) ->
  Day.status day <> SOLD ->
  exists db' sold,
    handlePaymentSucceeded pi t db = (Returned tt, db')
    /\ find (by_id cid) (calendarDay db') = Some sold
    /\ Day.status sold = SOLD
    /\ Day.orderId sold = Some (next_orderId db)
    /\ Day.paidAt sold = Some t
    /\ Day.amountPaidCents sold = Some (PI.amount pi)
    /\ Day.stripePaymentIntentId sold = Some (PI.id pi)
    /\ Day.holdToken sold = None
    /\ Day.holdExpiresAt sold = None.
Proof.
  intros U Hcid Htc Htd Hf Hpi Hst.
  rewrite handlePaymentSucceeded_eq, Hcid.
  destruct (Metadata.date (PI.metadata pi)) as [date|]; [|discriminate].
  rewrite Htc, Htd. cbn [negb orb].
  assert (Hex : find (by_stripePaymentIntentId (PI.id pi)) (calendarDay db) = Some day).
  { destruct (find (by_stripePaymentIntentId (PI.id pi)) (calendarDay db)) as [e|] eqn:He.
    - apply find_some in He as [He Hpe]. apply by_pi_true in Hpe.
      f_equal. eapply unique_ref_row; eauto. eapply found_in; eauto.
    - exfalso. pose proof (find_none _ _ He day (found_in _ _ _ Hf)) as Hn.
      unfold by_stripePaymentIntentId in Hn. rewrite Hpi in Hn.
      now rewrite option_string_eqb_refl in Hn. }
  rewrite Hex, Hf.
  replace (DayStatus_eqb (Day.status day) SOLD) with false
    by (symmetry; now apply DayStatus_eqb_neq).
  rewrite Hpi, option_string_eqb_refl. cbn [negb andb]. rewrite andb_false_r.
  exists (sold_db pi day t db). eexists. split; [reflexivity|].
  cbn [sold_db calendarDay]. rewrite find_id_replace_row by reflexivity.
  assert (Hid : Day.id day = cid).
  { apply find_some in Hf as [_ H]. now apply by_id_true. }
  rewrite Hid, Hf. cbn [option_map]. rewrite (proj2 (find_some _ _ Hf)).
  split; [reflexivity|]. cbn. repeat split; reflexivity.
Qed.

Lemma payment_finalises_day_that_carries_its_reference_witness :
  Day.status Sample.day_lapsed = AVAILABLE
  /\ exists db' sold,
       handlePaymentSucceeded (Sample.intent "pi_1" "day_0315" "2027-03-15" "T1") 800000
         Sample.db_lapsed = (Returned tt, db')
       /\ find (by_id "day_0315") (calendarDay db') = Some sold
       /\ Day.status sold = SOLD
       /\ Day.orderId sold = Some (next_orderId Sample.db_lapsed)
       /\ Day.paidAt sold = Some 800000
       /\ Day.amountPaidCents sold
          = Some (PI.amount (Sample.intent "pi_1" "day_0315" "2027-03-15" "T1"))
       /\ Day.stripePaymentIntentId sold
          = Some (PI.id (Sample.intent "pi_1" "day_0315" "2027-03-15" "T1"))
       /\ Day.holdToken sold = None
       /\ Day.holdExpiresAt sold = None.
Proof.
  split; [reflexivity|].
  apply (payment_finalises_day_that_carries_its_reference
           (Sample.intent "pi_1" "day_0315" "2027-03-15" "T1") 800000 Sample.db_lapsed
           "day_0315" Sample.day_lapsed).
  - reflexivity.
  - reflexivity.
  - reflexivity.
  - reflexivity.
  - reflexivity.
  - reflexivity.
  - discriminate.
Defined.

End PaymentFailed.

Section AdminRoutes.

(** X9.  An admin hold can be placed on a day that is AVAILABLE or under a
    customer's checkout hold; it evicts the customer (the hold token is
    cleared), and once it is released the day is AVAILABLE with no hold
    token, no expiry and no note. *)
Theorem admin_hold_then_release_frees_day (date : string) (note : option string)
    (admin1 admin2 : Session) (db : DB) (day : CalendarDay) :
  Validation.validateCalendarDate date = true ->
  find (by_date date) (calendarDay db) = Some day ->
  Day.status day = AVAILABLE \/ Day.status day = CHECKOUT_HOLD ->
  let held :=
    AdminHolds.POST {| AdminHolds.post_session := Some admin1;
                       AdminHolds.post_body := Some (Some date, note) |} db in
  let released :=
    AdminHolds.DELETE {| AdminHolds.delete_session := Some admin2;
                         AdminHolds.delete_body := Some (Some date) |} (snd held) in
  fst held = json (JAdminHold date ADMIN_HOLD (orNull note)) 200
  /\ option_map Day.status (find (by_date date) (calendarDay (snd held))) = Some ADMIN_HOLD
  /\ option_map Day.holdToken (find (by_date date) (calendarDay (snd held))) = Some None
  /\ fst released = json (JOkDate date) 200
  /\ find (by_date date) (calendarDay (snd released)) = Some (cleared day).
Proof.
  intros Hdate Hf Hst held released.
  destruct (find_own_id _ _ (found_in _ _ _ Hf)) as (old & Hold & Hoid).
  set (data := fun d => Col.holdExpiresAt None
                          (Col.holdToken None
                             (Col.adminNote (orNull note) (Col.status ADMIN_HOLD d)))).
  assert (Hheld : exists e,
             held = (json (JAdminHold date ADMIN_HOLD (orNull note)) 200,
                     {| calendarDay := replace_row (Day.id day) data (calendarDay db);
                        auditLog := (auditLog db ++ [e])%list;
                        adminSettings := adminSettings db |})).
  { unfold held, AdminHolds.POST. cbn [AdminHolds.post_session AdminHolds.post_body].
    rewrite Hdate. cbn [negb].
    unfold transaction, AdminHolds.create_tx, bind, findUnique. rewrite Hf.
    replace (DayStatus_eqb (Day.status day) SOLD) with false
      by (destruct Hst as [-> | ->]; reflexivity).
    replace (DayStatus_eqb (Day.status day) ADMIN_HOLD) with false
      by (destruct Hst as [-> | ->]; reflexivity).
    fold data.
    rewrite (update_returns _ _ _ old Hold) by (now apply unique_violation_same_ref).
    cbn [auditLog_create ret]. eexists. reflexivity. }
  destruct Hheld as (e & Hheld).
  assert (Hf1 : find (by_date date) (calendarDay (snd held)) = Some (data day)).
  { rewrite Hheld. cbn [snd calendarDay]. rewrite find_date_replace_row by reflexivity.
    rewrite Hf. cbn [option_map]. unfold by_id. now rewrite String.eqb_refl. }
  split; [now rewrite Hheld|]. rewrite Hf1. split; [reflexivity|]. split; [reflexivity|].
  unfold released, AdminHolds.DELETE.
  cbn [AdminHolds.delete_session AdminHolds.delete_body]. rewrite Hdate. cbn [negb].
  unfold transaction, AdminHolds.release_tx, bind, findUnique. rewrite Hf1.
  cbn [data Day.status Col.holdExpiresAt Col.holdToken Col.adminNote Col.status
       DayStatus_eqb negb Day.id].
  destruct (find_own_id _ _ (found_in _ _ _ Hf1)) as (old1 & Hold1 & _).
  cbn [data Day.id Col.holdExpiresAt Col.holdToken Col.adminNote Col.status] in Hold1.
  rewrite (update_returns _ _ _ old1 Hold1) by (now apply unique_violation_same_ref).
  cbn [auditLog_create fst snd calendarDay with_days with_audit].
  split; [reflexivity|].
  rewrite find_date_replace_row by reflexivity. rewrite Hf1. cbn [option_map].
  unfold by_id. cbn [data Day.id Col.holdExpiresAt Col.holdToken Col.adminNote Col.status].
  rewrite String.eqb_refl. reflexivity.
Qed.

Lemma admin_hold_then_release_frees_day_witness :
  let held :=
    AdminHolds.POST {| AdminHolds.post_session := Some Sample.admin;
                       AdminHolds.post_body := Some (Some "2027-03-15", Some "Board") |}
      Sample.db_held in
  let released :=
    AdminHolds.DELETE {| AdminHolds.delete_session := Some Sample.admin;
                         AdminHolds.delete_body := Some (Some "2027-03-15") |} (snd held) in
  fst held = json (JAdminHold "2027-03-15" ADMIN_HOLD (orNull (Some "Board"))) 200
  /\ option_map Day.status (find (by_date "2027-03-15") (calendarDay (snd held)))
     = Some ADMIN_HOLD
  /\ option_map Day.holdToken (find (by_date "2027-03-15") (calendarDay (snd held)))
     = Some None
  /\ fst released = json (JOkDate "2027-03-15") 200
  /\ find (by_date "2027-03-15") (calendarDay (snd released)) = Some (cleared Sample.day_held).
Proof.
  apply (admin_hold_then_release_frees_day "2027-03-15" (Some "Board") Sample.admin
           Sample.admin Sample.db_held Sample.day_held).
  - reflexivity.
  - reflexivity.
  - right. reflexivity.
Defined.

Import AdminRefund.

(** X10.  A day that has been refunded cannot be refunded a second time:
    the second request is answered 400, writes nothing and does not reach
    Stripe. *)
Theorem refunded_day_is_not_refunded_again (rq rq2 : AdminRefund.Request) (db : DB)
    (date : string) :
  refund_of rq date ->
  refund_of rq2 date ->
  http_status (fst (fst (POST rq db))) = 200 ->
  POST rq2 (snd (fst (POST rq db)))
  = (json (JError "This date is not sold — cannot refund.") 400, snd (fst (POST rq db)), []).
Proof.
  intros (Hs & body & Hbody & Hd) (Hs2 & body2 & Hbody2 & Hd2) H200.
  destruct (session rq) as [s1|] eqn:Es; [clear Hs|congruence].
  destruct (session rq2) as [s2|] eqn:Es2; [clear Hs2|congruence].
  destruct (POST rq db) as [[resp db1] calls] eqn:Hout. cbn [fst snd] in *.
  unfold POST in Hout. rewrite Es, Hbody, Hd in Hout.
  destruct (Validation.validateCalendarDate date) eqn:Hdate;
    [|injection Hout as <- _ _; discriminate].
  cbn [negb] in Hout. unfold statement, transaction, findUnique in Hout.
  destruct (find (by_date date) (calendarDay db)) as [day|] eqn:Hf;
    [|injection Hout as <- _ _; discriminate].
  destruct (DayStatus_eqb (Day.status day) SOLD);
    [|injection Hout as <- _ _; discriminate].
  destruct (truthy (Day.stripePaymentIntentId day));
    [|injection Hout as <- _ _; discriminate].
  cbn [negb] in Hout.
  destruct (refunds_create rq) as [refund|msg];
    [|injection Hout as <- _ _; discriminate].
  destruct (negb (option_string_eqb (refund_status refund) (Some "succeeded"))
            && negb (option_string_eqb (refund_status refund) (Some "pending")));
    [injection Hout as <- _ _; discriminate|].
  unfold refund_tx, bind in Hout.
  destruct (update (Day.id day) _ db) as [[updated db2]|msg] eqn:Hup;
    [|injection Hout as <- _ _; discriminate].
  cbn [auditLog_create] in Hout. injection Hout as _ <- _.
  unfold update in Hup.
  destruct (find (by_id (Day.id day)) (calendarDay db)) as [old|]; [|discriminate].
  destruct (unique_violation _ _ _ _); [discriminate|].
  injection Hup as _ <-.
  unfold POST. rewrite Es2, Hbody2, Hd2, Hdate. cbn [negb].
  unfold statement, transaction, findUnique.
  cbn [calendarDay with_audit with_days].
  rewrite find_date_replace_row by reflexivity. rewrite Hf. cbn [option_map].
  unfold by_id. rewrite String.eqb_refl.
  cbn [Day.status Col.adminNote Col.status].
  destruct (match restoreDate body with Some b => b | None => false end); reflexivity.
Qed.

Lemma refunded_day_is_not_refunded_again_witness :
  let rq := Sample.refund_request "2027-03-15" true Sample.refunded in
  POST rq (snd (fst (POST rq Sample.db_sold)))
  = (json (JError "This date is not sold — cannot refund.") 400,
     snd (fst (POST rq Sample.db_sold)), []).
Proof.
  apply (refunded_day_is_not_refunded_again
           (Sample.refund_request "2027-03-15" true Sample.refunded)
           (Sample.refund_request "2027-03-15" true Sample.refunded)
           Sample.db_sold "2027-03-15").
  - split; [discriminate|]. eexists. split; reflexivity.
  - split; [discriminate|]. eexists. split; reflexivity.
  - vm_compute. reflexivity.
Defined.

End AdminRoutes.

Section SalesWindow.
Import CheckoutHold.

(** X11.  The hold endpoint refuses a request with 403 exactly when the
    calendar reports, at the same instant, that sales have not started or
    have ended; with no settings row the calendar reports unknown and holds
    are let through. *)
Theorem hold_refused_outside_sales_window (rq : PostRequest) (db : DB) (date : string) :
  limit_allowed rq = true ->
  post_body rq = Some (Some date) ->
  Validation.validateCalendarDate date = true ->
  let status := Calendar.getSalesStatus (adminSettings db) (now rq) in
  (status = not_started <-> fst (POST rq db) = json (JError "Sales have not started yet") 403)
  /\ (status = ended <-> fst (POST rq db) = json (JError "Sales have ended") 403)
  /\ (status = open \/ status = unknown <-> http_status (fst (POST rq db)) <> 403).
Proof.
  intros Hlim Hbody Hdate status.
  assert (Hc : forall p db0, http_status (fst (commit p db0)) <> 403).
  { intros p db0. unfold commit. destruct (transaction _ db0) as [[r|m] db'].
    - discriminate.
    - repeat break_match; discriminate. }
  unfold POST, prepare. rewrite Hlim, Hbody, Hdate. cbn [negb].
  unfold status, Calendar.getSalesStatus, salesNotStarted, salesEnded.
  destruct (adminSettings db) as [s|].
  - destruct (match Settings.salesStartDate s with Some t => now rq <? t | None => false end).
    + cbn [fst]. repeat split; try discriminate; auto.
      * intros [H | H]; discriminate.
      * intro H. exfalso. apply H. reflexivity.
    + destruct (match Settings.salesEndDate s with Some t => now rq >? t | None => false end).
      * cbn [fst]. repeat split; try discriminate; auto.
        -- intros [H | H]; discriminate.
        -- intro H. exfalso. apply H. reflexivity.
      * repeat split; try discriminate; auto.
        -- intro H. exfalso. eapply Hc. rewrite H. reflexivity.
        -- intro H. exfalso. eapply Hc. rewrite H. reflexivity.
  - repeat split; try discriminate; auto.
    + intro H. exfalso. eapply Hc. rewrite H. reflexivity.
    + intro H. exfalso. eapply Hc. rewrite H. reflexivity.
Qed.

Lemma hold_refused_outside_sales_window_witness :
  let rq := Sample.hold_request "2027-03-15" "T1" 1000 in
  let status := Calendar.getSalesStatus (adminSettings Sample.db_not_started) (now rq) in
  status = not_started
  /\ (status = not_started
      <-> fst (POST rq Sample.db_not_started)
          = json (JError "Sales have not started yet") 403)
  /\ (status = ended
      <-> fst (POST rq Sample.db_not_started) = json (JError "Sales have ended") 403)
  /\ (status = open \/ status = unknown
      <-> http_status (fst (POST rq Sample.db_not_started)) <> 403).
Proof.
  split; [reflexivity|].
  apply (hold_refused_outside_sales_window (Sample.hold_request "2027-03-15" "T1" 1000)
           Sample.db_not_started "2027-03-15").
  - reflexivity.
  - reflexivity.
  - reflexivity.
Defined.

End SalesWindow.

Section CalendarTwice.
Import Calendar.

(** X12.  Reading the calendar twice at one instant is reading it once:
    the second read finds no stale hold, writes nothing and answers as the
    first. *)
Theorem calendar_read_is_idempotent (rq : Request) (db : DB) :
  GET rq (snd (GET rq db)) = GET rq db.
Proof.
  destruct (limit_allowed rq) eqn:Hlim.
  2:{ unfold GET. rewrite Hlim. reflexivity. }
  assert (Hnone : filter (expired (now rq)) (expire_rows (now rq) (calendarDay db)) = []).
  { destruct (filter _ _) as [|d l] eqn:E; auto.
    assert (Hd : In d (filter (expired (now rq)) (expire_rows (now rq) (calendarDay db))))
      by (rewrite E; now left).
    apply filter_In in Hd as [Hd He].
    apply expire_rows_not_expired in Hd. congruence. }
  assert (Hfix : expire_rows (now rq) (expire_rows (now rq) (calendarDay db))
                 = expire_rows (now rq) (calendarDay db)).
  { unfold expire_rows at 1. rewrite Hnone. cbn [existsb]. apply map_id. }
  rewrite (surjective_pairing (GET rq (snd (GET rq db)))).
  rewrite (surjective_pairing (GET rq db)) at 3.
  rewrite GET_response, !GET_database by assumption.
  cbn [calendarDay auditLog adminSettings].
  rewrite GET_response by assumption.
  rewrite Hfix, Hnone. cbn [map]. now rewrite app_nil_r.
Qed.

End CalendarTwice.

(** * Further properties of the library functions *)

Section CalendarDates.
Import Validation.

Lemma is_digit_bounds (c : ascii) : is_digit c = true -> 0 <= digit c <= 9.
Proof.
  unfold is_digit, digit. cbv zeta. intro H. apply andb_true_iff in H as [H1 H2].
  apply Nat.leb_le in H1. apply Nat.leb_le in H2. lia.
Qed.

Lemma Some_triple_inj {A B C : Type} (a a' : A) (b b' : B) (c c' : C) :
  Some (a, b, c) = Some (a', b', c') -> a = a' /\ b = b' /\ c = c'.
Proof. intro H. inversion H. auto. Qed.

Lemma parse_date_bounds (s : string) (y m d : Z) :
  parse_date s = Some (y, m, d) -> 0 <= y <= 9999 /\ 0 <= m <= 99 /\ 0 <= d <= 99.
Proof.
  unfold parse_date.
  destruct s as [|y1 [|y2 [|y3 [|y4 [|h1 [|m1 [|m2 [|h2 [|d1 [|d2 [|? ?]]]]]]]]]]];
    try discriminate.
  destruct (is_digit y1) eqn:Y1; [|discriminate].
  destruct (is_digit y2) eqn:Y2; [|discriminate].
  destruct (is_digit y3) eqn:Y3; [|discriminate].
  destruct (is_digit y4) eqn:Y4; [|discriminate].
  destruct (Ascii.eqb h1 "-"); [|discriminate].
  destruct (is_digit m1) eqn:M1; [|discriminate].
  destruct (is_digit m2) eqn:M2; [|discriminate].
  destruct (Ascii.eqb h2 "-"); [|discriminate].
  destruct (is_digit d1) eqn:D1; [|discriminate].
  destruct (is_digit d2) eqn:D2; [|discriminate].
  intro H. cbv [andb] in H. apply Some_triple_inj in H as (Ey & Em & Ed).
  apply is_digit_bounds in Y1, Y2, Y3, Y4, M1, M2, D1, D2. lia.
Qed.

(** The integers from [a], [n] of them. *)
Lemma In_Z_range (a : Z) (n : nat) (z : Z) :
  a <= z < a + Z.of_nat n -> In z (map (fun k => a + Z.of_nat k) (seq 0 n)).
Proof.
  intro H. apply in_map_iff. exists (Z.to_nat (z - a)). split; [lia|].
  apply in_seq. lia.
Qed.

(** The round trip through [Date.UTC] keeps a day of the year 2027 exactly
    when the month has that day. *)
Lemma Date_UTC_roundtrip_2027 (m d : Z) :
  1 <= m <= 12 -> 0 <= d <= 99 ->
  (let '(fy, fm, fd) := Date_UTC_fields 2027 (m - 1) d in
   (fy =? 2027) && (fm =? m - 1) && (fd =? d))
  = (1 <=? d) && (d <=? days_in_month 2027 (m - 1)).
Proof.
  intros Hm Hd.
  assert (H : forallb (fun m =>
                forallb (fun d =>
                  Bool.eqb (let '(fy, fm, fd) := Date_UTC_fields 2027 (m - 1) d in
                            (fy =? 2027) && (fm =? m - 1) && (fd =? d))
                           ((1 <=? d) && (d <=? days_in_month 2027 (m - 1))))
                  (map (fun k => 0 + Z.of_nat k) (seq 0 100)))
                (map (fun k => 1 + Z.of_nat k) (seq 0 12)) = true)
    by (vm_compute; reflexivity).
  rewrite forallb_forall in H. specialize (H m (In_Z_range 1 12 m ltac:(lia))).
  rewrite forallb_forall in H. specialize (H d (In_Z_range 0 100 d ltac:(lia))).
  now apply Bool.eqb_prop in H.
Qed.

(** X13.  [validateCalendarDate] accepts exactly the texts YYYY-MM-DD of
    the year 2027 whose month is 01 to 12 and whose day exists in that month
    (day 00, 2027-02-29 and 2027-04-31 are refused). *)
Theorem validateCalendarDate_accepts_days_of_2027 (s : string) :
  validateCalendarDate s = true
  <-> exists m d,
        parse_date s = Some (2027, m, d)
        /\ 1 <= m <= 12
        /\ 1 <= d <= days_in_month 2027 (m - 1).
Proof.
  unfold validateCalendarDate.
  destruct (parse_date s) as [[[y m] d]|] eqn:Hp.
  2:{ split; [discriminate|]. intros (m & d & H & _). discriminate. }
  destruct (parse_date_bounds s y m d Hp) as (_ & Hm & Hd).
  unfold CALENDAR_YEAR.
  destruct (y =? 2027) eqn:Hy; cbn [negb].
  2:{ split; [discriminate|]. intros (m' & d' & H & _). injection H as -> _ _.
      now rewrite Z.eqb_refl in Hy. }
  apply Z.eqb_eq in Hy. subst y.
  destruct ((m <? 1) || (m >? 12)) eqn:Hrange.
  { split; [discriminate|]. intros (m' & d' & H & Hm' & _). injection H as -> ->.
    apply orb_true_iff in Hrange as [H | H]; [apply Z.ltb_lt in H | apply Z.gtb_lt in H]; lia. }
  apply orb_false_iff in Hrange as [H1 H2].
  apply Z.ltb_ge in H1. rewrite Z.gtb_ltb in H2. apply Z.ltb_ge in H2.
  rewrite Date_UTC_roundtrip_2027 by lia.
  rewrite andb_true_iff, !Z.leb_le. split.
  - intros [Ha Hb]. exists m, d. repeat split; auto; lia.
  - intros (m' & d' & H & _ & Hd'). injection H as -> ->. lia.
Qed.

End CalendarDates.

(** * Further properties of the texts, the order ids, the limiter and the scripts *)

Section DedicationText.
Import Dedication DedicationForm.

Lemma all_space_trimEnd (s : string) :
  all_space s = false -> all_space (trimEnd s) = false.
Proof.
  induction s as [|c r IH]; intro H; [discriminate|].
  cbn [trimEnd]. rewrite H. cbn [all_space] in *.
  destruct (is_space c); [|reflexivity]. cbn [andb] in *. auto.
Qed.

Lemma trimEnd_idempotent (s : string) : trimEnd (trimEnd s) = trimEnd s.
Proof.
  induction s as [|c r IH]; [reflexivity|].
  cbn [trimEnd]. destruct (all_space (String c r)) eqn:E; [reflexivity|].
  cbn [trimEnd]. rewrite IH.
  replace (all_space (String c (trimEnd r))) with false; [reflexivity|].
  symmetry. cbn [all_space] in *. destruct (is_space c); [|reflexivity].
  cbn [andb] in *. now apply all_space_trimEnd.
Qed.

Lemma trimStart_head (s : string) :
  trimStart s = "" \/ exists c r, trimStart s = String c r /\ is_space c = false.
Proof.
  induction s as [|c r IH]; [now left|].
  cbn [trimStart]. destruct (is_space c) eqn:E; [exact IH|].
  right. eauto.
Qed.

(** After [trim] the text is empty or starts with a character that is no
    whitespace, and trimming its end again changes nothing. *)
Lemma trim_shape (s : string) :
  trim s = ""
  \/ exists c r, trim s = String c r /\ is_space c = false /\ trimEnd r = r.
Proof.
  unfold trim. destruct (trimStart_head s) as [-> | (c & r & -> & Hc)]; [now left|].
  right. cbn [trimEnd all_space]. rewrite Hc. cbn [andb].
  exists c, (trimEnd r). repeat split; auto. apply trimEnd_idempotent.
Qed.

Lemma trimEnd_fixed_tail (c : ascii) (r : string) :
  trimEnd (String c r) = String c r -> all_space (String c r) = false /\ trimEnd r = r.
Proof.
  cbn [trimEnd]. destruct (all_space (String c r)); [discriminate|].
  intro H. split; [reflexivity|]. now injection H.
Qed.

Lemma collapse_single_spaced (s : string) (b : bool) :
  trimEnd s = s -> (s = "" -> b = false) ->
  single_spaced b (collapse b s) = true.
Proof.
  revert b. induction s as [|c r IH]; intros b Hfix Hb.
  - cbn. now rewrite Hb.
  - apply trimEnd_fixed_tail in Hfix as [Hall Hr].
    cbn [collapse]. destruct (is_space c) eqn:Ec.
    + assert (Hne : r = "" -> true = false).
      { intros ->. cbn [all_space] in Hall. now rewrite Ec in Hall. }
      destruct b.
      * apply IH; auto.
      * cbn [single_spaced]. cbn. apply IH; auto.
    + cbn [single_spaced]. rewrite Ec. apply IH; auto.
Qed.

Lemma sanitized_is_normalized (text : string) :
  normalized (sanitizeDedicationText text) = true.
Proof.
  unfold sanitizeDedicationText.
  destruct (trim_shape text) as [-> | (c & r & -> & Hc & Hr)]; [reflexivity|].
  cbn [collapse]. rewrite Hc. unfold normalized. cbn [single_spaced]. rewrite Hc.
  apply collapse_single_spaced; auto.
Qed.

Lemma length_trimStart (s : string) : (String.length (trimStart s) <= String.length s)%nat.
Proof.
  induction s as [|c r IH]; cbn [trimStart String.length]; [lia|].
  destruct (is_space c); cbn [String.length]; lia.
Qed.

Lemma length_trimEnd (s : string) : (String.length (trimEnd s) <= String.length s)%nat.
Proof.
  induction s as [|c r IH]; cbn [trimEnd String.length]; [lia|].
  destruct (all_space (String c r)); cbn [String.length]; lia.
Qed.

Lemma length_collapse (s : string) (b : bool) :
  (String.length (collapse b s) <= String.length s)%nat.
Proof.
  revert b. induction s as [|c r IH]; intro b; cbn [collapse String.length]; [lia|].
  destruct (is_space c); [destruct b|]; cbn [String.length];
    first [ specialize (IH true); lia | specialize (IH false); lia ].
Qed.

Lemma length_sanitized (text : string) :
  (String.length (sanitizeDedicationText text) <= String.length text)%nat.
Proof.
  unfold sanitizeDedicationText, trim.
  pose proof (length_collapse (trimEnd (trimStart text)) false).
  pose proof (length_trimEnd (trimStart text)).
  pose proof (length_trimStart text). lia.
Qed.

(** X14.  The sanitised dedication text is normalized: it has no leading
    and no trailing whitespace, its only whitespace characters are single
    spaces between two other characters, and it is no longer than the text
    it comes from. *)
Theorem sanitizeDedicationText_normalizes (text : string) :
  normalized (sanitizeDedicationText text) = true
  /\ (String.length (sanitizeDedicationText text) <= String.length text)%nat.
Proof. split; [apply sanitized_is_normalized | apply length_sanitized]. Qed.

Lemma single_spaced_collapse (s : string) (b : bool) :
  single_spaced b s = true -> collapse b s = s.
Proof.
  revert b. induction s as [|c r IH]; intros b H; [reflexivity|].
  cbn [single_spaced collapse] in *. destruct (is_space c).
  - apply andb_true_iff in H as [H Hr]. apply andb_true_iff in H as [Hb Hc].
    apply negb_true_iff in Hb. subst b. apply Ascii.eqb_eq in Hc. subst c.
    f_equal. now apply IH.
  - f_equal. now apply IH.
Qed.

Lemma single_spaced_not_blank (s : string) (b : bool) :
  single_spaced b s = true -> s <> "" -> all_space s = false.
Proof.
  revert b. induction s as [|c r IH]; intros b H Hne; [contradiction|].
  cbn [single_spaced all_space] in *. destruct (is_space c); [|reflexivity].
  cbn [andb]. apply andb_true_iff in H as [_ Hr].
  apply (IH true Hr). intros ->. discriminate Hr.
Qed.

Lemma single_spaced_trimEnd (s : string) (b : bool) :
  single_spaced b s = true -> trimEnd s = s.
Proof.
  revert b. induction s as [|c r IH]; intros b H; [reflexivity|].
  cbn [trimEnd]. rewrite (single_spaced_not_blank _ b H) by discriminate.
  f_equal. cbn [single_spaced] in H. destruct (is_space c).
  - apply andb_true_iff in H as [_ Hr]. eapply IH; eauto.
  - eapply IH; eauto.
Qed.

(** A normalized text is a fixed point of the sanitiser. *)
Lemma normalized_fixed (s : string) :
  normalized s = true -> sanitizeDedicationText s = s.
Proof.
  destruct s as [|c r]; [reflexivity|]. unfold normalized. intro H.
  unfold sanitizeDedicationText, trim.
  assert (Hc : is_space c = false).
  { cbn [single_spaced] in H. destruct (is_space c); [discriminate H | reflexivity]. }
  cbn [trimStart]. rewrite Hc.
  rewrite (single_spaced_trimEnd _ true H).
  cbn [collapse]. rewrite Hc. f_equal.
  apply single_spaced_collapse. cbn [single_spaced] in H. now rewrite Hc in H.
Qed.

(** X15.  Sanitising is idempotent, and its fixed points are exactly the
    normalized texts. *)
Theorem sanitizeDedicationText_idempotent (text : string) :
  sanitizeDedicationText (sanitizeDedicationText text) = sanitizeDedicationText text
  /\ (sanitizeDedicationText text = text <-> normalized text = true).
Proof.
  split; [apply normalized_fixed; apply sanitized_is_normalized|].
  split; [|apply normalized_fixed].
  intro H. rewrite <- H. apply sanitized_is_normalized.
Qed.

Lemma all_chars_trimStart (p : ascii -> bool) (s : string) :
  all_chars p s = true -> all_chars p (trimStart s) = true.
Proof.
  induction s as [|c r IH]; intro H; [reflexivity|].
  cbn [trimStart]. destruct (is_space c); [|exact H].
  cbn [all_chars] in H. apply andb_true_iff in H as [_ H]. auto.
Qed.

Lemma all_chars_trimEnd (p : ascii -> bool) (s : string) :
  all_chars p s = true -> all_chars p (trimEnd s) = true.
Proof.
  induction s as [|c r IH]; intro H; [reflexivity|].
  cbn [trimEnd]. destruct (all_space (String c r)); [reflexivity|].
  cbn [all_chars] in *. apply andb_true_iff in H as [Hc H]. rewrite Hc. cbn [andb]. auto.
Qed.

Lemma all_chars_collapse (p : ascii -> bool) (s : string) (b : bool) :
  p " "%char = true -> all_chars p s = true -> all_chars p (collapse b s) = true.
Proof.
  intro Hsp. revert b. induction s as [|c r IH]; intros b H; [reflexivity|].
  cbn [all_chars] in H. apply andb_true_iff in H as [Hc H].
  cbn [collapse]. destruct (is_space c); [destruct b|]; cbn [all_chars].
  - auto.
  - rewrite Hsp. cbn [andb]. auto.
  - rewrite Hc. cbn [andb]. auto.
Qed.

Lemma all_chars_sanitized (p : ascii -> bool) (text : string) :
  p " "%char = true -> all_chars p text = true ->
  all_chars p (sanitizeDedicationText text) = true.
Proof.
  intros Hsp H. unfold sanitizeDedicationText, trim.
  apply all_chars_collapse; auto. apply all_chars_trimEnd. now apply all_chars_trimStart.
Qed.

Lemma normalized_trim (s : string) : normalized s = true -> trim s = s.
Proof.
  destruct s as [|c r]; [reflexivity|]. unfold normalized, trim. intro H.
  assert (Hc : is_space c = false).
  { cbn [single_spaced] in H. destruct (is_space c); [discriminate H | reflexivity]. }
  cbn [trimStart]. rewrite Hc. exact (single_spaced_trimEnd _ true H).
Qed.

(** The sanitised text is empty exactly when the text is blank. *)
Lemma sanitized_empty (text : string) :
  sanitizeDedicationText text = "" <-> trim text = "".
Proof.
  unfold sanitizeDedicationText.
  destruct (trim_shape text) as [-> | (c & r & -> & Hc & Hr)].
  - split; reflexivity.
  - cbn [collapse]. rewrite Hc. split; discriminate.
Qed.

Lemma blank_test (text : string) :
  String.eqb text "" || String.eqb (trim text) "" = true <-> trim text = "".
Proof.
  rewrite orb_true_iff, !String.eqb_eq. split.
  - intros [-> | H]; [reflexivity | exact H].
  - auto.
Qed.

(** X16.  A text that [validateDedicationText] accepts is still accepted
    once sanitised, under the same options: the routes validate the text as
    typed and store the sanitised one, and what they store would pass the
    validation. *)
Theorem sanitised_text_stays_valid (text : string) (required emojisAllowed : bool) :
  valid (validateDedicationText text required emojisAllowed) = true ->
  valid (validateDedicationText (sanitizeDedicationText text) required emojisAllowed) = true.
Proof.
  unfold validateDedicationText.
  destruct (String.eqb text "" || String.eqb (trim text) "") eqn:Hblank.
  - apply blank_test in Hblank. apply sanitized_empty in Hblank. rewrite Hblank.
    cbn [String.eqb orb]. auto.
  - assert (Hnb : String.eqb (sanitizeDedicationText text) ""
                  || String.eqb (trim (sanitizeDedicationText text)) "" = false).
    { destruct (String.eqb (sanitizeDedicationText text) ""
                || String.eqb (trim (sanitizeDedicationText text)) "") eqn:E; [|reflexivity].
      apply blank_test in E. rewrite normalized_trim in E by apply sanitized_is_normalized.
      apply sanitized_empty in E. apply blank_test in E. congruence. }
    rewrite Hnb.
    destruct (MAX_DEDICATION_LENGTH <? String.length text)%nat eqn:Hlen; [discriminate|].
    apply Nat.ltb_ge in Hlen.
    replace (MAX_DEDICATION_LENGTH <? String.length (sanitizeDedicationText text))%nat
      with false
      by (symmetry; apply Nat.ltb_ge; pose proof (length_sanitized text); lia).
    destruct (all_chars _ text) eqn:Hch; [|discriminate]. intros _.
    rewrite all_chars_sanitized; [reflexivity | | exact Hch].
    destruct emojisAllowed; reflexivity.
Qed.

Lemma sanitised_text_stays_valid_witness :
  valid (validateDedicationText (sanitizeDedicationText "  For   Mum ") true false) = true.
Proof.
  apply (sanitised_text_stays_valid "  For   Mum " true false). reflexivity.
Defined.

End DedicationText.

Section StoredText.
Import Dedication DedicationForm AdminDays.

(** X17.  A successful edit of the dedication text changes, on the row of
    its SOLD day, the dedication text alone, and what it stores is either
    null (for a blank text) or a non-empty normalized text of at most 26
    characters. *)
Theorem edit_stores_normalized_text (rq : AdminDays.Request) (db : DB) :
  http_status (fst (PATCH rq db)) = 200 ->
  exists day stored,
    find (by_date (AdminDays.date rq)) (calendarDay db) = Some day
    /\ Day.status day = SOLD
    /\ find (by_date (AdminDays.date rq)) (calendarDay (snd (PATCH rq db)))
       = Some (Col.dedicationText stored day)
    /\ match stored with
       | None => True
       | Some t => t <> "" /\ normalized t = true
                   /\ (String.length t <= MAX_DEDICATION_LENGTH)%nat
       end.
Proof.
  intro H200.
  destruct (PATCH rq db) as [resp db'] eqn:Hout. cbn [fst snd] in *.
  unfold PATCH, insert_entry in Hout.
  destruct (AdminDays.session rq) as [session|]; [|injection Hout as <- _; discriminate].
  destruct (negb (Validation.validateCalendarDate (AdminDays.date rq)));
    [injection Hout as <- _; discriminate|].
  destruct (AdminDays.request_body rq) as [[text reason]|];
    [|injection Hout as <- _; discriminate].
  set (raw := match text with Some t => t | None => "" end) in *.
  destruct (valid (validateDedicationText raw false _)) eqn:Hvalid;
    [|injection Hout as <- _; discriminate].
  cbn [negb] in Hout.
  unfold statement, transaction, findUnique, createAuditLog, auditLog_create in Hout.
  destruct (find (by_date (AdminDays.date rq)) (calendarDay db)) as [day|] eqn:Hf;
    [|injection Hout as <- _; discriminate].
  destruct (DayStatus_eqb (Day.status day) SOLD) eqn:Hst;
    [|injection Hout as <- _; discriminate].
  cbn [negb] in Hout.
  destruct (update (Day.id day) _ db) as [[updated db2]|m] eqn:Hup;
    [|injection Hout as <- _; discriminate].
  apply update_rows in Hup. subst db2.
  destruct (auditLog_create_answer rq) as [u|m]; [|injection Hout as <- _; discriminate].
  injection Hout as _ <-.
  exists day, (orNull (Some (sanitizeDedicationText raw))).
  split; [reflexivity|]. split; [now apply DayStatus_eqb_eq|]. split.
  - cbn [calendarDay with_audit with_days].
    rewrite find_date_replace_row by reflexivity. rewrite Hf. cbn [option_map].
    unfold by_id. now rewrite String.eqb_refl.
  - unfold orNull, orElse, truthy.
    destruct (sanitizeDedicationText raw) as [|c r] eqn:Hs; [exact I|].
    split; [discriminate|]. rewrite <- Hs.
    split; [apply sanitized_is_normalized|].
    unfold validateDedicationText in Hvalid.
    destruct (String.eqb raw "" || String.eqb (trim raw) "") eqn:Hblank.
    { apply blank_test in Hblank. apply sanitized_empty in Hblank. congruence. }
    destruct (MAX_DEDICATION_LENGTH <? String.length raw)%nat eqn:Hlen; [discriminate|].
    apply Nat.ltb_ge in Hlen. pose proof (length_sanitized raw). lia.
Qed.

Lemma edit_stores_normalized_text_witness :
  exists day stored,
    find (by_date (AdminDays.date (Sample.edit_request "2027-03-15" " For  Mom ")))
      (calendarDay Sample.db_sold) = Some day
    /\ Day.status day = SOLD
    /\ find (by_date (AdminDays.date (Sample.edit_request "2027-03-15" " For  Mom ")))
         (calendarDay (snd (PATCH (Sample.edit_request "2027-03-15" " For  Mom ")
                              Sample.db_sold)))
       = Some (Col.dedicationText stored day)
    /\ match stored with
       | None => True
       | Some t => t <> "" /\ normalized t = true
                   /\ (String.length t <= MAX_DEDICATION_LENGTH)%nat
       end.
Proof.
  apply (edit_stores_normalized_text (Sample.edit_request "2027-03-15" " For  Mom ")
           Sample.db_sold).
  vm_compute. reflexivity.
Defined.

End StoredText.

Section OrderIds.

Lemma number_of_String_of_nat (n : nat) : number_of_digits (String_of_nat n) = Some n.
Proof.
  unfold number_of_digits, String_of_nat, NilZero.string_of_uint.
  pose proof (DecimalNat.Unsigned.of_to n) as H.
  destruct (Nat.to_uint n) eqn:E; try (rewrite NilEmpty.usu; cbn [option_map]; now rewrite H).
  cbn in H. subst n. reflexivity.
Qed.

Lemma number_of_leading_zero (s : string) :
  number_of_digits (String "0" s) = number_of_digits s.
Proof.
  unfold number_of_digits. cbn [NilEmpty.uint_of_string uint_of_char].
  destruct (NilEmpty.uint_of_string s) as [d|]; reflexivity.
Qed.

Lemma number_of_padStart0 (s : string) (width : nat) :
  number_of_digits (padStart0 s width) = number_of_digits s.
Proof.
  unfold padStart0. induction (width - String.length s)%nat as [|k IH]; [reflexivity|].
  cbn [repeat_char append]. now rewrite number_of_leading_zero.
Qed.

Lemma append_cancel_l (p a b : string) : p ++ a = p ++ b -> a = b.
Proof.
  induction p as [|c p IH]; cbn [append]; intro H; [exact H|].
  injection H as H. auto.
Qed.

(** X18.  An order id is a function of the year and of the number of SOLD
    rows that have an order id, and for one year two order ids are equal
    exactly when those numbers are: the id repeats as soon as the count
    comes back to an earlier value.  The call leaves the database as it
    is. *)
Theorem order_id_is_the_sold_count (year : nat) (db1 db2 : DB) :
  exists o1 o2,
    OrderNumber.generateOrderId year db1 = Returned (o1, db1)
    /\ OrderNumber.generateOrderId year db2 = Returned (o2, db2)
    /\ (o1 = o2 <-> sold_orders db1 = sold_orders db2).
Proof.
  exists ("ACF-" ++ String_of_nat year ++ "-"
          ++ padStart0 (String_of_nat (sold_orders db1 + 1)) 5),
         ("ACF-" ++ String_of_nat year ++ "-"
          ++ padStart0 (String_of_nat (sold_orders db2 + 1)) 5).
  split; [reflexivity|]. split; [reflexivity|]. split.
  - intro H. apply append_cancel_l in H. apply append_cancel_l in H.
    apply append_cancel_l in H.
    apply (f_equal number_of_digits) in H.
    rewrite !number_of_padStart0, !number_of_String_of_nat in H.
    injection H as H. lia.
  - intro H. now rewrite H.
Qed.

End OrderIds.

Section RateLimiter.
Import RateLimit.
Variables maxRequests windowMs : Z.

Lemma get_set_same (key : string) (e : RateLimitEntry) (store : Store) :
  get key (set key e store) = Some e.
Proof.
  induction store as [|[k e0] rest IH]; cbn [set get].
  - now rewrite String.eqb_refl.
  - destruct (String.eqb k key) eqn:E; cbn [get]; now rewrite E.
Qed.

Lemma get_set_other (key k' : string) (e : RateLimitEntry) (store : Store) :
  String.eqb key k' = false -> get k' (set key e store) = get k' store.
Proof.
  intro Hne. induction store as [|[k e0] rest IH]; cbn [set get].
  - now rewrite Hne.
  - destruct (String.eqb k key) eqn:E; cbn [get].
    + apply String.eqb_eq in E. subst k. now rewrite Hne.
    + destruct (String.eqb k k'); auto.
Qed.

(** A call for one key leaves the entries of the other keys alone. *)
Lemma check_other_key (key k' : string) (now : Z) (store : Store) :
  String.eqb key k' = false ->
  get k' (snd (check maxRequests windowMs key now store)) = get k' store.
Proof.
  intro Hne. unfold check.
  destruct (get key store) as [e|]; cbn [snd]; [|now apply get_set_other].
  destruct (now >? resetAt e); cbn [snd]; [now apply get_set_other|].
  destruct (count e >=? maxRequests); cbn [snd]; [reflexivity | now apply get_set_other].
Qed.

(** The timer leaves an entry whose window is still open. *)
Lemma get_cleanup (key : string) (now : Z) (e : RateLimitEntry) (store : Store) :
  get key store = Some e -> now <= resetAt e -> get key (cleanup now store) = Some e.
Proof.
  intros Hget Hnow. induction store as [|[k e0] rest IH]; [discriminate|].
  cbn [get] in Hget. cbn [cleanup filter snd].
  destruct (String.eqb k key) eqn:Ek.
  - injection Hget as ->.
    replace (now >? resetAt e) with false
      by (symmetry; rewrite Z.gtb_ltb; apply Z.ltb_ge; lia).
    cbn [negb get]. now rewrite Ek.
  - destruct (negb (now >? resetAt e0)); cbn [get]; [rewrite Ek|]; now apply IH.
Qed.

(** Inside a window that is open for [key] with [c] calls counted, the
    next calls for [key] are allowed until the count reaches the limit. *)
Lemma allowed_in_window (key : string) (events : list Event) (store : Store)
    (c r : Z) :
  get key store = Some {| count := c; resetAt := r |} ->
  Forall (in_window key r) events ->
  Z.of_nat (allowed_calls maxRequests windowMs key events store)
  = Z.min (Z.of_nat (List.length (calls_for key events))) (Z.max 0 (maxRequests - c)).
Proof.
  revert store c. induction events as [|[k now|now] rest IH]; intros store c Hget Hall.
  - cbn. lia.
  - inversion Hall as [|? ? Hnow Hrest]; subst. cbn [in_window] in Hnow.
    cbn [allowed_calls calls_for filter is_call_for].
    destruct (check maxRequests windowMs k now store) as [v store'] eqn:Hc.
    destruct (String.eqb k key) eqn:Ek.
    + apply String.eqb_eq in Ek. subst k. specialize (Hnow eq_refl).
      unfold check in Hc. rewrite Hget in Hc. cbn [count resetAt] in Hc.
      replace (now >? r) with false in Hc by (symmetry; rewrite Z.gtb_ltb; apply Z.ltb_ge; lia).
      destruct (c >=? maxRequests) eqn:Hfull.
      * injection Hc as <- <-. cbn [allowed andb List.length].
        rewrite Nat.add_0_l, (IH store c Hget Hrest).
        apply Z.geb_le in Hfull. unfold calls_for. lia.
      * injection Hc as <- <-. cbn [allowed andb List.length].
        rewrite Nat2Z.inj_add, (IH _ (c + 1) (get_set_same _ _ _) Hrest).
        rewrite Z.geb_leb in Hfull. apply Z.leb_gt in Hfull. unfold calls_for. lia.
    + cbn [andb]. rewrite Nat.add_0_l.
      apply (IH store' c); [|exact Hrest].
      replace store' with (snd (check maxRequests windowMs k now store))
        by (now rewrite Hc).
      rewrite check_other_key by assumption. exact Hget.
  - inversion Hall as [|? ? Hnow Hrest]; subst. cbn [in_window] in Hnow.
    cbn [allowed_calls calls_for filter is_call_for].
    apply (IH _ c); [|exact Hrest].
    now apply get_cleanup.
Qed.

(** X19.  From the call that opens a window for a key (the key has no
    entry, or its window has passed) until that window ends, exactly the
    first max(1, maxRequests) calls for the key are allowed and every later
    one is refused, whatever calls for other keys and runs of the cleanup
    timer come in between. *)
Theorem limiter_allows_the_first_calls_of_a_window (key : string) (t0 : Z)
    (events : list Event) (store : Store) :
  match get key store with
  | None => True
  | Some e => t0 > resetAt e
  end ->
  Forall (in_window key (t0 + windowMs)) events ->
  Z.of_nat (allowed_calls maxRequests windowMs key (Check key t0 :: events) store)
  = Z.min (1 + Z.of_nat (List.length (calls_for key events))) (Z.max 1 maxRequests).
Proof.
  intros Hopen Hall. cbn [allowed_calls].
  assert (Hc : check maxRequests windowMs key t0 store
               = ({| allowed := true; remaining := maxRequests - 1;
                     verdict_resetAt := t0 + windowMs |},
                  set key {| count := 1; resetAt := t0 + windowMs |} store)).
  { unfold check. destruct (get key store) as [e|]; [|reflexivity].
    replace (t0 >? resetAt e) with true; [reflexivity|].
    symmetry. rewrite Z.gtb_ltb. apply Z.ltb_lt. lia. }
  rewrite Hc, String.eqb_refl. cbn [allowed andb].
  rewrite Nat2Z.inj_add.
  rewrite (allowed_in_window key events _ 1 (t0 + windowMs) (get_set_same _ _ _) Hall).
  lia.
Qed.

End RateLimiter.

Lemma limiter_allows_the_first_calls_of_a_window_witness :
  Z.of_nat (RateLimit.allowed_calls 2 60000 "203.0.113.7"
              [RateLimit.Check "203.0.113.7" 1000; RateLimit.Check "198.51.100.4" 1500;
               RateLimit.Check "203.0.113.7" 2000; RateLimit.Cleanup 30000;
               RateLimit.Check "203.0.113.7" 61000] [])
  = Z.min (1 + Z.of_nat (List.length (RateLimit.calls_for "203.0.113.7"
                                        [RateLimit.Check "198.51.100.4" 1500;
                                         RateLimit.Check "203.0.113.7" 2000;
                                         RateLimit.Cleanup 30000;
                                         RateLimit.Check "203.0.113.7" 61000])))
          (Z.max 1 2).
Proof.
  apply (limiter_allows_the_first_calls_of_a_window 2 60000 "203.0.113.7" 1000).
  - exact I.
  - repeat constructor; cbn; intros; try discriminate; lia.
Defined.

Section ResetScript.
Import ResetHolds.

(** X20.  The reset script turns every day under checkout hold, expired or
    not, into an AVAILABLE day with no hold token and no expiry, and leaves
    every other day as it is; it keeps the invariant of the resources, and it
    writes no audit entry for the transitions it makes. *)
Theorem reset_holds_frees_every_hold (db : DB) :
  resource_invariant db ->
  resource_invariant (snd (main db))
  /\ Forall (fun d => Day.status d <> CHECKOUT_HOLD) (calendarDay (snd (main db)))
  /\ (forall d, In d (calendarDay db) ->
        if stuck d then In (reset d) (calendarDay (snd (main db)))
        else In d (calendarDay (snd (main db))))
  /\ auditLog (snd (main db)) = auditLog db
  /\ fst (main db) = List.length (filter stuck (calendarDay db)).
Proof.
  intros [[U F] S]. unfold main. cbn [fst snd calendarDay auditLog with_days].
  split; [|split; [|split; [|split; reflexivity]]].
  - split; [split|].
    + unfold unique_id, ids in *. cbn [calendarDay with_days]. rewrite map_map.
      erewrite map_ext; [exact U|]. intro d. now destruct (stuck d).
    + cbn [calendarDay with_days]. rewrite Forall_forall in *.
      intros x Hx. apply in_map_iff in Hx as (d & <- & Hd).
      destruct (stuck d); [|auto].
      split; [split; cbn; split; intro H; congruence | intro H; discriminate].
    + cbn [calendarDay with_days]. rewrite Forall_forall in *.
      intros x Hx. apply in_map_iff in Hx as (d & <- & Hd).
      destruct (stuck d) eqn:E.
      * apply DayStatus_eqb_eq in E. intro Hset.
        destruct (S d Hd Hset) as [H | H]; [congruence | right; exact H].
      * intro Hset. destruct (S d Hd Hset) as [H | H]; [now left | right; exact H].
  - rewrite Forall_forall. intros x Hx. apply in_map_iff in Hx as (d & <- & Hd).
    destruct (stuck d) eqn:E; [discriminate|]. now apply DayStatus_eqb_neq.
  - intros d Hd. destruct (stuck d) eqn:E; apply in_map_iff; exists d; now rewrite E.
Qed.

Lemma reset_holds_frees_every_hold_witness :
  resource_invariant (snd (main Sample.db_hold_only))
  /\ Forall (fun d => Day.status d <> CHECKOUT_HOLD) (calendarDay (snd (main Sample.db_hold_only)))
  /\ (forall d, In d (calendarDay Sample.db_hold_only) ->
        if stuck d then In (reset d) (calendarDay (snd (main Sample.db_hold_only)))
        else In d (calendarDay (snd (main Sample.db_hold_only))))
  /\ auditLog (snd (main Sample.db_hold_only)) = auditLog Sample.db_hold_only
  /\ fst (main Sample.db_hold_only)
     = List.length (filter stuck (calendarDay Sample.db_hold_only)).
Proof.
  apply (reset_holds_frees_every_hold Sample.db_hold_only).
  apply (run_resource_invariant
           [HoldCreate (Sample.hold_request "2027-03-15" "T1" 1000)] Sample.w0).
  exact seeded_resource_invariant.
Defined.

End ResetScript.

Section SeededDates.
Import Validation.

Lemma is_digit_char (c : ascii) :
  is_digit c = true -> c = ascii_of_nat (Z.to_nat (digit c) + 48).
Proof.
  intro H. pose proof (is_digit_bounds c H) as Hb. unfold digit in *.
  replace (Z.to_nat (Z.of_nat (nat_of_ascii c) - 48) + 48)%nat with (nat_of_ascii c) by lia.
  symmetry. apply ascii_nat_embedding.
Qed.

Lemma days_from_enough (n k : nat) (d e : Seed.Day) :
  (List.length (Seed.days_from n d e) < n)%nat ->
  Seed.days_from (n + k) d e = Seed.days_from n d e.
Proof.
  revert d. induction n as [|n IH]; intros d H; [inversion H|].
  cbn [Nat.add Seed.days_from] in *.
  destruct (Seed.before d e); [|reflexivity].
  cbn [List.length] in H. f_equal. apply IH. lia.
Qed.



Lemma digits_checked :
  forallb (fun a => forallb (fun b => forallb (fun c => forallb (fun e =>
    if validateCalendarDate (date_2027 a b c e)
    then existsb (String.eqb (date_2027 a b c e)) seeded_dates
    else true)
    (map (fun k => 0 + Z.of_nat k) (seq 0 10)))
    (map (fun k => 0 + Z.of_nat k) (seq 0 10)))
    (map (fun k => 0 + Z.of_nat k) (seq 0 10)))
    (map (fun k => 0 + Z.of_nat k) (seq 0 10)) = true.
Proof. vm_compute. reflexivity. Qed.

(** An accepted text is 2027-MM-DD for four digits. *)
Lemma accepted_text (s : string) :
  validateCalendarDate s = true ->
  exists a b c e,
    0 <= a <= 9 /\ 0 <= b <= 9 /\ 0 <= c <= 9 /\ 0 <= e <= 9 /\ s = date_2027 a b c e.
Proof.
  intro Hv. unfold validateCalendarDate in Hv.
  destruct (parse_date s) as [[[y m] d]|] eqn:Hp; [|discriminate].
  unfold CALENDAR_YEAR in Hv.
  destruct (y =? 2027) eqn:Hy; [|discriminate]. apply Z.eqb_eq in Hy. subst y.
  clear Hv. unfold parse_date in Hp.
  destruct s as [|y1 [|y2 [|y3 [|y4 [|h1 [|m1 [|m2 [|h2 [|d1 [|d2 [|? ?]]]]]]]]]]];
    try discriminate.
  destruct (is_digit y1) eqn:Y1; [|discriminate].
  destruct (is_digit y2) eqn:Y2; [|discriminate].
  destruct (is_digit y3) eqn:Y3; [|discriminate].
  destruct (is_digit y4) eqn:Y4; [|discriminate].
  destruct (Ascii.eqb h1 "-") eqn:H1; [|discriminate].
  destruct (is_digit m1) eqn:M1; [|discriminate].
  destruct (is_digit m2) eqn:M2; [|discriminate].
  destruct (Ascii.eqb h2 "-") eqn:H2; [|discriminate].
  destruct (is_digit d1) eqn:D1; [|discriminate].
  destruct (is_digit d2) eqn:D2; [|discriminate].
  cbv [andb] in Hp. apply Some_triple_inj in Hp as (Ey & _ & _).
  apply Ascii.eqb_eq in H1. apply Ascii.eqb_eq in H2. subst h1 h2.
  pose proof (is_digit_bounds _ Y1) as B1. pose proof (is_digit_bounds _ Y2) as B2.
  pose proof (is_digit_bounds _ Y3) as B3. pose proof (is_digit_bounds _ Y4) as B4.
  pose proof (is_digit_char _ Y1) as C1. pose proof (is_digit_char _ Y2) as C2.
  pose proof (is_digit_char _ Y3) as C3. pose proof (is_digit_char _ Y4) as C4.
  assert (E1 : digit y1 = 2) by lia. assert (E2 : digit y2 = 0) by lia.
  assert (E3 : digit y3 = 2) by lia. assert (E4 : digit y4 = 7) by lia.
  rewrite E1 in C1. rewrite E2 in C2. rewrite E3 in C3. rewrite E4 in C4.
  exists (digit m1), (digit m2), (digit d1), (digit d2).
  split; [now apply is_digit_bounds|]. split; [now apply is_digit_bounds|].
  split; [now apply is_digit_bounds|]. split; [now apply is_digit_bounds|].
  unfold date_2027, digit_char.
  rewrite <- (is_digit_char m1 M1), <- (is_digit_char m2 M2),
    <- (is_digit_char d1 D1), <- (is_digit_char d2 D2).
  subst y1 y2 y3 y4. reflexivity.
Qed.

(** X21.  The dates the hold, payment and admin endpoints accept are
    exactly the dates the seed creates: the 365 days of 2027, each once.
    The loop of [generateDaysForYear] leaves on its own condition. *)
Theorem accepted_dates_are_the_seeded_dates :
  (forall s, validateCalendarDate s = true <-> In s seeded_dates)
  /\ seeded_dates = map Seed.toISODate (Seed.generateDaysForYear 2027)
  /\ List.length seeded_dates = 365%nat
  /\ NoDup seeded_dates
  /\ (forall fuel, (400 <= fuel)%nat ->
        Seed.days_from fuel (2027, 0, 1) (2028, 0, 1) = Seed.generateDaysForYear 2027).
Proof.
  split; [|split; [|split; [|split]]].
  - intro s. split.
    + intro Hv.
      destruct (accepted_text s Hv) as (a & b & c & e & Ha & Hb & Hc & He & ->).
      pose proof digits_checked as Hall.
      rewrite forallb_forall in Hall. specialize (Hall a (In_Z_range 0 10 a ltac:(lia))).
      rewrite forallb_forall in Hall. specialize (Hall b (In_Z_range 0 10 b ltac:(lia))).
      rewrite forallb_forall in Hall. specialize (Hall c (In_Z_range 0 10 c ltac:(lia))).
      rewrite forallb_forall in Hall. specialize (Hall e (In_Z_range 0 10 e ltac:(lia))).
      rewrite Hv in Hall. apply (proj1 (existsb_eqb_In _ _)). exact Hall.
    + revert s. apply forallb_forall. vm_compute. reflexivity.
  - vm_compute. reflexivity.
  - vm_compute. reflexivity.
  - apply distinct_NoDup. vm_compute. reflexivity.
  - intros fuel Hf. replace fuel with (400 + (fuel - 400))%nat by lia.
    apply days_from_enough. vm_compute. lia.
Qed.

End SeededDates.
